(** * Timetable scheduler: conflict detection, CSP search, genetic search

    A shallow embedding of the scheduling core of [timetable_scheduler]
    (models/, schedulers/) together with the properties stated about it.

    Conventions of the embedding:
    - identifiers are Python [str], here [string];
    - a Python [set] whose elements are only tested for membership, sized,
      united or subtracted is a [gset]; where the code iterates over a set in
      an order that influences the result, the order is the parameter
      [set_order] (CPython leaves it unspecified);
    - a Python [dict] that is iterated (insertion order is observable) is an
      association list with unique keys ([dict_get], [dict_set]); a dict that
      is only queried with [.get] is a [gmap];
    - [int] is [Z] (or [nat] for a [len]); [float] is idealised as an exact
      rational [Q];
    - an uncaught exception is the [Raise] outcome of the [result] type;
      limits of the interpreter (recursion depth, memory) are not part of
      the model;
    - recursion and loops without a syntactic bound take a [fuel] argument;
      the bound that [generate_schedule] passes is shown to be enough. *)

From stdpp Require Import gmap strings list fin_sets.
From Stdlib Require Import QArith Qminmax Lqa DecimalString Sorted.
From Stdlib Require OrderedTypeEx.

Set Warnings "-clear-no-such-hyp".

Close Scope Q_scope.
Open Scope string_scope.
Open Scope list_scope.
Open Scope nat_scope.

(** ** Python built-ins used by the code *)

Module Py.

(** Insertion-ordered dictionaries with [str] keys. *)

Fixpoint dict_get {V} (k : string) (d : list (string * V)) : option V :=
  match d with
  | [] => None
  | (k', v) :: d' => if decide (k = k') then Some v else dict_get k d'
  end.

(** [d[k] = v]: an existing key keeps its position, a new key goes last. *)
Fixpoint dict_set {V} (k : string) (v : V) (d : list (string * V))
  : list (string * V) :=
  match d with
  | [] => [(k, v)]
  | (k', v') :: d' =>
      if decide (k = k') then (k, v) :: d' else (k', v') :: dict_set k v d'
  end.

Definition dict_keys {V} (d : list (string * V)) : list string := d.*1.
Definition dict_values {V} (d : list (string * V)) : list V := d.*2.

(** [k in d] *)
Definition dict_mem {V} (k : string) (d : list (string * V)) : bool :=
  bool_decide (k ∈ dict_keys d).

(** [next((x for x in l if p(x)), None)] *)
Fixpoint next_where {A} (p : A → bool) (l : list A) : option A :=
  match l with
  | [] => None
  | x :: l' => if p x then Some x else next_where p l'
  end.

(** [sorted(l)] / [l.sort()] for an order given by its strict comparison
    [lt]; the sort is stable, as Python's is. *)
Fixpoint sorted_insert {A} (lt : A → A → bool) (x : A) (l : list A) : list A :=
  match l with
  | [] => [x]
  | y :: l' => if lt y x then y :: sorted_insert lt x l' else x :: y :: l'
  end.

(** Each element goes behind the smaller ones and before the others, so
    equal keys keep their relative order. *)
Fixpoint sorted {A} (lt : A → A → bool) (l : list A) : list A :=
  match l with
  | [] => []
  | x :: l' => sorted_insert lt x (sorted lt l')
  end.

(** [min(l, key=key)] with a [len] as key: the first minimal element. *)
Fixpoint min_by {A} (key : A → nat) (l : list A) : option A :=
  match l with
  | [] => None
  | x :: l' =>
      match min_by key l' with
      | Some y => if bool_decide (key y < key x)%nat then Some y else Some x
      | None => Some x
      end
  end.

(** [l[:k]] for a possibly negative [k]. *)
Definition slice_to {A} (l : list A) (k : Z) : list A :=
  if bool_decide (0 ≤ k)%Z then take (Z.to_nat k) l
  else take (Z.to_nat (Z.of_nat (length l) + k)) l.

(** [l[k:]] for a non-negative [k]. *)
Definition slice_from {A} (l : list A) (k : nat) : list A := drop k l.

(** [str.lower()] on ASCII text. *)
Definition ascii_lower (c : Ascii.ascii) : Ascii.ascii :=
  let n := Ascii.nat_of_ascii c in
  if bool_decide (65 ≤ n ≤ 90)%nat then Ascii.ascii_of_nat (n + 32) else c.

Fixpoint lower (s : string) : string :=
  match s with
  | EmptyString => EmptyString
  | String c s' => String (ascii_lower c) (lower s')
  end.

(** [str(n)] for a non-negative [int]. *)
Definition str_of_Z (z : Z) : string :=
  NilEmpty.string_of_uint (N.to_uint (Z.to_N z)).

(** Outcome of a loop that is run with a bound on its number of steps. *)
Inductive outcome (A : Type) :=
| Done (a : A)
| OutOfFuel.
Global Arguments Done {A} a.
Global Arguments OutOfFuel {A}.

(** Outcome of a call that may raise. *)
Inductive exn := ValueError | IndexError.

Inductive result (A : Type) :=
| Ok (a : A)
| Raise (e : exn).
Global Arguments Ok {A} a.
Global Arguments Raise {A} e.

(** [float] values together with [float('-inf')]. *)
Inductive float_ext :=
| neg_inf
| fin (q : Q).

(** [x > b] *)
Definition float_gt (x : Q) (b : float_ext) : bool :=
  match b with
  | neg_inf => true
  | fin q => negb (Qle_bool x q)
  end.

Definition float_le (a b : float_ext) : Prop :=
  match a, b with
  | neg_inf, _ => True
  | fin _, neg_inf => False
  | fin x, fin y => (x <= y)%Q
  end.

(** [max(l)] and [max(l, key=key)] for [float] keys: the first maximal
    element, [ValueError] on an empty sequence. *)
Fixpoint max_by {A} (key : A → Q) (l : list A) : option A :=
  match l with
  | [] => None
  | x :: l' =>
      match max_by key l' with
      | Some y => if negb (Qle_bool (key y) (key x)) then Some y else Some x
      | None => Some x
      end
  end.

(** [l.index(x)] for a [float] [x] that occurs in [l]. *)
Fixpoint index_of (x : Q) (l : list Q) : option nat :=
  match l with
  | [] => None
  | y :: l' => if Qeq_bool y x then Some 0 else S <$> index_of x l'
  end.

(** [int(x)] for a [float]: rounds towards zero. *)
Definition int_of_float (x : Q) : Z := (Qnum x ÷ Zpos (Qden x))%Z.

(** ** The [random] module

    The generator is a stream of raw draws; every function of the module
    that the code uses consumes draws from it.  All outcomes the real
    generator can produce are produced by some stream. *)

Record rng := mk_rng { stream : nat → Z; position : nat }.

Definition rng_next (g : rng) : Z * rng :=
  (stream g (position g), mk_rng (stream g) (S (position g))).

(** Computations that draw random numbers and may raise. *)
Definition M (A : Type) : Type := rng → result (A * rng).

Global Instance M_ret : MRet M := λ A a g, Ok (a, g).

Global Instance M_bind : MBind M := λ A B f m g,
  match m g with
  | Ok (a, g') => f a g'
  | Raise e => Raise e
  end.

Definition raise {A} (e : exn) : M A := λ _, Raise e.

Definition draw : M Z := λ g, Ok (rng_next g).

(** [l[i]] *)
Definition getitem {A} (l : list A) (i : nat) : M A :=
  match l !! i with
  | Some x => mret x
  | None => raise IndexError
  end.

(** [random.choice(l)] *)
Definition random_choice {A} (l : list A) : M A :=
  d ← draw;
  getitem l (Z.to_nat (d `mod` Z.of_nat (length l))).

(** [random.random()]: a multiple of [2^-53] in [[0, 1)]. *)
Definition random_random : M Q :=
  d ← draw;
  mret (Qmake (d `mod` 9007199254740992) 9007199254740992).

(** [random.randint(a, b)] *)
Definition random_randint (a b : Z) : M Z :=
  d ← draw;
  if bool_decide (b < a)%Z then raise ValueError
  else mret (a + d `mod` (b - a + 1))%Z.

(** [random.sample(pool, k)]: [k] elements at distinct positions. *)
Fixpoint random_sample {A} (pool : list A) (k : nat) : M (list A) :=
  match k with
  | O => mret []
  | S k' =>
      if bool_decide (pool = []) then raise ValueError
      else
        d ← draw;
        let i := Z.to_nat (d `mod` Z.of_nat (length pool)) in
        x ← getitem pool i;
        rest ← random_sample (delete i pool) k';
        mret (x :: rest)
  end.

End Py.

(** ** models/course.py *)

Inductive CourseType := LECTURE | LABORATORY | TUTORIAL | SEMINAR.

(** The [.value] of the enumeration member. *)
Definition CourseType_value (t : CourseType) : string :=
  match t with
  | LECTURE => "lecture"
  | LABORATORY => "laboratory"
  | TUTORIAL => "tutorial"
  | SEMINAR => "seminar"
  end.

Module Course.
(** The fields the scheduling core reads ([name], [professor_id],
    [prerequisites] and [is_elective] are never read by it). *)
Record t := mk {
  id : string;
  code : string;
  credits : Z;
  duration : Z;
  course_type : CourseType;
  capacity : Z;
  required_equipment : list string;
  semester : Z;
  branch : string;
}.

(** [equipment.lower() in [eq.lower() for eq in self.required_equipment]] *)
Definition has_equipment_requirement (self : t) (equipment : string) : bool :=
  bool_decide (Py.lower equipment ∈ Py.lower <$> required_equipment self).

Definition get_sessions_per_week (self : t) : Z :=
  match course_type self with
  | LABORATORY => credits self
  | LECTURE => Z.max 1 (credits self `div` 2)
  | _ => 1
  end.
End Course.

(** ** models/professor.py *)

Inductive Availability := AVAILABLE | UNAVAILABLE | PREFERRED | NOT_PREFERRED.

Global Instance Availability_eq_dec : EqDecision Availability.
Proof. solve_decision. Defined.

(** [a in b] for strings. *)
Fixpoint str_contains (a b : string) : bool :=
  String.prefix a b ||
  match b with
  | EmptyString => false
  | String _ b' => str_contains a b'
  end.

Module Professor.
Record t := mk {
  id : string;
  name : string;
  department : string;
  specializations : list string;
  preferred_time_slots : gmap string Availability;
  unavailable_slots : gset string;
  is_active : bool;
}.

Definition can_teach_course (self : t) (course_code : string)
    (course_specialization : string) : bool :=
  if negb (is_active self) then false
  else if negb (bool_decide (course_specialization = ""))
          && negb (bool_decide (specializations self = []))
  then existsb (λ spec, str_contains (Py.lower spec)
                                     (Py.lower course_specialization))
               (specializations self)
  else true.

Definition is_available_at (self : t) (time_slot_id : string) : bool :=
  if bool_decide (time_slot_id ∈ unavailable_slots self) then false
  else
    let availability :=
      default AVAILABLE (preferred_time_slots self !! time_slot_id) in
    bool_decide (availability ∈ [AVAILABLE; PREFERRED]).

Definition get_preference_score (self : t) (time_slot_id : string) : Q :=
  if bool_decide (time_slot_id ∈ unavailable_slots self) then 0.0
  else
    let availability :=
      default AVAILABLE (preferred_time_slots self !! time_slot_id) in
    if bool_decide (availability = PREFERRED) then 1.0
    else if bool_decide (availability = AVAILABLE) then 0.5
    else 0.0.

(** The mutators return the professor after the update. *)
Definition add_unavailable_slot (self : t) (time_slot_id : string) : t :=
  {| id := id self; name := name self; department := department self;
     specializations := specializations self;
     preferred_time_slots := delete time_slot_id (preferred_time_slots self);
     unavailable_slots := {[time_slot_id]} ∪ unavailable_slots self;
     is_active := is_active self |}.

Definition set_preference (self : t) (time_slot_id : string)
    (availability : Availability) : t :=
  if bool_decide (availability = UNAVAILABLE)
  then add_unavailable_slot self time_slot_id
  else
    {| id := id self; name := name self; department := department self;
       specializations := specializations self;
       preferred_time_slots :=
         <[time_slot_id := availability]> (preferred_time_slots self);
       unavailable_slots := unavailable_slots self ∖ {[time_slot_id]};
       is_active := is_active self |}.
End Professor.

(** ** models/room.py *)

(** [RoomType.LABORATORY] is [ROOM_LABORATORY] here, the name [LABORATORY]
    being taken by the course type. *)
Inductive RoomType :=
| CLASSROOM | ROOM_LABORATORY | COMPUTER_LAB | SEMINAR_HALL | AUDITORIUM
| TUTORIAL_ROOM.

Global Instance RoomType_eq_dec : EqDecision RoomType.
Proof. solve_decision. Defined.

Definition RoomType_value (t : RoomType) : string :=
  match t with
  | CLASSROOM => "classroom"
  | ROOM_LABORATORY => "laboratory"
  | COMPUTER_LAB => "computer_lab"
  | SEMINAR_HALL => "seminar_hall"
  | AUDITORIUM => "auditorium"
  | TUTORIAL_ROOM => "tutorial_room"
  end.

Inductive RoomFeature :=
| PROJECTOR | WHITEBOARD | BLACKBOARD | SMART_BOARD | COMPUTERS
| AIR_CONDITIONING | AUDIO_SYSTEM | MICROPHONE | INTERNET | POWER_OUTLETS
| LABORATORY_EQUIPMENT.

Global Instance RoomFeature_eq_dec : EqDecision RoomFeature.
Proof. solve_decision. Defined.

Definition RoomFeature_value (f : RoomFeature) : string :=
  match f with
  | PROJECTOR => "projector"
  | WHITEBOARD => "whiteboard"
  | BLACKBOARD => "blackboard"
  | SMART_BOARD => "smart_board"
  | COMPUTERS => "computers"
  | AIR_CONDITIONING => "air_conditioning"
  | AUDIO_SYSTEM => "audio_system"
  | MICROPHONE => "microphone"
  | INTERNET => "internet"
  | POWER_OUTLETS => "power_outlets"
  | LABORATORY_EQUIPMENT => "laboratory_equipment"
  end.

Definition RoomFeature_members : list RoomFeature :=
  [PROJECTOR; WHITEBOARD; BLACKBOARD; SMART_BOARD; COMPUTERS;
   AIR_CONDITIONING; AUDIO_SYSTEM; MICROPHONE; INTERNET; POWER_OUTLETS;
   LABORATORY_EQUIPMENT].

(** [RoomFeature(s)]: the member whose value is [s]; [None] stands for the
    [ValueError] that the caller catches. *)
Definition RoomFeature_of_value (s : string) : option RoomFeature :=
  Py.next_where (λ f, bool_decide (RoomFeature_value f = s))
                RoomFeature_members.

Definition Qlt_bool (x y : Q) : bool := negb (Qle_bool y x).

Module Room.
Record t := mk {
  id : string;
  capacity : Z;
  room_type : RoomType;
  features : list RoomFeature;
  is_available : bool;
  maintenance_slots : gset string;
}.

Definition has_all_features (self : t) (required_features : list RoomFeature)
  : bool :=
  forallb (λ feature, bool_decide (feature ∈ features self)) required_features.

(** The features named by the equipment strings; unknown names are skipped. *)
Fixpoint required_features_of (required_equipment : list string)
  : list RoomFeature :=
  match required_equipment with
  | [] => []
  | equipment :: rest =>
      match RoomFeature_of_value (Py.lower equipment) with
      | Some feature => feature :: required_features_of rest
      | None => required_features_of rest
      end
  end.

Definition is_suitable_for_course (self : t) (course_type : string)
    (required_capacity : Z) (required_equipment : list string) : bool :=
  if negb (is_available self) then false
  else if bool_decide (capacity self < required_capacity)%Z then false
  else if bool_decide (Py.lower course_type = "laboratory")
          && negb (bool_decide
                     (room_type self ∈ [ROOM_LABORATORY; COMPUTER_LAB]))
  then false
  else if negb (bool_decide (required_equipment = []))
          && negb (has_all_features self
                     (required_features_of required_equipment))
  then false
  else true.

Definition is_available_at (self : t) (time_slot_id : string) : bool :=
  is_available self && negb (bool_decide (time_slot_id ∈ maintenance_slots self)).

Definition get_suitability_score (self : t) (course_type : string)
    (capacity_needed : Z) (required_equipment : list string) : Q :=
  if negb (is_suitable_for_course self course_type capacity_needed
             required_equipment)
  then 0.0
  else
    let score := 0.5%Q in
    let score :=
      if bool_decide (Py.lower course_type = "laboratory")
         && bool_decide (room_type self ∈ [ROOM_LABORATORY; COMPUTER_LAB])
      then (score + 0.3)%Q
      else if bool_decide (Py.lower course_type = "lecture")
              && bool_decide (room_type self = CLASSROOM)
      then (score + 0.3)%Q
      else score in
    let score :=
      if bool_decide (0 < capacity_needed)%Z then
        let capacity_ratio :=
          (inject_Z capacity_needed / inject_Z (capacity self))%Q in
        if Qle_bool 0.7 capacity_ratio && Qle_bool capacity_ratio 0.9
        then (score + 0.2)%Q
        else if Qlt_bool 0.9 capacity_ratio then (score + 0.1)%Q
        else score
      else score in
    Qmin score 1.0.

Definition has_feature (self : t) (feature : RoomFeature) : bool :=
  bool_decide (feature ∈ features self).

(** The mutators return the room after the update. *)
Definition add_maintenance_slot (self : t) (time_slot_id : string) : t :=
  {| id := id self; capacity := capacity self; room_type := room_type self;
     features := features self; is_available := is_available self;
     maintenance_slots := {[time_slot_id]} ∪ maintenance_slots self |}.

Definition remove_maintenance_slot (self : t) (time_slot_id : string) : t :=
  {| id := id self; capacity := capacity self; room_type := room_type self;
     features := features self; is_available := is_available self;
     maintenance_slots := maintenance_slots self ∖ {[time_slot_id]} |}.

Definition get_utilization_score (self : t) (assigned_capacity : Z) : Q :=
  if bool_decide (capacity self = 0%Z) then 0.0
  else Qmin (inject_Z assigned_capacity / inject_Z (capacity self)) 1.0.
End Room.

(** ** models/time_slot.py *)

Inductive DayOfWeek :=
| MONDAY | TUESDAY | WEDNESDAY | THURSDAY | FRIDAY | SATURDAY | SUNDAY.

Definition DayOfWeek_value (d : DayOfWeek) : string :=
  match d with
  | MONDAY => "monday"
  | TUESDAY => "tuesday"
  | WEDNESDAY => "wednesday"
  | THURSDAY => "thursday"
  | FRIDAY => "friday"
  | SATURDAY => "saturday"
  | SUNDAY => "sunday"
  end.

Inductive SlotType := REGULAR | BREAK | LUNCH | EXTENDED.

Global Instance SlotType_eq_dec : EqDecision SlotType.
Proof. solve_decision. Defined.

(** [datetime.time] *)
Record time := mk_time { hour : Z; minute : Z; second : Z; microsecond : Z }.

Definition time_lt (a b : time) : bool :=
  bool_decide (hour a < hour b)%Z
  || bool_decide (hour a = hour b)
     && (bool_decide (minute a < minute b)%Z
         || bool_decide (minute a = minute b)
            && (bool_decide (second a < second b)%Z
                || bool_decide (second a = second b)
                   && bool_decide (microsecond a < microsecond b)%Z)).

Global Instance DayOfWeek_eq_dec : EqDecision DayOfWeek.
Proof. solve_decision. Defined.

Global Instance time_eq_dec : EqDecision time.
Proof. solve_decision. Defined.

(** The time of day in microseconds since midnight. *)
Definition time_microseconds (a : time) : Z :=
  (((hour a * 60 + minute a) * 60 + second a) * 1000000 + microsecond a)%Z.

Module TimeSlot.
(** A slot after [__post_init__], which has filled in [duration_minutes]. *)
Record t := mk {
  id : string;
  day : DayOfWeek;
  start_time : time;
  end_time : time;
  slot_type : SlotType;
  duration_minutes : Z;
  is_active : bool;
}.

Definition can_accommodate_duration (self : t) (required_minutes : Z) : bool :=
  bool_decide (required_minutes ≤ duration_minutes self)%Z.

Definition is_suitable_for_course_type (self : t) (course_type : string)
  : bool :=
  if negb (is_active self) then false
  else if bool_decide (slot_type self ∈ [BREAK; LUNCH]) then false
  else if bool_decide (Py.lower course_type = "laboratory")
  then bool_decide (slot_type self ∈ [REGULAR; EXTENDED])
  else bool_decide (slot_type self = REGULAR).

Definition get_time_preference_score (self : t) : Q :=
  let hour := hour (start_time self) in
  if bool_decide (9 ≤ hour < 12)%Z then 1.0
  else if bool_decide (12 ≤ hour < 14)%Z then 0.8
  else if bool_decide (14 ≤ hour < 17)%Z then 0.6
  else if bool_decide (8 ≤ hour < 9)%Z then 0.4
  else 0.2.

Definition overlaps_with (self other : t) : bool :=
  if negb (bool_decide (day self = day other)) then false
  else time_lt (start_time self) (end_time other)
       && time_lt (start_time other) (end_time self).

Definition is_adjacent_to (self other : t) : bool :=
  if negb (bool_decide (day self = day other)) then false
  else bool_decide (end_time self = start_time other)
       || bool_decide (start_time self = end_time other).

(** The duration that [__post_init__] computes when none is given.  Both
    times are put on today's date; an end that is not after the start is
    moved to the next day with [replace(day=day + 1)], which raises
    [ValueError] when today is the last day of its month.  The result is
    [int(duration.total_seconds() / 60)]. *)
Definition derived_duration (today_is_last_of_month : bool)
    (start_time end_time : time) : Py.result Z :=
  let start_us := time_microseconds start_time in
  let end_us := time_microseconds end_time in
  if bool_decide (end_us ≤ start_us)%Z then
    if today_is_last_of_month then Py.Raise Py.ValueError
    else
      Py.Ok (Py.int_of_float
               (Qmake (end_us + 86400000000 - start_us) 1000000 / 60))
  else Py.Ok (Py.int_of_float (Qmake (end_us - start_us) 1000000 / 60)).

(** [TimeSlot(id, day, start_time, end_time, slot_type, duration_minutes,
    is_active)]: the object after [__post_init__]. *)
Definition new (today_is_last_of_month : bool) (id : string) (day : DayOfWeek)
    (start_time end_time : time) (slot_type : SlotType)
    (duration_minutes : option Z) (is_active : bool) : Py.result t :=
  match duration_minutes with
  | Some d =>
      Py.Ok (mk id day start_time end_time slot_type d is_active)
  | None =>
      match derived_duration today_is_last_of_month start_time end_time with
      | Py.Ok d => Py.Ok (mk id day start_time end_time slot_type d is_active)
      | Py.Raise e => Py.Raise e
      end
  end.
End TimeSlot.

(** ** models/schedule.py *)

Module Assignment.
Record t := mk {
  id : string;
  course_id : string;
  professor_id : string;
  room_id : string;
  time_slot_id : string;
  session_number : Z;
}.
End Assignment.

Module Schedule.
(** [created_at] (the wall clock), [quality_score], [statistics] and the
    constraint counters are never written by the solvers and are left out. *)
Record t := mk {
  id : string;
  name : string;
  assignments : list Assignment.t;
  algorithm_used : option string;
}.

(** [Schedule(id, name, assignments)] *)
Definition new (id name : string) (assignments : list Assignment.t) : t :=
  mk id name assignments None.

(** [__len__], which also decides the truth value of a schedule. *)
Definition len (self : t) : nat := length (assignments self).

(** One of the two loops of [has_conflicts]: [true] as soon as a pair that
    was already put into the set comes again. *)
Fixpoint pair_seen_twice (pair : Assignment.t → string * string)
    (seen : gset (string * string)) (l : list Assignment.t) : bool :=
  match l with
  | [] => false
  | assignment :: l' =>
      if bool_decide (pair assignment ∈ seen) then true
      else pair_seen_twice pair ({[pair assignment]} ∪ seen) l'
  end.

Definition has_conflicts (self : t) : bool :=
  if pair_seen_twice
       (λ a, (Assignment.professor_id a, Assignment.time_slot_id a))
       ∅ (assignments self)
  then true
  else if pair_seen_twice
            (λ a, (Assignment.room_id a, Assignment.time_slot_id a))
            ∅ (assignments self)
  then true
  else false.

(** The grouping loop of [get_conflict_count]. *)
Definition group_by_time_slot (l : list Assignment.t)
  : list (string * list Assignment.t) :=
  foldl (λ time_slot_assignments assignment,
           let k := Assignment.time_slot_id assignment in
           let d :=
             if Py.dict_mem k time_slot_assignments then time_slot_assignments
             else Py.dict_set k [] time_slot_assignments in
           Py.dict_set k (default [] (Py.dict_get k d) ++ [assignment]) d)
        [] l.

(** [len(xs) - len(set(xs))] *)
Definition duplicates (xs : list string) : Z :=
  Z.of_nat (length xs) - Z.of_nat (size (list_to_set xs : gset string)).

Definition get_conflict_count (self : t) : Z :=
  foldl (λ conflicts group,
           if bool_decide (length group ≤ 1)%nat then conflicts
           else
             let professors := Assignment.professor_id <$> group in
             let conflicts := (conflicts + duplicates professors)%Z in
             let rooms := Assignment.room_id <$> group in
             (conflicts + duplicates rooms)%Z)
        0%Z (Py.dict_values (group_by_time_slot (assignments self))).

(** [add_assignment] and [remove_assignment] return the schedule after the
    update; [remove_assignment] also returns its result. *)
Definition add_assignment (self : t) (assignment : Assignment.t) : t :=
  {| id := id self; name := name self;
     assignments := assignments self ++ [assignment];
     algorithm_used := algorithm_used self |}.

(** The list without the first assignment that has the id, if there is
    one. *)
Fixpoint pop_first (assignment_id : string) (l : list Assignment.t)
  : option (list Assignment.t) :=
  match l with
  | [] => None
  | assignment :: l' =>
      if bool_decide (Assignment.id assignment = assignment_id) then Some l'
      else (assignment ::.) <$> pop_first assignment_id l'
  end.

Definition remove_assignment (self : t) (assignment_id : string) : bool * t :=
  match pop_first assignment_id (assignments self) with
  | Some l =>
      (true, {| id := id self; name := name self; assignments := l;
                algorithm_used := algorithm_used self |})
  | None => (false, self)
  end.

Definition get_assignment_by_id (self : t) (assignment_id : string)
  : option Assignment.t :=
  Py.next_where (λ a, bool_decide (Assignment.id a = assignment_id))
                (assignments self).

Definition get_assignments_by_course (self : t) (course_id : string)
  : list Assignment.t :=
  filter (λ a, Assignment.course_id a = course_id) (assignments self).

Definition get_assignments_by_professor (self : t) (professor_id : string)
  : list Assignment.t :=
  filter (λ a, Assignment.professor_id a = professor_id) (assignments self).

Definition get_assignments_by_room (self : t) (room_id : string)
  : list Assignment.t :=
  filter (λ a, Assignment.room_id a = room_id) (assignments self).

Definition get_assignments_by_time_slot (self : t) (time_slot_id : string)
  : list Assignment.t :=
  filter (λ a, Assignment.time_slot_id a = time_slot_id) (assignments self).

(** One of the three counting dictionaries of [get_utilization_stats]:
    [usage[key(a)] = usage.get(key(a), 0) + 1] for every assignment. *)
Definition usage_of (key : Assignment.t → string) (l : list Assignment.t)
  : list (string * Z) :=
  foldl (λ usage assignment,
           Py.dict_set (key assignment)
             (default 0 (Py.dict_get (key assignment) usage) + 1)%Z usage)
        [] l.

(** The dictionary [get_utilization_stats] returns; the four counts are
    absent when the schedule has no assignment. *)
Record utilization_stats := mk_stats {
  professors : list (string * Z);
  rooms : list (string * Z);
  time_slots : list (string * Z);
  total_assignments : option nat;
  unique_professors : option nat;
  unique_rooms : option nat;
  unique_time_slots : option nat;
}.

Definition get_utilization_stats (self : t) : utilization_stats :=
  if bool_decide (assignments self = [])
  then mk_stats [] [] [] None None None None
  else
    let professor_usage := usage_of Assignment.professor_id (assignments self) in
    let room_usage := usage_of Assignment.room_id (assignments self) in
    let time_slot_usage :=
      usage_of Assignment.time_slot_id (assignments self) in
    mk_stats professor_usage room_usage time_slot_usage
      (Some (length (assignments self)))
      (Some (length professor_usage))
      (Some (length room_usage))
      (Some (length time_slot_usage)).
End Schedule.

(** ** schedulers/base.py *)

Definition str_lt (a b : string) : bool := String.ltb a b.

Module BaseScheduler.
(** The data attributes of a scheduler ([set_data]). *)
Record t := mk {
  courses : list Course.t;
  professors : list Professor.t;
  rooms : list Room.t;
  time_slots : list TimeSlot.t;
}.

(** The sort keys of [preprocess_data], compared as Python compares tuples. *)
Definition course_key_lt (a b : Course.t) : bool :=
  bool_decide (Course.semester a < Course.semester b)%Z
  || bool_decide (Course.semester a = Course.semester b)
     && (bool_decide (- Course.credits a < - Course.credits b)%Z
         || bool_decide (- Course.credits a = - Course.credits b)%Z
            && str_lt (Course.code a) (Course.code b)).

Definition professor_key_lt (a b : Professor.t) : bool :=
  str_lt (Professor.department a) (Professor.department b)
  || bool_decide (Professor.department a = Professor.department b)
     && str_lt (Professor.name a) (Professor.name b).

Definition room_key_lt (a b : Room.t) : bool :=
  str_lt (RoomType_value (Room.room_type a)) (RoomType_value (Room.room_type b))
  || bool_decide (RoomType_value (Room.room_type a)
                  = RoomType_value (Room.room_type b))
     && bool_decide (- Room.capacity a < - Room.capacity b)%Z.

Definition time_slot_key_lt (a b : TimeSlot.t) : bool :=
  str_lt (DayOfWeek_value (TimeSlot.day a)) (DayOfWeek_value (TimeSlot.day b))
  || bool_decide (DayOfWeek_value (TimeSlot.day a)
                  = DayOfWeek_value (TimeSlot.day b))
     && time_lt (TimeSlot.start_time a) (TimeSlot.start_time b).

Definition preprocess_data (self : t) : t :=
  {| courses := Py.sorted course_key_lt (courses self);
     professors := Py.sorted professor_key_lt (professors self);
     rooms := Py.sorted room_key_lt (rooms self);
     time_slots := Py.sorted time_slot_key_lt (time_slots self) |}.

(** The body of the loop of [calculate_schedule_quality]: the score of one
    assignment.  An entity that is not found contributes nothing. *)
Definition assignment_score (self : t) (assignment : Assignment.t) : Q :=
  let score := 1.0%Q in
  let time_slot :=
    Py.next_where
      (λ ts, bool_decide (TimeSlot.id ts = Assignment.time_slot_id assignment))
      (time_slots self) in
  let score :=
    match time_slot with
    | Some ts => (score + TimeSlot.get_time_preference_score ts * 0.2)%Q
    | None => score
    end in
  let professor :=
    Py.next_where
      (λ p, bool_decide (Professor.id p = Assignment.professor_id assignment))
      (professors self) in
  let score :=
    match professor, time_slot with
    | Some p, Some _ =>
        (score + Professor.get_preference_score p
                   (Assignment.time_slot_id assignment) * 0.3)%Q
    | _, _ => score
    end in
  let room :=
    Py.next_where
      (λ r, bool_decide (Room.id r = Assignment.room_id assignment))
      (rooms self) in
  let course :=
    Py.next_where
      (λ c, bool_decide (Course.id c = Assignment.course_id assignment))
      (courses self) in
  match room, course with
  | Some r, Some c =>
      let estimated_enrollment := Course.capacity c in
      let suitability :=
        Room.get_suitability_score r (CourseType_value (Course.course_type c))
          estimated_enrollment (Course.required_equipment c) in
      (score + suitability * 0.2)%Q
  | _, _ => score
  end.

Definition calculate_schedule_quality (self : t) (schedule : Schedule.t) : Q :=
  if bool_decide (Schedule.len schedule = 0%nat)
     || bool_decide (Schedule.assignments schedule = [])
  then 0.0
  else
    let total_assignments := length (Schedule.assignments schedule) in
    let total_score :=
      foldl (λ total_score assignment,
               (total_score + assignment_score self assignment)%Q)
            0.0%Q (Schedule.assignments schedule) in
    if bool_decide (0 < total_assignments)%nat
    then (total_score / inject_Z (Z.of_nat total_assignments))%Q
    else 0.0.
End BaseScheduler.

(** ** schedulers/constraint_satisfaction.py *)

(** A value of a CSP variable: [(professor_id, room_id, time_slot_id)]. *)
Abbreviation triple := (string * string * string)%type.

Module CSP.
Import BaseScheduler.

Record config := mk_config {
  use_arc_consistency : bool;
  use_forward_checking : bool;
  variable_ordering : string;
  value_ordering : string;
}.

(** The values [__init__] takes when the keys are missing. *)
Definition default_config : config := mk_config true true "mrv" "lcv".

Definition _can_professor_teach_course (professor : Professor.t)
    (course : Course.t) : bool :=
  Professor.is_active professor
  && bool_decide (Professor.department professor = Course.branch course)
  && Professor.can_teach_course professor (Course.code course) "".

Definition _can_room_host_course (room : Room.t) (course : Course.t) : bool :=
  Room.is_suitable_for_course room
    (CourseType_value (Course.course_type course))
    (Course.capacity course)
    (Course.required_equipment course).

Definition _can_schedule_at_time (course : Course.t) (professor : Professor.t)
    (room : Room.t) (time_slot : TimeSlot.t) : bool :=
  TimeSlot.is_suitable_for_course_type time_slot
    (CourseType_value (Course.course_type course))
  && TimeSlot.can_accommodate_duration time_slot (Course.duration course)
  && Professor.is_available_at professor (TimeSlot.id time_slot)
  && Room.is_available_at room (TimeSlot.id time_slot).

(** The three nested loops of [_initialize_domains] for one course. *)
Definition course_domain (self : BaseScheduler.t) (course : Course.t)
  : gset triple :=
  foldl (λ domain professor,
    if _can_professor_teach_course professor course then
      foldl (λ domain room,
        if _can_room_host_course room course then
          foldl (λ domain time_slot,
            if _can_schedule_at_time course professor room time_slot
            then {[(Professor.id professor, Room.id room,
                    TimeSlot.id time_slot)]} ∪ domain
            else domain)
          domain (time_slots self)
        else domain)
      domain (rooms self)
    else domain)
  ∅ (professors self).

Definition _initialize_domains (self : BaseScheduler.t)
  : list (string * gset triple) :=
  foldl (λ domains course,
           Py.dict_set (Course.id course) (course_domain self course) domains)
        [] (courses self).

Definition _assignments_conflict (assignment1 assignment2 : triple) : bool :=
  let '(prof1_id, room1_id, time1_id) := assignment1 in
  let '(prof2_id, room2_id, time2_id) := assignment2 in
  if bool_decide (time1_id = time2_id)
  then bool_decide (prof1_id = prof2_id) || bool_decide (room1_id = room2_id)
  else false.

(** [domains[course_id]]; the code only looks up keys of [domains]. *)
Definition domain_of (domains : list (string * gset triple))
    (course_id : string) : gset triple :=
  default ∅ (Py.dict_get course_id domains).

(** Whether some value of [domain2] does not conflict with [assignment1]
    (the inner loop of [_revise_domain]). *)
Definition has_valid_assignment (domain2 : gset triple) (assignment1 : triple)
  : bool :=
  bool_decide (set_Exists
    (λ assignment2, _assignments_conflict assignment1 assignment2 = false)
    domain2).

(** Returns [revised] and the dictionary after the in-place update. *)
Definition _revise_domain (domains : list (string * gset triple))
    (course1_id course2_id : string) : bool * list (string * gset triple) :=
  let to_remove : gset triple :=
    filter (λ assignment1,
              has_valid_assignment (domain_of domains course2_id) assignment1
              = false)
           (domain_of domains course1_id) in
  let revised := negb (bool_decide (to_remove = ∅)) in
  (revised,
   Py.dict_set course1_id (domain_of domains course1_id ∖ to_remove) domains).

(** The arcs put on the queue at the start of [_apply_arc_consistency]. *)
Fixpoint all_arcs (course_ids : list string) : list (string * string) :=
  match course_ids with
  | [] => []
  | ci :: rest =>
      flat_map (λ cj, [(ci, cj); (cj, ci)]) rest ++ all_arcs rest
  end.

(** The [while queue] loop of [_apply_arc_consistency]. *)
Fixpoint ac3_loop (fuel : nat) (course_ids : list string)
    (queue : list (string * string)) (domains : list (string * gset triple))
  : Py.outcome (list (string * gset triple)) :=
  match fuel with
  | O => Py.OutOfFuel
  | S fuel =>
      match queue with
      | [] => Py.Done domains
      | (course1_id, course2_id) :: queue =>
          let '(revised, domains) :=
            _revise_domain domains course1_id course2_id in
          if revised then
            if bool_decide (domain_of domains course1_id = ∅)
            then Py.Done domains
            else
              ac3_loop fuel course_ids
                (queue ++
                 ((λ course3_id, (course3_id, course1_id))
                  <$> filter (λ course3_id,
                                course3_id ≠ course1_id
                                ∧ course3_id ≠ course2_id)
                             course_ids))
                domains
          else ac3_loop fuel course_ids queue domains
      end
  end.

Definition total_size (domains : list (string * gset triple)) : nat :=
  sum_list_with size (Py.dict_values domains).

(** A bound on the number of iterations of the loop: every iteration either
    shortens the queue or removes a value from a domain. *)
Definition ac3_fuel (queue : list (string * string))
    (domains : list (string * gset triple)) : nat :=
  S (length queue + length domains * total_size domains).

Definition _apply_arc_consistency (domains : list (string * gset triple))
  : Py.outcome (list (string * gset triple)) :=
  let course_ids := Py.dict_keys domains in
  let queue := all_arcs course_ids in
  ac3_loop (ac3_fuel queue domains) course_ids queue domains.

Definition _count_conflicts (course_id : string) (value : triple)
    (domains : list (string * gset triple)) : nat :=
  foldl (λ conflicts '(other_course_id, other_domain),
           if bool_decide (other_course_id = course_id) then conflicts
           else conflicts
                + size (filter (λ other_value,
                                  _assignments_conflict value other_value = true)
                               other_domain))
        0 domains.

Definition _is_consistent (course_id : string) (value : triple)
    (assignment : list (string * triple)) : bool :=
  forallb (λ '(assigned_course_id, assigned_value),
             negb (_assignments_conflict value assigned_value))
          assignment.

Definition _forward_check (assigned_course_id : string)
    (assigned_value : triple) (domains : list (string * gset triple))
  : list (string * gset triple) :=
  foldl (λ new_domains '(course_id, domain),
           if bool_decide (course_id = assigned_course_id)
           then Py.dict_set course_id {[assigned_value]} new_domains
           else
             Py.dict_set course_id
               (filter (λ value,
                          _assignments_conflict assigned_value value = false)
                       domain)
               new_domains)
        [] domains.

Definition _solution_to_schedule (solution : list (string * triple))
  : Schedule.t :=
  let assignments :=
    (λ '(course_id, (professor_id, room_id, time_slot_id)),
       Assignment.mk
         (course_id +:+ "_" +:+ professor_id +:+ "_" +:+ room_id
          +:+ "_" +:+ time_slot_id)
         course_id professor_id room_id time_slot_id 1)
    <$> solution in
  {| Schedule.id := "csp_solution";
     Schedule.name := "CSP Generated Schedule";
     Schedule.assignments := assignments;
     Schedule.algorithm_used := Some "ConstraintSatisfactionScheduler" |}.

Definition failed_schedule : Schedule.t :=
  Schedule.new "failed" "No Solution Found" [].

Section Search.
(** The order in which [list(s)] enumerates a set [s]. *)
Variable set_order : gset triple → list triple.
Variable cfg : config.
Variable self : BaseScheduler.t.

Definition _select_unassigned_variable (assignment : list (string * triple))
    (domains : list (string * gset triple)) : option string :=
  let unassigned :=
    filter (λ course_id, Py.dict_mem course_id assignment = false)
           (Py.dict_keys domains) in
  if bool_decide (unassigned = []) then None
  else if bool_decide (variable_ordering cfg = "mrv")
  then Py.min_by (λ course_id, size (domain_of domains course_id)) unassigned
  else head unassigned.

Definition _order_domain_values (course_id : string)
    (domains : list (string * gset triple)) : list triple :=
  let values := set_order (domain_of domains course_id) in
  if bool_decide (value_ordering cfg = "lcv")
  then Py.sorted
         (λ a b, bool_decide (_count_conflicts course_id a domains
                              < _count_conflicts course_id b domains))
         values
  else values.

(** The [for value in ...] loop of [_backtrack_search]; [recurse] is the
    recursive call. *)
Fixpoint try_values
    (recurse : list (string * triple) → list (string * gset triple) →
               Py.outcome (option (list (string * triple))))
    (course_id : string) (assignment : list (string * triple))
    (domains : list (string * gset triple)) (values : list triple)
  : Py.outcome (option (list (string * triple))) :=
  match values with
  | [] => Py.Done None
  | value :: values =>
      if _is_consistent course_id value assignment then
        let new_assignment := Py.dict_set course_id value assignment in
        let new_domains :=
          if use_forward_checking cfg
          then _forward_check course_id value domains
          else domains in
        if use_forward_checking cfg
           && existsb (λ domain, bool_decide (domain = ∅))
                      (Py.dict_values new_domains)
        then try_values recurse course_id assignment domains values
        else
          match recurse new_assignment new_domains with
          | Py.OutOfFuel => Py.OutOfFuel
          | Py.Done (Some result) => Py.Done (Some result)
          | Py.Done None =>
              try_values recurse course_id assignment domains values
          end
      else try_values recurse course_id assignment domains values
  end.

(** [fuel] bounds the depth of the recursion. *)
Fixpoint _backtrack_search (fuel : nat) (assignment : list (string * triple))
    (domains : list (string * gset triple))
  : Py.outcome (option (list (string * triple))) :=
  match fuel with
  | O => Py.OutOfFuel
  | S fuel =>
      if bool_decide (length assignment = length (courses self))
      then Py.Done (Some assignment)
      else
        match _select_unassigned_variable assignment domains with
        | None => Py.Done (Some assignment)
        | Some course_id =>
            try_values (_backtrack_search fuel) course_id assignment domains
              (_order_domain_values course_id domains)
        end
  end.
End Search.

(** The domains the search starts from: preprocessing, initialisation and,
    if configured, arc consistency. *)
Definition prepared_domains (cfg : config) (self : BaseScheduler.t)
  : Py.outcome (list (string * gset triple)) :=
  let self := preprocess_data self in
  let domains := _initialize_domains self in
  if use_arc_consistency cfg then _apply_arc_consistency domains
  else Py.Done domains.

(** [self._backtrack_search({}, domains)] as called by [generate_schedule];
    the recursion is at most one deeper than the number of variables. *)
Definition search (set_order : gset triple → list triple) (cfg : config)
    (self : BaseScheduler.t) : Py.outcome (option (list (string * triple))) :=
  match prepared_domains cfg self with
  | Py.OutOfFuel => Py.OutOfFuel
  | Py.Done domains =>
      _backtrack_search set_order cfg (preprocess_data self)
        (S (length domains)) [] domains
  end.

Definition generate_schedule (set_order : gset triple → list triple)
    (cfg : config) (self : BaseScheduler.t) : Py.outcome Schedule.t :=
  match search set_order cfg self with
  | Py.OutOfFuel => Py.OutOfFuel
  | Py.Done solution =>
      match solution with
      | Some solution =>
          if bool_decide (solution = []) then Py.Done failed_schedule
          else Py.Done (_solution_to_schedule solution)
      | None => Py.Done failed_schedule
      end
  end.

Definition _check_all_constraints (schedule : Schedule.t) : bool :=
  if Schedule.has_conflicts schedule then false else true.

Definition validate_schedule (schedule : Schedule.t) : bool :=
  _check_all_constraints schedule.

Definition _improve_soft_constraints (schedule : Schedule.t) : Schedule.t :=
  schedule.

Definition optimize_schedule (schedule : Schedule.t) : Schedule.t :=
  _improve_soft_constraints schedule.
End CSP.

(** ** schedulers/genetic.py *)

Module Genetic.
Import BaseScheduler.

Record config := mk_config {
  population_size : Z;
  generations : Z;
  mutation_rate : Q;
  crossover_rate : Q;
  elite_size : Z;
}.

(** The values [__init__] takes when the keys are missing. *)
Definition default_config : config := mk_config 50 100 0.1 0.8 5.

Definition empty_schedule : Schedule.t :=
  Schedule.new "empty" "Empty Schedule" [].

Section Genetic.
Variable cfg : config.
Variable self : BaseScheduler.t.

Definition _create_random_assignment (course : Course.t)
  : Py.M (option Assignment.t) :=
  let available_professors :=
    filter (λ p, Professor.department p = Course.branch course)
           (professors self) in
  let available_rooms :=
    filter (λ r, Room.is_suitable_for_course r
                   (CourseType_value (Course.course_type course))
                   (Course.capacity course)
                   (Course.required_equipment course) = true)
           (rooms self) in
  let available_time_slots :=
    filter (λ ts, TimeSlot.is_active ts = true) (time_slots self) in
  if bool_decide (available_professors = [])
     || bool_decide (available_rooms = [])
     || bool_decide (available_time_slots = [])
  then mret None
  else
    professor ← Py.random_choice available_professors;
    room ← Py.random_choice available_rooms;
    time_slot ← Py.random_choice available_time_slots;
    mret (Some
      (Assignment.mk
         (Course.id course +:+ "_" +:+ Professor.id professor +:+ "_"
          +:+ Room.id room +:+ "_" +:+ TimeSlot.id time_slot)
         (Course.id course) (Professor.id professor) (Room.id room)
         (TimeSlot.id time_slot) 1)).

(** The loop over the courses of [_create_random_schedule]. *)
Fixpoint random_assignments (courses : list Course.t)
    (assignments : list Assignment.t) : Py.M (list Assignment.t) :=
  match courses with
  | [] => mret assignments
  | course :: courses =>
      assignment ← _create_random_assignment course;
      match assignment with
      | Some assignment =>
          random_assignments courses (assignments ++ [assignment])
      | None => random_assignments courses assignments
      end
  end.

Definition _create_random_schedule (schedule_id : string) : Py.M Schedule.t :=
  assignments ← random_assignments (courses self) [];
  mret (Schedule.new schedule_id ("Random Schedule " +:+ schedule_id)
          assignments).

(** [range(n)] *)
Definition range (n : Z) : list Z := seqZ 0 n.

Definition _initialize_population : Py.M (list Schedule.t) :=
  mapM (λ i, _create_random_schedule ("individual_" +:+ Py.str_of_Z i))
       (range (population_size cfg)).

Definition _calculate_fitness (schedule : Schedule.t) : Q :=
  if bool_decide (Schedule.assignments schedule = []) then 0.0
  else
    let fitness := calculate_schedule_quality self schedule in
    let conflicts := Schedule.get_conflict_count schedule in
    (fitness - inject_Z (conflicts * 1000))%Q.

(** [fitness_scores[i]] for an index of the population. *)
Definition score_at (fitness_scores : list Q) (i : nat) : Q :=
  default 0%Q (fitness_scores !! i).

Definition _tournament_selection (population : list Schedule.t)
    (fitness_scores : list Q) : Py.M Schedule.t :=
  let tournament_size := Nat.min 3 (length population) in
  tournament_indices ←
    Py.random_sample (seq 0 (length population)) tournament_size;
  match Py.max_by (score_at fitness_scores) tournament_indices with
  | Some best_idx => Py.getitem population best_idx
  | None => Py.raise Py.ValueError
  end.

Definition _crossover (parent1 parent2 : Schedule.t) : Py.M Schedule.t :=
  let crossover_point := (length (Schedule.assignments parent1) / 2)%nat in
  let child_assignments :=
    take crossover_point (Schedule.assignments parent1)
    ++ Py.slice_from (Schedule.assignments parent2) crossover_point in
  n ← Py.random_randint 1000 9999;
  mret (Schedule.new ("child_" +:+ Py.str_of_Z n) "Crossover Child"
          child_assignments).

Definition _mutate (schedule : Schedule.t) : Py.M Schedule.t :=
  if bool_decide (Schedule.assignments schedule = []) then mret schedule
  else
    let mutated_assignments := Schedule.assignments schedule in
    mutation_idx ←
      Py.random_randint 0 (Z.of_nat (length mutated_assignments) - 1);
    let mutation_idx := Z.to_nat mutation_idx in
    assignment ← Py.getitem mutated_assignments mutation_idx;
    let course :=
      Py.next_where
        (λ c, bool_decide (Course.id c = Assignment.course_id assignment))
        (courses self) in
    mutated_assignments ←
      match course with
      | Some course =>
          new_assignment ← _create_random_assignment course;
          match new_assignment with
          | Some new_assignment =>
              mret (<[mutation_idx := new_assignment]> mutated_assignments)
          | None => mret mutated_assignments
          end
      | None => mret mutated_assignments
      end;
    n ← Py.random_randint 1000 9999;
    mret (Schedule.new ("mutant_" +:+ Py.str_of_Z n) "Mutated Schedule"
            mutated_assignments).

(** The [while len(new_population) < self.population_size] loop; [todo] is
    the number of individuals still missing, one is added per iteration. *)
Fixpoint reproduce (todo : nat) (population : list Schedule.t)
    (fitness_scores : list Q) (new_population : list Schedule.t)
  : Py.M (list Schedule.t) :=
  match todo with
  | O => mret new_population
  | S todo =>
      parent1 ← _tournament_selection population fitness_scores;
      parent2 ← _tournament_selection population fitness_scores;
      r ← Py.random_random;
      child ←
        (if Qlt_bool r (crossover_rate cfg) then _crossover parent1 parent2
         else mret parent1);
      r ← Py.random_random;
      child ←
        (if Qlt_bool r (mutation_rate cfg) then _mutate child
         else mret child);
      reproduce todo population fitness_scores (new_population ++ [child])
  end.

Definition _select_and_reproduce (population : list Schedule.t)
    (fitness_scores : list Q) : Py.M (list Schedule.t) :=
  let elite_indices :=
    Py.slice_to
      (Py.sorted (λ i j, Qlt_bool (score_at fitness_scores j)
                                  (score_at fitness_scores i))
                 (seq 0 (length fitness_scores)))
      (elite_size cfg) in
  new_population ← mapM (Py.getitem population) elite_indices;
  new_population ←
    reproduce
      (Z.to_nat (population_size cfg - Z.of_nat (length new_population)))
      population fitness_scores new_population;
  mret (Py.slice_to new_population (population_size cfg)).

(** The variables of the generational loop of [generate_schedule]. *)
Record loop_state := mk_state {
  population : list Schedule.t;
  best_schedule : option Schedule.t;
  best_fitness : Py.float_ext;
}.

(** One iteration of the loop. *)
Definition generation (st : loop_state) : Py.M loop_state :=
  let fitness_scores := _calculate_fitness <$> population st in
  match Py.max_by id fitness_scores with
  | None => Py.raise Py.ValueError
  | Some max_fitness =>
      match Py.index_of max_fitness fitness_scores with
      | None => Py.raise Py.ValueError
      | Some current_best_idx =>
          current_best_fitness ← Py.getitem fitness_scores current_best_idx;
          current_best ← Py.getitem (population st) current_best_idx;
          let '(best_fitness, best_schedule) :=
            if Py.float_gt current_best_fitness (best_fitness st)
            then (Py.fin current_best_fitness, Some current_best)
            else (best_fitness st, best_schedule st) in
          new_population ←
            _select_and_reproduce (population st) fitness_scores;
          mret (mk_state new_population best_schedule best_fitness)
      end
  end.

(** The state after [g] iterations of the loop. *)
Fixpoint generations_loop (g : nat) (st : loop_state) : Py.M loop_state :=
  match g with
  | O => mret st
  | S g => st ← generations_loop g st; generation st
  end.
End Genetic.

Definition generate_schedule (cfg : config) (self : BaseScheduler.t)
  : Py.M Schedule.t :=
  let self := preprocess_data self in
  population ← _initialize_population cfg self;
  st ← generations_loop cfg self (Z.to_nat (generations cfg))
         (mk_state population None Py.neg_inf);
  match best_schedule st with
  | Some best =>
      if bool_decide (Schedule.len best = 0) then mret empty_schedule
      else mret best
  | None => mret empty_schedule
  end.

Definition validate_schedule (schedule : Schedule.t) : bool :=
  negb (Schedule.has_conflicts schedule).

Definition _local_optimization (schedule : Schedule.t) : Schedule.t :=
  schedule.

Definition optimize_schedule (schedule : Schedule.t) : Schedule.t :=
  _local_optimization schedule.
End Genetic.

(** ** utils/validators.py *)

Module Validators.
(** [len(ids) != len(set(ids))] *)
Definition has_duplicates (ids : list string) : bool :=
  negb (bool_decide (length ids = size (list_to_set ids : gset string))).

Definition validate_schedule_data (courses : list Course.t)
    (professors : list Professor.t) (rooms : list Room.t)
    (time_slots : list TimeSlot.t) : bool * list string :=
  let errors : list string := [] in
  let errors :=
    if bool_decide (courses = [])
    then errors ++ ["No courses provided for scheduling"] else errors in
  let errors :=
    if bool_decide (professors = [])
    then errors ++ ["No professors provided for scheduling"] else errors in
  let errors :=
    if bool_decide (rooms = [])
    then errors ++ ["No rooms provided for scheduling"] else errors in
  let errors :=
    if bool_decide (time_slots = [])
    then errors ++ ["No time slots provided for scheduling"] else errors in
  let course_ids := Course.id <$> courses in
  let errors :=
    if has_duplicates course_ids
    then errors ++ ["Duplicate course IDs found"] else errors in
  let professor_ids := Professor.id <$> professors in
  let errors :=
    if has_duplicates professor_ids
    then errors ++ ["Duplicate professor IDs found"] else errors in
  let room_ids := Room.id <$> rooms in
  let errors :=
    if has_duplicates room_ids
    then errors ++ ["Duplicate room IDs found"] else errors in
  let time_slot_ids := TimeSlot.id <$> time_slots in
  let errors :=
    if has_duplicates time_slot_ids
    then errors ++ ["Duplicate time slot IDs found"] else errors in
  let total_course_sessions :=
    foldr Z.add 0%Z (Course.get_sessions_per_week <$> courses) in
  let available_slots :=
    length (filter (λ ts, TimeSlot.is_active ts = true) time_slots) in
  let errors :=
    if bool_decide (Z.of_nat available_slots < total_course_sessions)%Z
    then errors ++ ["Not enough time slots: need "
                    +:+ Py.str_of_Z total_course_sessions
                    +:+ ", have "
                    +:+ Py.str_of_Z (Z.of_nat available_slots)]
    else errors in
  (bool_decide (length errors = 0), errors).
End Validators.

(** * Specification

    The notions in which the properties below are stated. *)

(** ** Conflicts *)

(** Two assignments collide: same slot, and same professor or same room. *)
Definition colliding (a b : Assignment.t) : Prop :=
  Assignment.time_slot_id a = Assignment.time_slot_id b
  ∧ (Assignment.professor_id a = Assignment.professor_id b
     ∨ Assignment.room_id a = Assignment.room_id b).

(** Two assignments at different positions of the schedule collide. *)
Definition has_colliding_pair (s : Schedule.t) : Prop :=
  ∃ i j a b, i ≠ j
    ∧ Schedule.assignments s !! i = Some a
    ∧ Schedule.assignments s !! j = Some b
    ∧ colliding a b.

(** The count as the specification words it: a sum over the time slots that
    occur in the schedule. *)
Definition sumZ (l : list Z) : Z := foldr Z.add 0%Z l.

Definition slot_group (s : Schedule.t) (t : string) : list Assignment.t :=
  filter (λ a, Assignment.time_slot_id a = t) (Schedule.assignments s).

Definition distinct_count (xs : list string) : Z :=
  Z.of_nat (size (list_to_set xs : gset string)).

Definition spec_conflict_count (s : Schedule.t) : Z :=
  let slots : gset string :=
    list_to_set (Assignment.time_slot_id <$> Schedule.assignments s) in
  sumZ ((λ t,
           let group := slot_group s t in
           (Z.of_nat (length group)
            - distinct_count (Assignment.professor_id <$> group))
           + (Z.of_nat (length group)
              - distinct_count (Assignment.room_id <$> group)))%Z
        <$> elements slots).

(** The contribution of one group, without the shortcut for short groups. *)
Definition group_conflicts (group : list Assignment.t) : Z :=
  (Schedule.duplicates (Assignment.professor_id <$> group)
   + Schedule.duplicates (Assignment.room_id <$> group))%Z.

(** ** Initial domains *)

(** The conditions on a triple in the domain of [course]. *)
Definition room_type_compatible (course : Course.t) (room : Room.t) : Prop :=
  Course.course_type course = LABORATORY →
  Room.room_type room = ROOM_LABORATORY ∨ Room.room_type room = COMPUTER_LAB.

Definition has_recognized_equipment (course : Course.t) (room : Room.t)
  : Prop :=
  ∀ equipment feature,
    equipment ∈ Course.required_equipment course →
    RoomFeature_of_value (Py.lower equipment) = Some feature →
    feature ∈ Room.features room.

Definition slot_suits_course_type (course : Course.t) (time_slot : TimeSlot.t)
  : Prop :=
  TimeSlot.slot_type time_slot = REGULAR
  ∨ (Course.course_type course = LABORATORY
     ∧ TimeSlot.slot_type time_slot = EXTENDED).

Definition domain_sound (self : BaseScheduler.t) (course : Course.t)
    (value : triple) : Prop :=
  ∃ professor room time_slot,
    professor ∈ BaseScheduler.professors self
    ∧ room ∈ BaseScheduler.rooms self
    ∧ time_slot ∈ BaseScheduler.time_slots self
    ∧ value = (Professor.id professor, Room.id room, TimeSlot.id time_slot)
    ∧ (Professor.is_active professor = true
       ∧ Professor.department professor = Course.branch course)
    ∧ (Room.is_available room = true
       ∧ (Course.capacity course ≤ Room.capacity room)%Z
       ∧ room_type_compatible course room
       ∧ has_recognized_equipment course room)
    ∧ (TimeSlot.is_active time_slot = true
       ∧ TimeSlot.slot_type time_slot ≠ BREAK
       ∧ TimeSlot.slot_type time_slot ≠ LUNCH
       ∧ (Course.duration course ≤ TimeSlot.duration_minutes time_slot)%Z
       ∧ slot_suits_course_type course time_slot
       ∧ (TimeSlot.id time_slot ∉ Professor.unavailable_slots professor)
       ∧ (TimeSlot.id time_slot ∉ Room.maintenance_slots room)).

(** ** Search *)

(** The values of a partial assignment do not conflict with each other. *)
Fixpoint all_compatible (values : list triple) : Prop :=
  match values with
  | [] => True
  | value :: values =>
      Forall (λ other, CSP._assignments_conflict value other = false) values
      ∧ all_compatible values
  end.

Definition unassigned (assignment : list (string * triple))
    (domains : list (string * gset triple)) : list string :=
  filter (λ course_id, Py.dict_mem course_id assignment = false)
         (Py.dict_keys domains).

(** Every value of every domain (of every committed variable) meets the
    conditions of [domain_sound] for a course with the id of the variable. *)
Definition domains_within (self : BaseScheduler.t)
    (domains : list (string * gset triple)) : Prop :=
  ∀ course_id domain value,
    (course_id, domain) ∈ domains → value ∈ domain →
    ∃ course, course ∈ BaseScheduler.courses self
      ∧ Course.id course = course_id
      ∧ domain_sound self course value.

Definition assignment_within (self : BaseScheduler.t)
    (assignment : list (string * triple)) : Prop :=
  ∀ course_id value,
    (course_id, value) ∈ assignment →
    ∃ course, course ∈ BaseScheduler.courses self
      ∧ Course.id course = course_id
      ∧ domain_sound self course value.

(** A choice [f] of one value per variable that solves the problem given
    by [domains]: every value is in the domain of its variable and the
    values of two different variables do not conflict. *)
Definition feasible (domains : list (string * gset triple))
    (f : string → triple) : Prop :=
  (∀ course_id domain, (course_id, domain) ∈ domains → f course_id ∈ domain)
  ∧ (∀ course1_id course2_id,
       course1_id ∈ Py.dict_keys domains →
       course2_id ∈ Py.dict_keys domains →
       course1_id ≠ course2_id →
       CSP._assignments_conflict (f course1_id) (f course2_id) = false).

(** The arcs on the queue of AC-3 join two different variables. *)
Definition arcs_within (course_ids : list string)
    (queue : list (string * string)) : Prop :=
  ∀ course1_id course2_id,
    (course1_id, course2_id) ∈ queue →
    course1_id ∈ course_ids ∧ course2_id ∈ course_ids
    ∧ course1_id ≠ course2_id.

(** The partial assignment takes its values from [f]. *)
Definition agrees (assignment : list (string * triple))
    (f : string → triple) : Prop :=
  ∀ course_id value, (course_id, value) ∈ assignment → value = f course_id.

(** ** Quality *)



(** ** Genetic search *)

(** The guard of [_create_random_assignment]: the course has a professor of
    its department, a suitable room and an active time slot. *)
Definition schedulable (self : BaseScheduler.t) (course : Course.t) : bool :=
  negb (bool_decide
          (filter (λ p, Professor.department p = Course.branch course)
                  (BaseScheduler.professors self) = [])
        || bool_decide
             (filter (λ r, Room.is_suitable_for_course r
                             (CourseType_value (Course.course_type course))
                             (Course.capacity course)
                             (Course.required_equipment course) = true)
                     (BaseScheduler.rooms self) = [])
        || bool_decide
             (filter (λ ts, TimeSlot.is_active ts = true)
                     (BaseScheduler.time_slots self) = [])).

(** The number of assignments of every individual. *)
Definition individual_size (self : BaseScheduler.t) : nat :=
  length (filter (λ course, schedulable self course = true)
                 (BaseScheduler.courses self)).

Definition sized (self : BaseScheduler.t) (individual : Schedule.t) : Prop :=
  length (Schedule.assignments individual) = individual_size self.

(** The state of the loop: all individuals and the recorded best have the
    common size. *)
Definition state_sized (self : BaseScheduler.t) (st : Genetic.loop_state)
  : Prop :=
  Forall (sized self) (Genetic.population st)
  ∧ ∀ best, Genetic.best_schedule st = Some best → sized self best.

(** What the genetic solver guarantees of an assignment: it is built by
    [_create_random_assignment] for a course of the input, with a professor
    of the course's department, a room that is suitable for the course and
    an active time slot. *)
Definition drawn_for (self : BaseScheduler.t) (course : Course.t)
    (assignment : Assignment.t) : Prop :=
  ∃ professor room time_slot,
    professor ∈ BaseScheduler.professors self
    ∧ room ∈ BaseScheduler.rooms self
    ∧ time_slot ∈ BaseScheduler.time_slots self
    ∧ Professor.department professor = Course.branch course
    ∧ Room.is_suitable_for_course room
        (CourseType_value (Course.course_type course))
        (Course.capacity course) (Course.required_equipment course) = true
    ∧ TimeSlot.is_active time_slot = true
    ∧ assignment
      = Assignment.mk
          (Course.id course +:+ "_" +:+ Professor.id professor +:+ "_"
           +:+ Room.id room +:+ "_" +:+ TimeSlot.id time_slot)
          (Course.id course) (Professor.id professor) (Room.id room)
          (TimeSlot.id time_slot) 1.

Definition drawn (self : BaseScheduler.t) (assignment : Assignment.t)
  : Prop :=
  ∃ course, course ∈ BaseScheduler.courses self
    ∧ drawn_for self course assignment.

(** An individual: one drawn assignment per schedulable course, in the
    order of the courses. *)
Definition individual (self : BaseScheduler.t) (schedule : Schedule.t)
  : Prop :=
  Forall (drawn self) (Schedule.assignments schedule)
  ∧ Assignment.course_id <$> Schedule.assignments schedule
    = Course.id <$> filter (λ course, schedulable self course = true)
                           (BaseScheduler.courses self).

(** The loop state records a best schedule together with its fitness, or
    nothing yet. *)
Definition records_best (self : BaseScheduler.t) (st : Genetic.loop_state)
  : Prop :=
  match Genetic.best_schedule st, Genetic.best_fitness st with
  | None, Py.neg_inf => True
  | Some best, Py.fin q => (q == Genetic._calculate_fitness self best)%Q
  | _, _ => False
  end.

(** The values a [datetime.time] can have. *)
Definition valid_time (a : time) : Prop :=
  (0 ≤ hour a < 24 ∧ 0 ≤ minute a < 60 ∧ 0 ≤ second a < 60
   ∧ 0 ≤ microsecond a < 1000000)%Z.

(** ** Sorting *)

(** A strict total order, given by its comparison. *)
Class StrictTotal {K : Type} (lt : K → K → bool) : Prop := {
  strict_irrefl : ∀ a, lt a a = false;
  strict_trans : ∀ a b c, lt a b = true → lt b c = true → lt a c = true;
  strict_total : ∀ a b, lt a b = false → lt b a = false → a = b;
}.

(** The comparison of Python tuples. *)
Definition lex {K1 K2 : Type} `{EqDecision K1} (lt1 : K1 → K1 → bool)
    (lt2 : K2 → K2 → bool) (a b : K1 * K2) : bool :=
  lt1 a.1 b.1 || bool_decide (a.1 = b.1) && lt2 a.2 b.2.

Definition Z_lt (a b : Z) : bool := bool_decide (a < b)%Z.

(** The sort keys of [preprocess_data]. *)
Definition course_key (course : Course.t) : Z * (Z * string) :=
  (Course.semester course, (- Course.credits course, Course.code course))%Z.

Definition professor_key (professor : Professor.t) : string * string :=
  (Professor.department professor, Professor.name professor).

Definition room_key (room : Room.t) : string * Z :=
  (RoomType_value (Room.room_type room), - Room.capacity room)%Z.

Definition time_key (a : time) : Z * (Z * (Z * Z)) :=
  (hour a, (minute a, (second a, microsecond a))).

Definition time_slot_key (time_slot : TimeSlot.t)
  : string * (Z * (Z * (Z * Z))) :=
  (DayOfWeek_value (TimeSlot.day time_slot),
   time_key (TimeSlot.start_time time_slot)).

(** No element of the list is smaller than an element before it. *)
Definition ascending {A} (lt : A → A → bool) (l : list A) : Prop :=
  StronglySorted (λ a b, lt b a = false) l.

(** Elements that are not ordered by [lt] keep the order they have in [l]:
    the sort is stable. *)
Definition ties_in_order {A} (lt : A → A → bool) (l sorted : list A)
  : Prop :=
  ∀ x, filter (λ y, lt x y = false ∧ lt y x = false) sorted
       = filter (λ y, lt x y = false ∧ lt y x = false) l.

(** ** Sample data *)

Module Sample.
Definition cs101 : Course.t :=
  Course.mk "CS101" "CS101" 4 60 LECTURE 60 [] 1 "CSE".
Definition cs102 : Course.t :=
  Course.mk "CS102" "CS102" 4 60 LECTURE 60 [] 1 "CSE".
Definition cs103 : Course.t :=
  Course.mk "CS103" "CS103" 3 60 LABORATORY 30 ["Computers"; "kettle"] 1 "CSE".

Definition ann : Professor.t := Professor.mk "P1" "Ann" "CSE" [] ∅ ∅ true.
Definition bob : Professor.t :=
  Professor.mk "P2" "Bob" "CSE" [] ∅ {["T2"]} true.

Definition hall : Room.t := Room.mk "R1" 60 CLASSROOM [] true ∅.
Definition lab : Room.t := Room.mk "R2" 40 COMPUTER_LAB [COMPUTERS] true ∅.

Definition monday_9 : TimeSlot.t :=
  TimeSlot.mk "T1" MONDAY (mk_time 9 0 0 0) (mk_time 10 0 0 0) REGULAR 60 true.
Definition monday_10 : TimeSlot.t :=
  TimeSlot.mk "T2" MONDAY (mk_time 10 0 0 0) (mk_time 11 0 0 0) REGULAR 60 true.
Definition monday_lunch : TimeSlot.t :=
  TimeSlot.mk "T3" MONDAY (mk_time 12 0 0 0) (mk_time 13 0 0 0) LUNCH 60 true.

(** One course, one professor, one room, one regular slot. *)
Definition one_of_each : BaseScheduler.t :=
  BaseScheduler.mk [cs101] [ann] [hall] [monday_9].

(** No time slot at all. *)
Definition no_time_slot : BaseScheduler.t :=
  BaseScheduler.mk [cs101] [ann] [hall] [].

(** The only time slot is the lunch break. *)
Definition only_lunch : BaseScheduler.t :=
  BaseScheduler.mk [cs101] [ann] [hall] [monday_lunch].

Definition department : BaseScheduler.t :=
  BaseScheduler.mk [cs102; cs103; cs101] [bob; ann] [hall; lab]
    [monday_lunch; monday_10; monday_9].

(** Three assignments on one slot with the same professor and room. *)
Definition three_on_one_slot : Schedule.t :=
  Schedule.new "s" "s"
    [Assignment.mk "a1" "c1" "p1" "r1" "t1" 1;
     Assignment.mk "a2" "c2" "p1" "r1" "t1" 1;
     Assignment.mk "a3" "c3" "p1" "r1" "t1" 1;
     Assignment.mk "a4" "c4" "p2" "r2" "t2" 1].

(** A schedule for [department] without conflicts. *)
Definition department_schedule : Schedule.t :=
  Schedule.new "s" "s"
    [Assignment.mk "a1" "CS101" "P1" "R1" "T1" 1;
     Assignment.mk "a2" "CS103" "P2" "R2" "T1" 1].

(** Two variables whose domains share a value. *)
Definition two_domains : list (string * gset triple) :=
  [("A", {[("P1", "R1", "T1")]});
   ("B", {[("P1", "R1", "T1"); ("P2", "R2", "T1")]})].

Definition two_values (course_id : string) : triple :=
  if bool_decide (course_id = "A") then ("P1", "R1", "T1")
  else ("P2", "R2", "T1").

Definition nine : time := mk_time 9 0 0 0.
Definition half_past_ten : time := mk_time 10 30 0 0.

(** A generator and small parameters for the genetic search. *)
Definition draws : Py.rng := Py.mk_rng (λ n, Z.of_nat n * 7919 + 13)%Z 0.

Definition small_config : Genetic.config := Genetic.mk_config 4 3 0.1 0.8 1.

Definition no_population : Genetic.config := Genetic.mk_config 0 1 0.1 0.8 5.
End Sample.

(** * Properties *)

(** ** Dictionaries *)

Section DictFacts.
Context {V : Type}.
Implicit Types (d : list (string * V)) (k : string) (v : V).

Lemma dict_get_Some_elem k v d : Py.dict_get k d = Some v → (k, v) ∈ d.
Proof.
  induction d as [|[k' v'] d IH]; simpl; [done|].
  case_decide; intros E; simplify_eq; [left | right; auto].
Qed.

Lemma dict_get_None k d : Py.dict_get k d = None ↔ k ∉ Py.dict_keys d.
Proof.
  unfold Py.dict_keys.
  induction d as [|[k' v'] d IH]; simpl.
  - split; [intros _; apply not_elem_of_nil | done].
  - rewrite not_elem_of_cons. case_decide; [naive_solver | tauto].
Qed.

Lemma dict_get_is_Some k d : is_Some (Py.dict_get k d) ↔ k ∈ Py.dict_keys d.
Proof.
  rewrite <- not_eq_None_Some, dict_get_None.
  destruct (decide (k ∈ Py.dict_keys d)); tauto.
Qed.

Lemma dict_get_elem k v d :
  NoDup (Py.dict_keys d) → (k, v) ∈ d → Py.dict_get k d = Some v.
Proof.
  unfold Py.dict_keys.
  induction d as [|[k' v'] d IH]; simpl; intros ND E.
  - by apply elem_of_nil in E.
  - apply NoDup_cons in ND as [Hk ND]. apply elem_of_cons in E as [E|E].
    + simplify_eq. by rewrite decide_True.
    + rewrite decide_False; [auto|]. intros ->. apply Hk.
      apply list_elem_of_fmap. by exists (k', v).
Qed.

Lemma dict_mem_true k d : Py.dict_mem k d = true ↔ k ∈ Py.dict_keys d.
Proof. unfold Py.dict_mem. by rewrite bool_decide_eq_true. Qed.

Lemma dict_mem_false k d : Py.dict_mem k d = false ↔ k ∉ Py.dict_keys d.
Proof. unfold Py.dict_mem. by rewrite bool_decide_eq_false. Qed.

Lemma dict_get_set_eq k v d : Py.dict_get k (Py.dict_set k v d) = Some v.
Proof.
  induction d as [|[k' v'] d IH]; simpl.
  - by rewrite decide_True.
  - case_decide; simpl; [by rewrite decide_True | by rewrite decide_False].
Qed.

Lemma dict_get_set_ne k k' v d :
  k ≠ k' → Py.dict_get k' (Py.dict_set k v d) = Py.dict_get k' d.
Proof.
  intros Hne. induction d as [|[k0 v0] d IH]; simpl.
  - by rewrite decide_False.
  - case_decide; simplify_eq; simpl.
    + by rewrite !decide_False.
    + by rewrite IH.
Qed.

Lemma dict_keys_set_in k v d :
  k ∈ Py.dict_keys d → Py.dict_keys (Py.dict_set k v d) = Py.dict_keys d.
Proof.
  unfold Py.dict_keys.
  induction d as [|[k' v'] d IH]; simpl; intros E.
  - by apply elem_of_nil in E.
  - case_decide; simplify_eq; simpl; [done|].
    f_equal. apply IH. apply elem_of_cons in E as [?|?]; [done | auto].
Qed.

Lemma dict_keys_set_notin k v d :
  k ∉ Py.dict_keys d → Py.dict_keys (Py.dict_set k v d) = Py.dict_keys d ++ [k].
Proof.
  unfold Py.dict_keys.
  induction d as [|[k' v'] d IH]; simpl; intros E; [done|].
  apply not_elem_of_cons in E as [? ?].
  rewrite decide_False by done. simpl. f_equal. auto.
Qed.

Lemma dict_set_notin k v d :
  k ∉ Py.dict_keys d → Py.dict_set k v d = d ++ [(k, v)].
Proof.
  unfold Py.dict_keys.
  induction d as [|[k' v'] d IH]; simpl; intros E; [done|].
  apply not_elem_of_cons in E as [? ?].
  rewrite decide_False by done. f_equal. auto.
Qed.

Lemma dict_keys_set_elem k k' v d :
  k' ∈ Py.dict_keys (Py.dict_set k v d) ↔ k' = k ∨ k' ∈ Py.dict_keys d.
Proof.
  destruct (decide (k ∈ Py.dict_keys d)) as [E|E].
  - rewrite dict_keys_set_in by done. naive_solver.
  - rewrite dict_keys_set_notin by done. rewrite elem_of_app, list_elem_of_singleton.
    tauto.
Qed.

Lemma dict_keys_set_NoDup k v d :
  NoDup (Py.dict_keys d) → NoDup (Py.dict_keys (Py.dict_set k v d)).
Proof.
  intros ND. destruct (decide (k ∈ Py.dict_keys d)) as [E|E].
  - by rewrite dict_keys_set_in.
  - rewrite dict_keys_set_notin by done. apply NoDup_app. split_and!; [done| |].
    + intros x Hx Hx'. apply list_elem_of_singleton in Hx'. by subst.
    + apply NoDup_singleton.
Qed.

Lemma dict_set_length k v d :
  length (Py.dict_set k v d)
  = if decide (k ∈ Py.dict_keys d) then length d else S (length d).
Proof.
  case_decide as E.
  - rewrite <- !(length_fmap fst). fold (Py.dict_keys (Py.dict_set k v d)).
    by rewrite dict_keys_set_in.
  - rewrite dict_set_notin by done. rewrite length_app. simpl. lia.
Qed.
End DictFacts.

(** ** Conflict detection (models/schedule.py) *)

Lemma pair_seen_twice_false pair seen l :
  Schedule.pair_seen_twice pair seen l = false
  ↔ NoDup (pair <$> l) ∧ ∀ a, a ∈ l → pair a ∉ seen.
Proof.
  revert seen. induction l as [|a l IH]; intros seen; simpl.
  - split; [|done]. intros _. split; [constructor|]. by intros a ?%elem_of_nil.
  - case_bool_decide as Hin.
    + split; [done|]. intros [_ H]. destruct (H a); [left | done].
    + rewrite IH, NoDup_cons. split.
      * intros [ND H]. split_and!; [|done|].
        -- intros (b & Hb & E)%list_elem_of_fmap.
           apply (H b); [done|]. rewrite <- Hb. set_solver.
        -- intros b [->|E]%elem_of_cons; [done|].
           specialize (H b E). set_solver.
      * intros [[Hn ND] H]. split; [done|]. intros b E.
        rewrite elem_of_union, elem_of_singleton. intros [Eq|Hs].
        -- apply Hn. rewrite <- Eq. apply list_elem_of_fmap. eauto.
        -- apply (H b); [by right | done].
Qed.

Lemma not_NoDup_fmap_lookup {A B} `{EqDecision B} (f : A → B) (l : list A) :
  ¬ NoDup (f <$> l)
  ↔ ∃ i j a b, i ≠ j ∧ l !! i = Some a ∧ l !! j = Some b ∧ f a = f b.
Proof.
  split.
  - induction l as [|x l IH]; simpl; intros H.
    + destruct H. constructor.
    + destruct (decide (f x ∈ f <$> l)) as [E|E].
      * apply list_elem_of_fmap in E as (b & Eb & Hb).
        apply list_elem_of_lookup in Hb as [j Hj].
        by exists 0, (S j), x, b.
      * destruct IH as (i & j & a & b & ? & ? & ? & ?).
        { intros ND. apply H. by constructor. }
        exists (S i), (S j), a, b. naive_solver.
  - intros (i & j & a & b & Hij & Ha & Hb & E) ND.
    apply Hij. eapply NoDup_alt; [exact ND| |].
    + by rewrite list_lookup_fmap, Ha.
    + rewrite list_lookup_fmap, Hb. simpl. by rewrite E.
Qed.

Lemma has_conflicts_false s :
  Schedule.has_conflicts s = false
  ↔ NoDup ((λ a, (Assignment.professor_id a, Assignment.time_slot_id a))
           <$> Schedule.assignments s)
    ∧ NoDup ((λ a, (Assignment.room_id a, Assignment.time_slot_id a))
             <$> Schedule.assignments s).
Proof.
  unfold Schedule.has_conflicts.
  destruct (Schedule.pair_seen_twice _ _ _) eqn:E1.
  - split; [done|]. intros [ND _].
    assert (Schedule.pair_seen_twice
      (λ a, (Assignment.professor_id a, Assignment.time_slot_id a))
      ∅ (Schedule.assignments s) = false) as E; [|congruence].
    apply pair_seen_twice_false. split; [done | set_solver].
  - apply pair_seen_twice_false in E1 as [ND1 _].
    destruct (Schedule.pair_seen_twice _ _ _) eqn:E2.
    + split; [done|]. intros [_ ND].
      assert (Schedule.pair_seen_twice
        (λ a, (Assignment.room_id a, Assignment.time_slot_id a))
        ∅ (Schedule.assignments s) = false) as E; [|congruence].
      apply pair_seen_twice_false. split; [done | set_solver].
    + apply pair_seen_twice_false in E2 as [ND2 _]. done.
Qed.

Lemma has_conflicts_true s :
  Schedule.has_conflicts s = true ↔ has_colliding_pair s.
Proof.
  rewrite <- not_false_iff_true, has_conflicts_false.
  unfold has_colliding_pair, colliding. split.
  - intros H.
    destruct (decide (NoDup ((λ a, (Assignment.professor_id a,
                Assignment.time_slot_id a)) <$> Schedule.assignments s)))
      as [ND1|ND1].
    + destruct (decide (NoDup ((λ a, (Assignment.room_id a,
                Assignment.time_slot_id a)) <$> Schedule.assignments s)))
        as [ND2|ND2]; [tauto|].
      apply not_NoDup_fmap_lookup in ND2 as (i & j & a & b & ? & ? & ? & E).
      exists i, j, a, b. naive_solver.
    + apply not_NoDup_fmap_lookup in ND1 as (i & j & a & b & ? & ? & ? & E).
      exists i, j, a, b. naive_solver.
  - intros (i & j & a & b & Hij & Ha & Hb & Ht & [Hp|Hr]) [ND1 ND2].
    + revert ND1. apply not_NoDup_fmap_lookup.
      exists i, j, a, b. by rewrite Ht, Hp.
    + revert ND2. apply not_NoDup_fmap_lookup.
      exists i, j, a, b. by rewrite Ht, Hr.
Qed.

Lemma sumZ_Permutation l k : l ≡ₚ k → sumZ l = sumZ k.
Proof. induction 1; simpl; lia. Qed.

Lemma sumZ_nonneg l : Forall (λ z, 0 ≤ z)%Z l → (0 ≤ sumZ l)%Z.
Proof. induction 1; simpl; lia. Qed.

Lemma sumZ_elem_le l z : Forall (λ z, 0 ≤ z)%Z l → z ∈ l → (z ≤ sumZ l)%Z.
Proof.
  induction 1 as [|y l Hy Hl IH]; intros E.
  - by apply elem_of_nil in E.
  - pose proof (sumZ_nonneg l Hl).
    apply elem_of_cons in E as [->|E]; simpl; [lia|].
    specialize (IH E). lia.
Qed.

Lemma duplicates_cons x xs :
  Schedule.duplicates (x :: xs)
  = (Schedule.duplicates xs + if decide (x ∈ xs) then 1 else 0)%Z.
Proof.
  unfold Schedule.duplicates. simpl.
  case_decide as E.
  - replace ({[x]} ∪ list_to_set xs : gset string) with
      (list_to_set xs : gset string) by set_solver.
    lia.
  - rewrite size_union by set_solver. rewrite size_singleton. lia.
Qed.

Lemma duplicates_nonneg xs : (0 ≤ Schedule.duplicates xs)%Z.
Proof.
  induction xs as [|x xs IH]; [done|].
  rewrite duplicates_cons. case_decide; lia.
Qed.

Lemma duplicates_NoDup xs : NoDup xs → Schedule.duplicates xs = 0%Z.
Proof.
  induction 1 as [|x xs Hx ND IH]; [done|].
  rewrite duplicates_cons, decide_False by done. lia.
Qed.

Lemma duplicates_pos xs : ¬ NoDup xs → (1 ≤ Schedule.duplicates xs)%Z.
Proof.
  induction xs as [|x xs IH]; intros H.
  - destruct H. constructor.
  - rewrite duplicates_cons. pose proof (duplicates_nonneg xs).
    case_decide as E; [lia|].
    assert (¬ NoDup xs) as H' by (intros ND; apply H; by constructor).
    specialize (IH H'). lia.
Qed.

Lemma NoDup_short {A} (xs : list A) : length xs ≤ 1 → NoDup xs.
Proof.
  destruct xs as [|x [|y xs]]; simpl; intros; try lia.
  - constructor.
  - apply NoDup_singleton.
Qed.

Lemma filter_none {A} (P : A → Prop) `{∀ x, Decision (P x)} (l : list A) :
  (∀ x, x ∈ l → ¬ P x) → filter P l = [].
Proof.
  induction l as [|x l IH]; intros Hl; [done|].
  rewrite filter_cons_False by (apply Hl; left).
  apply IH. intros y Hy. apply Hl. by right.
Qed.

(** What the grouping loop has built after the assignments [l]. *)
Lemma group_by_time_slot_spec l :
  NoDup (Py.dict_keys (Schedule.group_by_time_slot l))
  ∧ ∀ t, Py.dict_get t (Schedule.group_by_time_slot l)
         = if decide (t ∈ Assignment.time_slot_id <$> l)
           then Some (filter (λ a, Assignment.time_slot_id a = t) l)
           else None.
Proof.
  unfold Schedule.group_by_time_slot.
  induction l as [|x l [ND IH]] using rev_ind.
  - split; [constructor | done].
  - rewrite foldl_snoc. cbv zeta.
    set (d := foldl _ [] l) in *. set (k := Assignment.time_slot_id x).
    set (d0 := if Py.dict_mem k d then d else Py.dict_set k [] d).
    assert (NoDup (Py.dict_keys d0)) as ND0.
    { unfold d0. destruct (Py.dict_mem k d); [done|].
      by apply dict_keys_set_NoDup. }
    assert (default [] (Py.dict_get k d0)
            = filter (λ a, Assignment.time_slot_id a = k) l) as Hk.
    { unfold d0. destruct (Py.dict_mem k d) eqn:M.
      - apply dict_mem_true, dict_get_is_Some in M as [g Hg].
        rewrite Hg. rewrite IH in Hg. case_decide; by simplify_eq.
      - rewrite dict_get_set_eq. simpl.
        apply dict_mem_false, dict_get_None in M. rewrite IH in M.
        case_decide as E; [done|].
        symmetry. apply filter_none. intros a Ha Eq.
        apply E, list_elem_of_fmap. eauto. }
    split; [by apply dict_keys_set_NoDup|].
    intros t. rewrite fmap_app, filter_app. simpl.
    destruct (decide (k = t)) as [<-|Hne].
    + rewrite dict_get_set_eq, Hk.
      rewrite decide_True by set_solver.
      by rewrite filter_cons_True, filter_nil.
    + rewrite dict_get_set_ne by done.
      assert (Py.dict_get t d0 = Py.dict_get t d) as ->.
      { unfold d0. destruct (Py.dict_mem k d); [done|].
        by rewrite dict_get_set_ne. }
      rewrite IH, filter_cons_False, filter_nil, app_nil_r by done.
      repeat case_decide; set_solver.
Qed.

Lemma dict_values_from_keys {V} (F : string → V) (d : list (string * V)) :
  (∀ k v, (k, v) ∈ d → v = F k) → Py.dict_values d = F <$> Py.dict_keys d.
Proof.
  unfold Py.dict_values, Py.dict_keys.
  induction d as [|[k v] d IH]; intros H; simpl; [done|].
  rewrite (H k v) by left. f_equal. apply IH. intros ???. apply H. by right.
Qed.

Lemma conflict_loop groups c :
  foldl (λ conflicts group,
           if bool_decide (length group ≤ 1)%nat then conflicts
           else
             let professors := Assignment.professor_id <$> group in
             let conflicts :=
               (conflicts + Schedule.duplicates professors)%Z in
             let rooms := Assignment.room_id <$> group in
             (conflicts + Schedule.duplicates rooms)%Z)
        c groups
  = (c + sumZ (group_conflicts <$> groups))%Z.
Proof.
  revert c. induction groups as [|g groups IH]; intros c; simpl; [lia|].
  rewrite IH. fold (group_conflicts <$> groups).
  generalize (sumZ (group_conflicts <$> groups)). intros z.
  unfold group_conflicts.
  case_bool_decide as Hlen; [|lia].
  rewrite !duplicates_NoDup; [lia | |];
    apply NoDup_short; by rewrite length_fmap.
Qed.

Lemma get_conflict_count_groups s :
  Schedule.get_conflict_count s
  = sumZ ((λ t, group_conflicts (slot_group s t))
          <$> Py.dict_keys (Schedule.group_by_time_slot (Schedule.assignments s))).
Proof.
  unfold Schedule.get_conflict_count. rewrite conflict_loop, Z.add_0_l.
  destruct (group_by_time_slot_spec (Schedule.assignments s)) as [ND Hget].
  rewrite (dict_values_from_keys (slot_group s)).
  - by rewrite <- list_fmap_compose.
  - intros k v Hkv. apply (dict_get_elem _ _ _ ND) in Hkv.
    rewrite Hget in Hkv. case_decide; by simplify_eq.
Qed.

Lemma group_keys_Permutation s :
  Py.dict_keys (Schedule.group_by_time_slot (Schedule.assignments s))
  ≡ₚ elements (list_to_set (Assignment.time_slot_id <$> Schedule.assignments s)
               : gset string).
Proof.
  destruct (group_by_time_slot_spec (Schedule.assignments s)) as [ND Hget].
  apply NoDup_Permutation; [done | apply NoDup_elements |].
  intros t. rewrite elem_of_elements, elem_of_list_to_set.
  rewrite <- dict_get_is_Some, Hget.
  case_decide; split; intros Ht; try done; eauto; by destruct Ht.
Qed.

Lemma colliding_group_not_NoDup {B} `{EqDecision B} (f : Assignment.t → B)
    (l : list Assignment.t) t i j a b :
  i ≠ j → l !! i = Some a → l !! j = Some b →
  Assignment.time_slot_id a = t → Assignment.time_slot_id b = t →
  f a = f b →
  ¬ NoDup (f <$> filter (λ a, Assignment.time_slot_id a = t) l).
Proof.
  assert (∀ i j a b, i < j → l !! i = Some a → l !! j = Some b →
    Assignment.time_slot_id a = t → Assignment.time_slot_id b = t →
    f a = f b →
    ¬ NoDup (f <$> filter (λ a, Assignment.time_slot_id a = t) l)) as Hlt.
  { clear. intros i j a b Hij Ha Hb Hta Htb Hf ND.
    rewrite <- (take_drop_middle l i a Ha) in ND.
    rewrite filter_app, filter_cons_True, fmap_app in ND by done.
    apply NoDup_app in ND as (_ & _ & ND). simpl in ND.
    apply NoDup_cons in ND as [Hn _]. apply Hn.
    rewrite Hf. apply list_elem_of_fmap_2, list_elem_of_filter. split; [done|].
    apply list_elem_of_lookup. exists (j - S i).
    rewrite lookup_drop. rewrite <- Hb. f_equal. lia. }
  intros Hij Ha Hb Hta Htb Hf.
  destruct (decide (i < j)) as [?|?].
  - by eapply (Hlt i j a b).
  - eapply (Hlt j i b a); [lia | done..].
Qed.

Lemma group_conflicts_nonneg g : (0 ≤ group_conflicts g)%Z.
Proof.
  unfold group_conflicts.
  pose proof (duplicates_nonneg (Assignment.professor_id <$> g)).
  pose proof (duplicates_nonneg (Assignment.room_id <$> g)). lia.
Qed.

Lemma colliding_pair_counted s :
  has_colliding_pair s → (1 ≤ Schedule.get_conflict_count s)%Z.
Proof.
  intros (i & j & a & b & Hij & Ha & Hb & Ht & Hpr).
  rewrite get_conflict_count_groups.
  set (t := Assignment.time_slot_id a).
  set (keys := Py.dict_keys _).
  assert (t ∈ keys) as Hkey.
  { destruct (group_by_time_slot_spec (Schedule.assignments s)) as [_ Hget].
    apply dict_get_is_Some. rewrite Hget, decide_True; [eauto|].
    apply list_elem_of_fmap. exists a. split; [done|].
    by eapply list_elem_of_lookup_2. }
  assert (1 ≤ group_conflicts (slot_group s t))%Z as Hone.
  { unfold group_conflicts, slot_group.
    pose proof (duplicates_nonneg (Assignment.professor_id <$>
      filter (λ a, Assignment.time_slot_id a = t) (Schedule.assignments s))).
    pose proof (duplicates_nonneg (Assignment.room_id <$>
      filter (λ a, Assignment.time_slot_id a = t) (Schedule.assignments s))).
    destruct Hpr as [Hp|Hr].
    - pose proof (duplicates_pos _ (colliding_group_not_NoDup
        Assignment.professor_id _ t i j a b Hij Ha Hb eq_refl
        (eq_sym Ht) Hp)). lia.
    - pose proof (duplicates_pos _ (colliding_group_not_NoDup
        Assignment.room_id _ t i j a b Hij Ha Hb eq_refl
        (eq_sym Ht) Hr)). lia. }
  etrans; [exact Hone|].
  apply sumZ_elem_le.
  - apply Forall_fmap, Forall_forall. intros ??. apply group_conflicts_nonneg.
  - apply list_elem_of_fmap. eauto.
Qed.

(** C2: [has_conflicts] is true exactly when two assignments at different
    positions share the time slot and also the professor or the room; and
    whenever such a pair exists, [has_conflicts] is true and
    [get_conflict_count] is at least 1. *)
Theorem has_conflicts_iff_colliding_pair (s : Schedule.t) :
  (Schedule.has_conflicts s = true ↔ has_colliding_pair s)
  ∧ (has_colliding_pair s →
     Schedule.has_conflicts s = true ∧ (1 ≤ Schedule.get_conflict_count s)%Z).
Proof.
  split; [apply has_conflicts_true|].
  intros H. split; [by apply has_conflicts_true | by apply colliding_pair_counted].
Qed.

(** C3: [get_conflict_count] is the sum, over the time slots that occur in
    the schedule, of (assignments in the slot - distinct professors among
    them) + (assignments in the slot - distinct rooms among them). *)
Theorem get_conflict_count_is_spec_sum (s : Schedule.t) :
  Schedule.get_conflict_count s = spec_conflict_count s.
Proof.
  rewrite get_conflict_count_groups. unfold spec_conflict_count.
  rewrite (sumZ_Permutation _ _
             (fmap_Permutation _ _ _ (group_keys_Permutation s))).
  f_equal. apply list_fmap_ext. intros _ t _.
  unfold group_conflicts, Schedule.duplicates, distinct_count.
  by rewrite !length_fmap.
Qed.

(** ** Initial domains of the CSP solver *)

Lemma foldl_gset_elem {A} (step : gset triple → A → gset triple)
    (Q : A → triple → Prop) (l : list A) :
  (∀ acc a x, x ∈ step acc a ↔ x ∈ acc ∨ Q a x) →
  ∀ acc x, x ∈ foldl step acc l ↔ x ∈ acc ∨ ∃ a, a ∈ l ∧ Q a x.
Proof.
  intros Hstep. induction l as [|a l IH]; intros acc x; simpl.
  - split; [auto|]. intros [?|(a & []%elem_of_nil & _)]. done.
  - rewrite IH, Hstep. setoid_rewrite elem_of_cons. naive_solver.
Qed.

Lemma course_domain_elem self course value :
  value ∈ CSP.course_domain self course
  ↔ ∃ professor room time_slot,
      professor ∈ BaseScheduler.professors self
      ∧ room ∈ BaseScheduler.rooms self
      ∧ time_slot ∈ BaseScheduler.time_slots self
      ∧ CSP._can_professor_teach_course professor course = true
      ∧ CSP._can_room_host_course room course = true
      ∧ CSP._can_schedule_at_time course professor room time_slot = true
      ∧ value = (Professor.id professor, Room.id room, TimeSlot.id time_slot).
Proof.
  unfold CSP.course_domain.
  rewrite (foldl_gset_elem _ (λ professor value,
    CSP._can_professor_teach_course professor course = true
    ∧ ∃ room, room ∈ BaseScheduler.rooms self
      ∧ CSP._can_room_host_course room course = true
      ∧ ∃ time_slot, time_slot ∈ BaseScheduler.time_slots self
        ∧ CSP._can_schedule_at_time course professor room time_slot = true
        ∧ value = (Professor.id professor, Room.id room,
                   TimeSlot.id time_slot))).
  - rewrite elem_of_empty. naive_solver.
  - intros acc professor x.
    destruct (CSP._can_professor_teach_course professor course);
      [|naive_solver].
    rewrite (foldl_gset_elem _ (λ room value,
      CSP._can_room_host_course room course = true
      ∧ ∃ time_slot, time_slot ∈ BaseScheduler.time_slots self
        ∧ CSP._can_schedule_at_time course professor room time_slot = true
        ∧ value = (Professor.id professor, Room.id room,
                   TimeSlot.id time_slot))).
    + naive_solver.
    + intros acc' room y.
      destruct (CSP._can_room_host_course room course); [|naive_solver].
      rewrite (foldl_gset_elem _ (λ time_slot value,
        CSP._can_schedule_at_time course professor room time_slot = true
        ∧ value = (Professor.id professor, Room.id room,
                   TimeSlot.id time_slot))).
      * naive_solver.
      * intros acc'' time_slot z.
        destruct (CSP._can_schedule_at_time course professor room time_slot).
        -- rewrite elem_of_union, elem_of_singleton. naive_solver.
        -- naive_solver.
Qed.

Lemma lower_course_type_laboratory ct :
  Py.lower (CourseType_value ct) = "laboratory" ↔ ct = LABORATORY.
Proof. destruct ct; vm_compute; split; congruence. Qed.

Lemma required_features_of_elem feature equipment_list :
  feature ∈ Room.required_features_of equipment_list
  ↔ ∃ equipment, equipment ∈ equipment_list
      ∧ RoomFeature_of_value (Py.lower equipment) = Some feature.
Proof.
  induction equipment_list as [|e l IH]; simpl.
  - split; [by intros ?%elem_of_nil|]. by intros (? & ?%elem_of_nil & _).
  - destruct (RoomFeature_of_value (Py.lower e)) as [f|] eqn:E.
    + rewrite elem_of_cons, IH. setoid_rewrite elem_of_cons. naive_solver.
    + rewrite IH. setoid_rewrite elem_of_cons. naive_solver.
Qed.

Lemma has_all_features_true room fs :
  Room.has_all_features room fs = true
  ↔ ∀ feature, feature ∈ fs → feature ∈ Room.features room.
Proof.
  unfold Room.has_all_features. induction fs as [|f fs IH]; simpl.
  - split; [|done]. by intros _ ? ?%elem_of_nil.
  - rewrite andb_true_iff, bool_decide_eq_true, IH.
    setoid_rewrite elem_of_cons. naive_solver.
Qed.

Lemma equipment_check_passes room equipment_list :
  negb (bool_decide (equipment_list = []))
  && negb (Room.has_all_features room
             (Room.required_features_of equipment_list)) = false
  ↔ ∀ equipment feature,
      equipment ∈ equipment_list →
      RoomFeature_of_value (Py.lower equipment) = Some feature →
      feature ∈ Room.features room.
Proof.
  rewrite andb_false_iff, !negb_false_iff, bool_decide_eq_true,
    has_all_features_true.
  setoid_rewrite required_features_of_elem. split.
  - intros [->|H]; [by intros ?? ?%elem_of_nil | eauto].
  - intros H. right. intros f (e & ? & ?). eauto.
Qed.

Lemma is_suitable_for_course_true room course :
  Room.is_suitable_for_course room
    (CourseType_value (Course.course_type course))
    (Course.capacity course) (Course.required_equipment course) = true
  ↔ Room.is_available room = true
    ∧ (Course.capacity course ≤ Room.capacity room)%Z
    ∧ room_type_compatible course room
    ∧ has_recognized_equipment course room.
Proof.
  unfold Room.is_suitable_for_course, room_type_compatible,
    has_recognized_equipment.
  rewrite <- equipment_check_passes.
  destruct (Room.is_available room); simpl; [|naive_solver].
  case_bool_decide as Hcap; [split; [done | lia]|].
  destruct (_ && negb (Room.has_all_features _ _));
    case_bool_decide as Hlab; rewrite lower_course_type_laboratory in Hlab;
    try case_bool_decide as Hty; simpl;
    try rewrite !elem_of_cons, elem_of_nil in Hty;
    split; try done; try naive_solver; intros _; split_and!; try done;
    try lia; naive_solver.
Qed.

Lemma is_suitable_for_course_type_true time_slot course :
  TimeSlot.is_suitable_for_course_type time_slot
    (CourseType_value (Course.course_type course)) = true
  → TimeSlot.is_active time_slot = true
    ∧ TimeSlot.slot_type time_slot ≠ BREAK
    ∧ TimeSlot.slot_type time_slot ≠ LUNCH
    ∧ slot_suits_course_type course time_slot.
Proof.
  unfold TimeSlot.is_suitable_for_course_type, slot_suits_course_type.
  destruct (TimeSlot.is_active time_slot); simpl; [|done].
  case_bool_decide as Hbreak; [done|].
  rewrite !elem_of_cons, elem_of_nil in Hbreak.
  case_bool_decide as Hlab; rewrite lower_course_type_laboratory in Hlab;
    rewrite bool_decide_eq_true, ?elem_of_cons, ?elem_of_nil; naive_solver.
Qed.

Lemma professor_is_available_at_true professor time_slot_id :
  Professor.is_available_at professor time_slot_id = true →
  time_slot_id ∉ Professor.unavailable_slots professor.
Proof.
  unfold Professor.is_available_at. by case_bool_decide.
Qed.

Lemma room_is_available_at_true room time_slot_id :
  Room.is_available_at room time_slot_id = true →
  time_slot_id ∉ Room.maintenance_slots room.
Proof.
  unfold Room.is_available_at.
  rewrite andb_true_iff, negb_true_iff, bool_decide_eq_false. tauto.
Qed.

Lemma course_domain_sound self course value :
  value ∈ CSP.course_domain self course → domain_sound self course value.
Proof.
  intros (professor & room & time_slot & Hp & Hr & Ht & Hteach & Hhost
          & Htime & ->)%course_domain_elem.
  exists professor, room, time_slot.
  do 4 (split; [done|]). split; [|split].
  - unfold CSP._can_professor_teach_course in Hteach.
    rewrite !andb_true_iff, bool_decide_eq_true in Hteach. tauto.
  - by apply is_suitable_for_course_true.
  - unfold CSP._can_schedule_at_time in Htime.
    rewrite !andb_true_iff in Htime.
    destruct Htime as [[[Hsuit Hdur] Hpa] Hra].
    apply is_suitable_for_course_type_true in Hsuit.
    apply professor_is_available_at_true in Hpa.
    apply room_is_available_at_true in Hra.
    unfold TimeSlot.can_accommodate_duration in Hdur.
    apply bool_decide_eq_true in Hdur. tauto.
Qed.

Lemma initialize_domains_get self course_id domain :
  Py.dict_get course_id (CSP._initialize_domains self) = Some domain →
  ∃ course, course ∈ BaseScheduler.courses self
    ∧ Course.id course = course_id
    ∧ domain = CSP.course_domain self course.
Proof.
  unfold CSP._initialize_domains.
  assert (∀ cs, Py.dict_get course_id
    (foldl (λ domains course,
              Py.dict_set (Course.id course) (CSP.course_domain self course)
                domains) [] cs) = Some domain →
    ∃ course, course ∈ cs ∧ Course.id course = course_id
      ∧ domain = CSP.course_domain self course) as H; [|apply H].
  intros cs. induction cs as [|c cs IH] using rev_ind; [done|].
  rewrite foldl_snoc. setoid_rewrite elem_of_app.
  setoid_rewrite list_elem_of_singleton.
  destruct (decide (Course.id c = course_id)) as [<-|Hne].
  - rewrite dict_get_set_eq. intros [= <-]. eauto.
  - rewrite dict_get_set_ne by done. intros H.
    destruct (IH H) as (c' & ? & ? & ?). eauto.
Qed.

Lemma initialize_domains_keys self :
  NoDup (Py.dict_keys (CSP._initialize_domains self)).
Proof.
  unfold CSP._initialize_domains.
  induction (BaseScheduler.courses self) as [|c cs IH] using rev_ind.
  - constructor.
  - rewrite foldl_snoc. by apply dict_keys_set_NoDup.
Qed.

(** C4: every triple that [_initialize_domains] puts into the domain of a
    course satisfies, for one professor, one room and one time slot of the
    input with these ids, all the conditions on professor, room and slot;
    and every domain stored in the dictionary is the domain built for a
    course with that id. *)
Theorem initial_domain_sound (self : BaseScheduler.t) :
  (∀ course value,
     course ∈ BaseScheduler.courses self →
     value ∈ CSP.course_domain self course →
     domain_sound self course value)
  ∧ (∀ course_id domain value,
       Py.dict_get course_id (CSP._initialize_domains self) = Some domain →
       value ∈ domain →
       ∃ course, course ∈ BaseScheduler.courses self
         ∧ Course.id course = course_id
         ∧ domain_sound self course value).
Proof.
  split.
  - intros course value _. apply course_domain_sound.
  - intros course_id domain value Hget Hin.
    apply initialize_domains_get in Hget as (course & ? & ? & ->).
    exists course. split_and!; [done..|]. by apply course_domain_sound.
Qed.

(** ** The CSP search *)

Lemma assignments_conflict_sym a b :
  CSP._assignments_conflict a b = CSP._assignments_conflict b a.
Proof.
  destruct a as [[p1 r1] t1], b as [[p2 r2] t2]. unfold CSP._assignments_conflict.
  repeat case_bool_decide; simplify_eq; done.
Qed.

Lemma assignments_conflict_true a b :
  CSP._assignments_conflict a b = true
  ↔ a.2 = b.2 ∧ (a.1.1 = b.1.1 ∨ a.1.2 = b.1.2).
Proof.
  destruct a as [[p1 r1] t1], b as [[p2 r2] t2]. unfold CSP._assignments_conflict.
  simpl. repeat case_bool_decide; simpl; naive_solver.
Qed.

Lemma all_compatible_snoc values value :
  all_compatible (values ++ [value])
  ↔ all_compatible values
    ∧ Forall (λ other, CSP._assignments_conflict value other = false) values.
Proof.
  induction values as [|v values IH]; simpl.
  - rewrite Forall_nil. tauto.
  - rewrite IH, Forall_app, Forall_singleton, Forall_cons.
    rewrite (assignments_conflict_sym value v). tauto.
Qed.

Lemma is_consistent_true course_id value assignment :
  CSP._is_consistent course_id value assignment = true
  ↔ Forall (λ other, CSP._assignments_conflict value other = false)
           assignment.*2.
Proof.
  unfold CSP._is_consistent.
  induction assignment as [|[c v] assignment IH]; simpl.
  - rewrite Forall_nil. tauto.
  - rewrite andb_true_iff, negb_true_iff, IH, Forall_cons. tauto.
Qed.

Section SearchFacts.
Variable set_order : gset triple → list triple.
Variable cfg : CSP.config.
Implicit Type self : BaseScheduler.t.

Lemma min_by_elem {A} (key : A → nat) (l : list A) x :
  Py.min_by key l = Some x → x ∈ l.
Proof.
  revert x. induction l as [|y l IH]; intros x; simpl; [done|].
  destruct (Py.min_by key l) as [m|].
  - case_bool_decide; intros [= <-]; [right; by apply IH | left].
  - intros [= <-]. left.
Qed.

Lemma select_unassigned_variable_elem assignment domains course_id :
  CSP._select_unassigned_variable cfg assignment domains = Some course_id →
  course_id ∈ unassigned assignment domains.
Proof.
  unfold CSP._select_unassigned_variable. fold (unassigned assignment domains).
  case_bool_decide; [done|].
  case_bool_decide.
  - apply min_by_elem.
  - destruct (unassigned assignment domains); simpl; [done|].
    intros [= <-]. left.
Qed.

Lemma unassigned_not_assigned assignment domains course_id :
  course_id ∈ unassigned assignment domains →
  course_id ∉ Py.dict_keys assignment.
Proof.
  unfold unassigned. rewrite list_elem_of_filter, dict_mem_false. tauto.
Qed.

(** *** The solution is free of conflicts *)

Lemma try_values_compatible recurse course_id assignment domains values r :
  (∀ a d r, all_compatible a.*2 → recurse a d = Py.Done (Some r) →
            all_compatible r.*2) →
  course_id ∉ Py.dict_keys assignment →
  all_compatible assignment.*2 →
  CSP.try_values cfg recurse course_id assignment domains values
  = Py.Done (Some r) →
  all_compatible r.*2.
Proof.
  intros Hrec Hnew Hcompat.
  induction values as [|value values IH]; simpl; [done|].
  destruct (CSP._is_consistent course_id value assignment) eqn:Hcons; [|done].
  destruct (_ && existsb _ _); [done|].
  destruct (recurse _ _) as [[r'|]|] eqn:Hr; [|done..].
  intros [= <-]. eapply Hrec; [|exact Hr].
  rewrite dict_set_notin by done.
  rewrite fmap_app. simpl. apply all_compatible_snoc.
  split; [done|]. by apply is_consistent_true in Hcons.
Qed.

Lemma backtrack_search_compatible self fuel assignment domains r :
  all_compatible assignment.*2 →
  CSP._backtrack_search set_order cfg self fuel assignment domains
  = Py.Done (Some r) →
  all_compatible r.*2.
Proof.
  revert assignment domains r.
  induction fuel as [|fuel IH]; intros assignment domains r Hcompat; simpl;
    [done|].
  case_bool_decide; [by intros [= <-]|].
  destruct (CSP._select_unassigned_variable cfg assignment domains)
    as [course_id|] eqn:Hsel; [|by intros [= <-]].
  apply try_values_compatible; [exact IH | | done].
  by eapply unassigned_not_assigned, select_unassigned_variable_elem.
Qed.

Lemma search_compatible self r :
  CSP.search set_order cfg self = Py.Done (Some r) → all_compatible r.*2.
Proof.
  unfold CSP.search. destruct (CSP.prepared_domains cfg self); [|done].
  by apply backtrack_search_compatible.
Qed.
End SearchFacts.

Lemma all_compatible_NoDup (proj : triple → string) (values : list triple) :
  (∀ a b, a.2 = b.2 → proj a = proj b →
          CSP._assignments_conflict a b = true) →
  all_compatible values →
  NoDup ((λ v, (proj v, v.2)) <$> values).
Proof.
  intros Hproj. induction values as [|v values IH]; simpl; [constructor|].
  intros [Hv Hcompat]. constructor; [|auto].
  intros (w & [= Hp Ht] & Hw)%list_elem_of_fmap.
  rewrite Forall_forall in Hv. specialize (Hv w Hw).
  rewrite Hproj in Hv; done.
Qed.

Lemma solution_to_schedule_no_conflicts solution :
  all_compatible solution.*2 →
  Schedule.has_conflicts (CSP._solution_to_schedule solution) = false.
Proof.
  intros Hcompat. apply has_conflicts_false. simpl.
  rewrite <- !list_fmap_compose. split.
  - pose proof (all_compatible_NoDup (λ v, v.1.1) _
      (λ a b Ht Hp, proj2 (assignments_conflict_true a b)
                      (conj Ht (or_introl Hp))) Hcompat) as ND.
    rewrite <- list_fmap_compose in ND.
    erewrite list_fmap_ext; [exact ND|]. by intros _ [c [[p r] t]] _.
  - pose proof (all_compatible_NoDup (λ v, v.1.2) _
      (λ a b Ht Hp, proj2 (assignments_conflict_true a b)
                      (conj Ht (or_intror Hp))) Hcompat) as ND.
    rewrite <- list_fmap_compose in ND.
    erewrite list_fmap_ext; [exact ND|]. by intros _ [c [[p r] t]] _.
Qed.

(** *** The search returns: the fuel given by [generate_schedule] suffices *)

Lemma filter_length_lt {A} (P Q : A → Prop) `{∀ x, Decision (P x)}
    `{∀ x, Decision (Q x)} (l : list A) x :
  (∀ y, Q y → P y) → x ∈ l → P x → ¬ Q x →
  length (filter Q l) < length (filter P l).
Proof.
  intros HQP Hx HP HQ.
  assert (∀ l', length (filter Q l') ≤ length (filter P l')) as Hle.
  { intros l'. induction l' as [|y l' IH]; [done|].
    rewrite !filter_cons. destruct (decide (Q y)) as [Hy|Hy].
    - rewrite decide_True by auto. simpl. lia.
    - destruct (decide (P y)); simpl; lia. }
  induction l as [|y l IH]; [by apply elem_of_nil in Hx|].
  apply elem_of_cons in Hx as [<-|Hx].
  - rewrite (filter_cons_False Q), (filter_cons_True P) by done.
    simpl. specialize (Hle l). lia.
  - specialize (IH Hx). rewrite !filter_cons.
    destruct (decide (Q y)) as [Hy|Hy].
    + rewrite decide_True by auto. simpl. lia.
    + destruct (decide (P y)); simpl; lia.
Qed.

(** With unique keys the new dictionary of [_forward_check] has the keys of
    the old one, in the same order. *)
Lemma forward_check_map course_id value domains :
  NoDup (Py.dict_keys domains) →
  CSP._forward_check course_id value domains
  = (λ '(k, domain),
       (k, if bool_decide (k = course_id) then {[value]}
           else filter (λ other,
                          CSP._assignments_conflict value other = false)
                       domain))
    <$> domains.
Proof.
  unfold CSP._forward_check.
  set (step := λ new_domains '(course_id0, domain), _).
  set (G := λ '(k, domain), _).
  assert (∀ d acc,
    NoDup (Py.dict_keys acc ++ Py.dict_keys d) →
    foldl step acc d = acc ++ (G <$> d))
    as H; [|intros ND; by apply (H domains [])].
  induction d as [|[k v] d IH]; intros acc ND; simpl.
  - by rewrite app_nil_r.
  - change (NoDup (Py.dict_keys acc ++ k :: Py.dict_keys d)) in ND.
    assert (k ∉ Py.dict_keys acc) as Hk.
    { apply NoDup_app in ND as (_ & Hd & _). intros Hin.
      apply (Hd k Hin). left. }
    assert (∀ X, NoDup (Py.dict_keys (Py.dict_set k X acc) ++ Py.dict_keys d))
      as Hset.
    { intros X. rewrite dict_keys_set_notin by done.
      by rewrite <- app_assoc. }
    case_bool_decide; rewrite IH by apply Hset;
      rewrite dict_set_notin by done; by rewrite <- app_assoc.
Qed.

Lemma forward_check_keys course_id value domains :
  NoDup (Py.dict_keys domains) →
  Py.dict_keys (CSP._forward_check course_id value domains)
  = Py.dict_keys domains.
Proof.
  intros ND. rewrite forward_check_map by done.
  unfold Py.dict_keys. rewrite <- list_fmap_compose.
  apply list_fmap_ext. by intros _ [k v] _.
Qed.

Section Termination.
Variable set_order : gset triple → list triple.
Variable cfg : CSP.config.
Implicit Type self : BaseScheduler.t.

Lemma unassigned_shrinks assignment domains domains' course_id value :
  Py.dict_keys domains' = Py.dict_keys domains →
  course_id ∈ unassigned assignment domains →
  length (unassigned (Py.dict_set course_id value assignment) domains')
  < length (unassigned assignment domains).
Proof.
  intros Hkeys Hin. unfold unassigned. rewrite Hkeys.
  pose proof Hin as Hin'. apply list_elem_of_filter in Hin' as [Hmem Hkey].
  apply (filter_length_lt _ _ _ course_id); [|done..|].
  - intros c. rewrite !dict_mem_false, dict_keys_set_elem. tauto.
  - rewrite dict_mem_false, dict_keys_set_elem. tauto.
Qed.

Lemma try_values_returns recurse course_id assignment domains values :
  (∀ value, ∃ r,
     recurse (Py.dict_set course_id value assignment)
       (if CSP.use_forward_checking cfg
        then CSP._forward_check course_id value domains else domains)
     = Py.Done r) →
  ∃ r, CSP.try_values cfg recurse course_id assignment domains values
       = Py.Done r.
Proof.
  intros Hrec. induction values as [|value values IH]; simpl; [eauto|].
  destruct (CSP._is_consistent course_id value assignment); [|done].
  destruct (_ && existsb _ _); [done|].
  destruct (Hrec value) as [[r|] ->]; eauto.
Qed.

Lemma backtrack_search_returns self fuel assignment domains :
  NoDup (Py.dict_keys domains) →
  length (unassigned assignment domains) < fuel →
  ∃ r, CSP._backtrack_search set_order cfg self fuel assignment domains
       = Py.Done r.
Proof.
  revert assignment domains.
  induction fuel as [|fuel IH]; intros assignment domains ND Hfuel; [lia|].
  simpl. case_bool_decide; [eauto|].
  destruct (CSP._select_unassigned_variable cfg assignment domains)
    as [course_id|] eqn:Hsel; [|eauto].
  apply select_unassigned_variable_elem in Hsel.
  apply try_values_returns. intros value.
  assert (Py.dict_keys (if CSP.use_forward_checking cfg
            then CSP._forward_check course_id value domains else domains)
          = Py.dict_keys domains) as Hkeys.
  { destruct (CSP.use_forward_checking cfg); [|done].
    by apply forward_check_keys. }
  apply IH.
  - by rewrite Hkeys.
  - pose proof (unassigned_shrinks assignment domains _ course_id value
                  Hkeys Hsel). lia.
Qed.
End Termination.

Lemma domain_of_set_ne (k k' : string) (X : gset triple)
    (d : list (string * gset triple)) :
  k ≠ k' → CSP.domain_of (Py.dict_set k X d) k' = CSP.domain_of d k'.
Proof. intros. unfold CSP.domain_of. by rewrite dict_get_set_ne. Qed.

Lemma total_size_set (k : string) (X : gset triple)
    (d : list (string * gset triple)) :
  CSP.total_size (Py.dict_set k X d) + size (CSP.domain_of d k)
  = CSP.total_size d + size X.
Proof.
  induction d as [|[k' v'] d IH].
  - change (size X + 0 + size (∅ : gset triple) = 0 + size X).
    rewrite size_empty. lia.
  - unfold CSP.domain_of in *. cbn [Py.dict_set Py.dict_get]. case_decide.
    + change (size X + CSP.total_size d + size v'
              = size v' + CSP.total_size d + size X). lia.
    + change (size v' + CSP.total_size (Py.dict_set k X d)
              + size (default ∅ (Py.dict_get k d))
              = size v' + CSP.total_size d + size X). lia.
Qed.

Lemma revise_domain_total_size domains course1_id course2_id :
  CSP.total_size (CSP._revise_domain domains course1_id course2_id).2
  ≤ CSP.total_size domains
  ∧ ((CSP._revise_domain domains course1_id course2_id).1 = true →
     CSP.total_size (CSP._revise_domain domains course1_id course2_id).2
     < CSP.total_size domains).
Proof.
  unfold CSP._revise_domain. simpl.
  set (D1 := CSP.domain_of domains course1_id).
  set (R := filter _ D1).
  pose proof (total_size_set course1_id (D1 ∖ R) domains) as Hsz. fold D1 in Hsz.
  assert (R ⊆ D1) as Hsub by (intros x [_ ?]%elem_of_filter; done).
  pose proof (size_difference D1 R Hsub) as Hdiff.
  pose proof (subseteq_size R D1 Hsub).
  split; [lia|].
  rewrite negb_true_iff, bool_decide_eq_false. intros Hne.
  assert (size R ≠ 0) by (by intros ?%size_empty_inv%leibniz_equiv).
  lia.
Qed.

Lemma ac3_loop_returns fuel course_ids queue domains :
  length queue + length course_ids * CSP.total_size domains < fuel →
  ∃ domains', CSP.ac3_loop fuel course_ids queue domains = Py.Done domains'.
Proof.
  revert queue domains.
  induction fuel as [|fuel IH]; intros queue domains Hfuel; [lia|].
  cbn [CSP.ac3_loop].
  destruct queue as [|[course1_id course2_id] queue]; [eauto|].
  pose proof (revise_domain_total_size domains course1_id course2_id)
    as [Hle Hlt].
  destruct (CSP._revise_domain domains course1_id course2_id)
    as [revised domains']. cbn [fst snd length] in *.
  destruct revised.
  - case_bool_decide; [eauto|]. apply IH.
    specialize (Hlt eq_refl).
    rewrite length_app, length_fmap.
    pose proof (length_filter
      (λ course3_id, course3_id ≠ course1_id ∧ course3_id ≠ course2_id)
      course_ids).
    nia.
  - apply IH. nia.
Qed.

Lemma ac3_loop_keys fuel course_ids queue domains domains' :
  CSP.ac3_loop fuel course_ids queue domains = Py.Done domains' →
  NoDup (Py.dict_keys domains) → NoDup (Py.dict_keys domains').
Proof.
  revert queue domains.
  induction fuel as [|fuel IH]; intros queue domains; cbn [CSP.ac3_loop];
    [done|].
  destruct queue as [|[course1_id course2_id] queue]; [by intros [= <-]|].
  unfold CSP._revise_domain.
  set (domains1 := Py.dict_set course1_id _ domains).
  destruct (negb _).
  - case_bool_decide.
    + intros [= <-] ND. by apply dict_keys_set_NoDup.
    + intros Hloop ND. eapply IH; [exact Hloop|].
      by apply dict_keys_set_NoDup.
  - intros Hloop ND. eapply IH; [exact Hloop|]. by apply dict_keys_set_NoDup.
Qed.

Lemma apply_arc_consistency_returns domains :
  ∃ domains', CSP._apply_arc_consistency domains = Py.Done domains'.
Proof.
  unfold CSP._apply_arc_consistency, CSP.ac3_fuel. apply ac3_loop_returns.
  unfold Py.dict_keys. rewrite length_fmap. lia.
Qed.

Lemma prepared_domains_returns cfg self :
  ∃ domains, CSP.prepared_domains cfg self = Py.Done domains
    ∧ NoDup (Py.dict_keys domains).
Proof.
  unfold CSP.prepared_domains.
  pose proof (initialize_domains_keys (BaseScheduler.preprocess_data self)).
  destruct (CSP.use_arc_consistency cfg); [|eauto].
  destruct (apply_arc_consistency_returns
              (CSP._initialize_domains (BaseScheduler.preprocess_data self)))
    as [domains' E].
  exists domains'. split; [done|].
  unfold CSP._apply_arc_consistency in E. by eapply ac3_loop_keys.
Qed.

Lemma search_returns set_order cfg self :
  ∃ solution, CSP.search set_order cfg self = Py.Done solution.
Proof.
  unfold CSP.search.
  destruct (prepared_domains_returns cfg self) as (domains & -> & ND).
  apply backtrack_search_returns; [done|].
  unfold unassigned.
  pose proof (length_filter
    (λ course_id, Py.dict_mem course_id ([] : list (string * triple)) = false)
    (Py.dict_keys domains)) as Hlen.
  unfold Py.dict_keys in *. rewrite length_fmap in Hlen. lia.
Qed.

Lemma generate_schedule_returns set_order cfg self :
  ∃ schedule, CSP.generate_schedule set_order cfg self = Py.Done schedule.
Proof.
  unfold CSP.generate_schedule.
  destruct (search_returns set_order cfg self) as [[solution|] ->]; [|eauto].
  case_bool_decide; eauto.
Qed.

(** *** Solutions are made of values of the initial domains *)

Lemma sorted_insert_elem {A} (lt : A → A → bool) x y l :
  y ∈ Py.sorted_insert lt x l ↔ y = x ∨ y ∈ l.
Proof.
  induction l as [|z l IH]; simpl.
  - rewrite list_elem_of_singleton, elem_of_nil. tauto.
  - destruct (lt z x); rewrite !elem_of_cons, ?IH; tauto.
Qed.

Lemma sorted_elem {A} (lt : A → A → bool) y l :
  y ∈ Py.sorted lt l ↔ y ∈ l.
Proof.
  induction l as [|x l IH]; simpl; [done|].
  rewrite sorted_insert_elem, elem_of_cons, IH. tauto.
Qed.

Lemma dict_set_elem {V} (k k' : string) (v v' : V) (d : list (string * V)) :
  (k', v') ∈ Py.dict_set k v d → (k' = k ∧ v' = v) ∨ (k', v') ∈ d.
Proof.
  induction d as [|[k0 v0] d IH]; simpl.
  - rewrite list_elem_of_singleton. naive_solver.
  - case_decide; rewrite !elem_of_cons; naive_solver.
Qed.

Lemma domains_within_value self domains course_id value :
  domains_within self domains →
  value ∈ CSP.domain_of domains course_id →
  ∃ course, course ∈ BaseScheduler.courses self
    ∧ Course.id course = course_id
    ∧ domain_sound self course value.
Proof.
  unfold CSP.domain_of. intros Hd Hv.
  destruct (Py.dict_get course_id domains) as [domain|] eqn:E; simpl in Hv.
  - apply dict_get_Some_elem in E. eauto.
  - by apply elem_of_empty in Hv.
Qed.

Lemma initialize_domains_within self :
  domains_within self (CSP._initialize_domains self).
Proof.
  intros course_id domain value Hin Hv.
  apply (dict_get_elem _ _ _ (initialize_domains_keys self)) in Hin.
  apply initialize_domains_get in Hin as (course & ? & ? & ->).
  exists course. split_and!; [done..|]. by apply course_domain_sound.
Qed.

Lemma domains_within_set (self : BaseScheduler.t)
    (domains : list (string * gset triple)) (course_id : string)
    (domain : gset triple) :
  domains_within self domains →
  domain ⊆ CSP.domain_of domains course_id →
  domains_within self (Py.dict_set course_id domain domains).
Proof.
  intros Hd Hsub k D v [[-> ->]|Hin]%dict_set_elem Hv.
  - eapply domains_within_value; [done|]. by apply Hsub.
  - eauto.
Qed.

Lemma ac3_loop_within self fuel course_ids queue domains domains' :
  CSP.ac3_loop fuel course_ids queue domains = Py.Done domains' →
  domains_within self domains → domains_within self domains'.
Proof.
  revert queue domains.
  induction fuel as [|fuel IH]; intros queue domains; cbn [CSP.ac3_loop];
    [done|].
  destruct queue as [|[course1_id course2_id] queue]; [by intros [= <-]|].
  unfold CSP._revise_domain.
  set (domains1 := Py.dict_set course1_id _ domains).
  intros Hloop Hd.
  assert (domains_within self domains1) as Hd1.
  { apply domains_within_set; [done|]. set_solver. }
  destruct (negb _).
  - case_bool_decide; [by simplify_eq|]. by eapply IH.
  - by eapply IH.
Qed.

Lemma forward_check_within self domains course_id value :
  NoDup (Py.dict_keys domains) →
  domains_within self domains →
  value ∈ CSP.domain_of domains course_id →
  domains_within self (CSP._forward_check course_id value domains).
Proof.
  intros ND Hd Hv. rewrite forward_check_map by done.
  intros k D v ([k' D'] & [= -> ->] & Hin)%list_elem_of_fmap.
  case_bool_decide as Hk.
  - rewrite elem_of_singleton. intros ->. subst k'.
    by eapply domains_within_value.
  - intros [_ Hv']%elem_of_filter. eauto.
Qed.

Section Within.
Variable set_order : gset triple → list triple.
Hypothesis set_order_elem : ∀ X x, x ∈ set_order X → x ∈ X.
Variable cfg : CSP.config.
Implicit Type self : BaseScheduler.t.

Lemma order_domain_values_elem course_id domains value :
  value ∈ CSP._order_domain_values set_order cfg course_id domains →
  value ∈ CSP.domain_of domains course_id.
Proof.
  unfold CSP._order_domain_values.
  case_bool_decide; rewrite ?sorted_elem; apply set_order_elem.
Qed.

Lemma try_values_within self recurse course_id assignment domains values r :
  (∀ a d r, assignment_within self a → domains_within self d →
            NoDup (Py.dict_keys d) →
            recurse a d = Py.Done (Some r) → assignment_within self r) →
  course_id ∉ Py.dict_keys assignment →
  assignment_within self assignment →
  domains_within self domains →
  NoDup (Py.dict_keys domains) →
  (∀ value, value ∈ values → value ∈ CSP.domain_of domains course_id) →
  CSP.try_values cfg recurse course_id assignment domains values
  = Py.Done (Some r) →
  assignment_within self r.
Proof.
  intros Hrec Hnew Ha Hd ND.
  induction values as [|value values IH]; intros Hvalues; simpl; [done|].
  assert (∀ v, v ∈ values → v ∈ CSP.domain_of domains course_id) as Hrest
    by (intros v Hv; apply Hvalues; by right).
  assert (value ∈ CSP.domain_of domains course_id) as Hvalue
    by (apply Hvalues; left).
  destruct (CSP._is_consistent course_id value assignment); [|auto].
  destruct (_ && existsb _ _); [auto|].
  destruct (recurse _ _) as [[r'|]|] eqn:Hr; [|auto|done].
  intros [= <-]. eapply Hrec; [| | |exact Hr].
  - rewrite dict_set_notin by done.
    intros k v [Hin|[= -> ->]%list_elem_of_singleton]%elem_of_app; [eauto|].
    by eapply domains_within_value.
  - destruct (CSP.use_forward_checking cfg); [|done].
    by apply forward_check_within.
  - destruct (CSP.use_forward_checking cfg); [|done].
    by rewrite forward_check_keys.
Qed.

Lemma backtrack_search_within self fuel assignment domains r :
  assignment_within self assignment →
  domains_within self domains →
  NoDup (Py.dict_keys domains) →
  CSP._backtrack_search set_order cfg self fuel assignment domains
  = Py.Done (Some r) →
  assignment_within self r.
Proof.
  revert assignment domains r.
  induction fuel as [|fuel IH]; intros assignment domains r Ha Hd ND; simpl;
    [done|].
  case_bool_decide; [by intros [= <-]|].
  destruct (CSP._select_unassigned_variable cfg assignment domains)
    as [course_id|] eqn:Hsel; [|by intros [= <-]].
  apply try_values_within; [exact IH | | done.. |].
  - by eapply unassigned_not_assigned, select_unassigned_variable_elem.
  - intros value. apply order_domain_values_elem.
Qed.

Lemma search_within self r :
  CSP.search set_order cfg self = Py.Done (Some r) →
  assignment_within (BaseScheduler.preprocess_data self) r.
Proof.
  unfold CSP.search.
  destruct (prepared_domains_returns cfg self) as (domains & E & ND).
  rewrite E. apply backtrack_search_within; [|  |done].
  - by intros ?? ?%elem_of_nil.
  - unfold CSP.prepared_domains in E.
    pose proof (initialize_domains_within (BaseScheduler.preprocess_data self)).
    destruct (CSP.use_arc_consistency cfg); [|by simplify_eq].
    unfold CSP._apply_arc_consistency in E. by eapply ac3_loop_within.
Qed.

(** Every assignment of a schedule of the CSP solver is in a time slot of
    the input that is neither a break nor the lunch break. *)
Lemma csp_assignments_avoid_breaks self schedule assignment :
  CSP.generate_schedule set_order cfg self = Py.Done schedule →
  assignment ∈ Schedule.assignments schedule →
  ∃ time_slot,
    time_slot ∈ BaseScheduler.time_slots self
    ∧ TimeSlot.id time_slot = Assignment.time_slot_id assignment
    ∧ TimeSlot.slot_type time_slot ≠ BREAK
    ∧ TimeSlot.slot_type time_slot ≠ LUNCH.
Proof.
  unfold CSP.generate_schedule.
  destruct (CSP.search set_order cfg self) as [[solution|]|] eqn:Hsearch;
    [| |done].
  - case_bool_decide; intros [= <-]; [by intros ?%elem_of_nil|].
    simpl. intros ([c [[p r] t]] & -> & Hin)%list_elem_of_fmap.
    apply search_within in Hsearch.
    destruct (Hsearch _ _ Hin)
      as (course & _ & _ & professor & room & time_slot & _ & _ & Hts
          & [= -> -> ->] & _ & _ & Hslot).
    exists time_slot. simpl in Hts. apply sorted_elem in Hts.
    simpl. tauto.
  - intros [= <-]. by intros ?%elem_of_nil.
Qed.
End Within.

(** C1: the CSP solver returns, and a returned schedule with at least one
    assignment has no conflicts: [has_conflicts] is false on it. *)
Theorem csp_schedule_has_no_conflicts
    (set_order : gset triple → list triple) (cfg : CSP.config)
    (self : BaseScheduler.t) :
  ∃ schedule,
    CSP.generate_schedule set_order cfg self = Py.Done schedule
    ∧ (Schedule.assignments schedule ≠ [] →
       Schedule.has_conflicts schedule = false).
Proof.
  unfold CSP.generate_schedule.
  destruct (search_returns set_order cfg self) as [solution Hsearch].
  rewrite Hsearch. destruct solution as [solution|].
  - case_bool_decide.
    + exists CSP.failed_schedule. by split.
    + exists (CSP._solution_to_schedule solution). split; [done|].
      intros _. apply solution_to_schedule_no_conflicts.
      by eapply search_compatible.
  - exists CSP.failed_schedule. by split.
Qed.

(** C5: when the backtracking search ends with no solution, the solver
    returns the schedule with id "failed", name "No Solution Found" and no
    assignment; nothing is raised. *)
Theorem csp_failure_returns_sentinel
    (set_order : gset triple → list triple) (cfg : CSP.config)
    (self : BaseScheduler.t) :
  CSP.search set_order cfg self = Py.Done None →
  ∃ schedule,
    CSP.generate_schedule set_order cfg self = Py.Done schedule
    ∧ Schedule.id schedule = "failed"
    ∧ Schedule.name schedule = "No Solution Found"
    ∧ Schedule.assignments schedule = [].
Proof.
  intros Hsearch. unfold CSP.generate_schedule. rewrite Hsearch.
  by exists CSP.failed_schedule.
Qed.

(** C10: with an empty course list the search returns the complete, empty
    solution, which counts as false, so the solver returns the "failed"
    schedule. *)
Theorem csp_no_courses_returns_failed
    (set_order : gset triple → list triple) (cfg : CSP.config)
    (professors : list Professor.t) (rooms : list Room.t)
    (time_slots : list TimeSlot.t) :
  let self := BaseScheduler.mk [] professors rooms time_slots in
  CSP.search set_order cfg self = Py.Done (Some [])
  ∧ CSP.generate_schedule set_order cfg self
    = Py.Done (Schedule.new "failed" "No Solution Found" []).
Proof.
  intros self.
  assert (CSP.search set_order cfg self = Py.Done (Some [])) as Hsearch.
  { unfold CSP.search, CSP.prepared_domains.
    destruct (CSP.use_arc_consistency cfg); reflexivity. }
  split; [done|].
  unfold CSP.generate_schedule. by rewrite Hsearch.
Qed.

(** ** The quality score (schedulers/base.py) *)











(** ** The genetic search *)

Lemma bind_Ok {A B} (m : Py.M A) (f : A → Py.M B) g a g' :
  m g = Py.Ok (a, g') → (m ≫= f) g = f a g'.
Proof. unfold mbind, Py.M_bind. by intros ->. Qed.

Lemma bind_Raise {A B} (m : Py.M A) (f : A → Py.M B) g e :
  m g = Py.Raise e → (m ≫= f) g = Py.Raise e.
Proof. unfold mbind, Py.M_bind. by intros ->. Qed.

Lemma bind_Ok_inv {A B} (m : Py.M A) (f : A → Py.M B) g b g'' :
  (m ≫= f) g = Py.Ok (b, g'') →
  ∃ a g', m g = Py.Ok (a, g') ∧ f a g' = Py.Ok (b, g'').
Proof.
  unfold mbind, Py.M_bind. destruct (m g) as [[a g']|e]; [eauto | done].
Qed.

Lemma float_le_refl b : Py.float_le b b.
Proof. destruct b; simpl; [done | apply Qle_refl]. Qed.

Lemma float_gt_le x b : Py.float_gt x b = true → Py.float_le b (Py.fin x).
Proof.
  destruct b as [|q]; simpl; [done|].
  rewrite negb_true_iff. intros Hle.
  destruct (Qlt_le_dec q x) as [Hlt|Hge]; [by apply Qlt_le_weak|].
  apply Qle_bool_iff in Hge. congruence.
Qed.

Lemma generation_best_fitness cfg self st g st' g' :
  Genetic.generation cfg self st g = Py.Ok (st', g') →
  Py.float_le (Genetic.best_fitness st) (Genetic.best_fitness st').
Proof.
  unfold Genetic.generation.
  destruct (Py.max_by id _) as [max_fitness|]; [|done].
  destruct (Py.index_of max_fitness _) as [idx|]; [|done].
  intros (current_best_fitness & g1 & _ & H)%bind_Ok_inv.
  apply bind_Ok_inv in H as (current_best & g2 & _ & H).
  destruct (Py.float_gt current_best_fitness (Genetic.best_fitness st))
    eqn:Hgt.
  - apply bind_Ok_inv in H as (new_population & g3 & _ & [= <- _]).
    simpl. by apply float_gt_le.
  - apply bind_Ok_inv in H as (new_population & g3 & _ & [= <- _]).
    simpl. apply float_le_refl.
Qed.

(** C8: the best fitness recorded after generation g+1 is at least the one
    recorded after generation g. *)
Theorem best_fitness_never_decreases (cfg : Genetic.config)
    (self : BaseScheduler.t) (population : list Schedule.t) (rng : Py.rng)
    (g : nat) (st st' : Genetic.loop_state) (rng1 rng2 : Py.rng) :
  Genetic.generations_loop cfg self g
    (Genetic.mk_state population None Py.neg_inf) rng = Py.Ok (st, rng1) →
  Genetic.generations_loop cfg self (S g)
    (Genetic.mk_state population None Py.neg_inf) rng = Py.Ok (st', rng2) →
  Py.float_le (Genetic.best_fitness st) (Genetic.best_fitness st').
Proof.
  intros Hg HSg. cbn [Genetic.generations_loop] in HSg.
  rewrite (bind_Ok _ _ _ _ _ Hg) in HSg.
  by eapply generation_best_fitness.
Qed.

(** With an empty population every run of at least one generation raises. *)
Lemma generations_loop_empty_population cfg self g best fitness rng :
  Genetic.generations_loop cfg self (S g)
    (Genetic.mk_state [] best fitness) rng
  = Py.Raise Py.ValueError.
Proof.
  induction g as [|g IH].
  - reflexivity.
  - cbn [Genetic.generations_loop] in *. by apply bind_Raise.
Qed.

(** With a population size of 0 or less and at least one generation,
    [generate_schedule] raises [ValueError] on every input: [max] is taken
    of an empty list of fitness scores. *)
Lemma generate_schedule_empty_population cfg self rng :
  (Genetic.population_size cfg ≤ 0)%Z →
  (1 ≤ Genetic.generations cfg)%Z →
  Genetic.generate_schedule cfg self rng = Py.Raise Py.ValueError.
Proof.
  intros Hpop Hgen. unfold Genetic.generate_schedule.
  unfold Genetic._initialize_population, Genetic.range, seqZ.
  replace (Z.to_nat (Genetic.population_size cfg)) with 0 by lia.
  destruct (Z.to_nat (Genetic.generations cfg)) as [|g] eqn:E; [lia|].
  unfold mbind at 1, Py.M_bind at 1. cbn [mapM imap seq fmap list_fmap].
  apply bind_Raise. apply generations_loop_empty_population.
Qed.

(** What [generate_schedule] returns when it returns: the best individual
    recorded by the loop if that one has an assignment, else the "empty"
    schedule. *)
Lemma genetic_returns_best_or_empty cfg self rng schedule rng' :
  Genetic.generate_schedule cfg self rng = Py.Ok (schedule, rng') →
  ∃ population rng0 st,
    Genetic._initialize_population cfg (BaseScheduler.preprocess_data self) rng
    = Py.Ok (population, rng0)
    ∧ Genetic.generations_loop cfg (BaseScheduler.preprocess_data self)
        (Z.to_nat (Genetic.generations cfg))
        (Genetic.mk_state population None Py.neg_inf) rng0
      = Py.Ok (st, rng')
    ∧ match Genetic.best_schedule st with
      | Some best =>
          if bool_decide (Schedule.assignments best = [])
          then schedule = Genetic.empty_schedule
          else schedule = best
      | None => schedule = Genetic.empty_schedule
      end.
Proof.
  unfold Genetic.generate_schedule.
  intros (population & rng0 & Hinit & H)%bind_Ok_inv.
  apply bind_Ok_inv in H as (st & rng1 & Hloop & H).
  exists population, rng0, st.
  destruct (Genetic.best_schedule st) as [best|].
  - unfold Schedule.len in H.
    destruct (Schedule.assignments best) as [|a l]; simpl in H;
      injection H as <- <-; done.
  - by injection H as <- <-.
Qed.

Lemma random_choice_Ok {A} (l : list A) rng :
  l ≠ [] → ∃ x rng', Py.random_choice l rng = Py.Ok (x, rng') ∧ x ∈ l.
Proof.
  intros Hne. unfold Py.random_choice, mbind, Py.M_bind, Py.draw, Py.getitem.
  simpl.
  set (i := Z.to_nat _).
  assert (i < length l) as Hi.
  { unfold i. destruct l; [done|]. simpl length.
    pose proof (Z.mod_pos_bound (Py.stream rng (Py.position rng))
                  (Z.of_nat (S (length l)))). lia. }
  apply lookup_lt_is_Some in Hi as [x Hx]. rewrite Hx.
  eexists _, _. split; [reflexivity|]. by eapply list_elem_of_lookup_2.
Qed.

Lemma create_random_assignment_Ok self course rng :
  ∃ r rng', Genetic._create_random_assignment self course rng = Py.Ok (r, rng').
Proof.
  unfold Genetic._create_random_assignment.
  set (ps := filter _ (BaseScheduler.professors self)).
  set (rs := filter _ (BaseScheduler.rooms self)).
  set (ts := filter _ (BaseScheduler.time_slots self)).
  case_bool_decide as Hp; [by eexists _, _|].
  case_bool_decide as Hr; [by eexists _, _|].
  case_bool_decide as Ht; [by eexists _, _|]. simpl.
  destruct (random_choice_Ok ps rng Hp) as (p & g1 & E1 & _).
  rewrite (bind_Ok _ _ _ _ _ E1).
  destruct (random_choice_Ok rs g1 Hr) as (r & g2 & E2 & _).
  rewrite (bind_Ok _ _ _ _ _ E2).
  destruct (random_choice_Ok ts g2 Ht) as (t & g3 & E3 & _).
  rewrite (bind_Ok _ _ _ _ _ E3).
  by eexists _, _.
Qed.

Lemma random_assignments_Ok self courses assignments rng :
  ∃ r rng',
    Genetic.random_assignments self courses assignments rng = Py.Ok (r, rng').
Proof.
  revert assignments rng.
  induction courses as [|c cs IH]; intros assignments rng; simpl.
  - by eexists _, _.
  - destruct (create_random_assignment_Ok self c rng) as (r & g1 & E).
    rewrite (bind_Ok _ _ _ _ _ E). destruct r; apply IH.
Qed.

Lemma mapM_Ok {A B} (f : A → Py.M B) (l : list A) rng :
  (∀ x g, x ∈ l → ∃ y g', f x g = Py.Ok (y, g')) →
  ∃ ys rng', mapM f l rng = Py.Ok (ys, rng') ∧ length ys = length l.
Proof.
  revert rng. induction l as [|x l IH]; intros rng Hf; simpl.
  - by eexists _, _.
  - destruct (Hf x rng) as (y & g1 & E); [left|].
    rewrite (bind_Ok _ _ _ _ _ E).
    destruct (IH g1) as (ys & g2 & E' & Hlen).
    { intros ???. apply Hf. by right. }
    rewrite (bind_Ok _ _ _ _ _ E').
    eexists _, _. split; [reflexivity|]. simpl. lia.
Qed.

Lemma initialize_population_Ok cfg self rng :
  ∃ population rng',
    Genetic._initialize_population cfg self rng = Py.Ok (population, rng')
    ∧ length population = Z.to_nat (Genetic.population_size cfg).
Proof.
  unfold Genetic._initialize_population.
  destruct (mapM_Ok
    (λ i, Genetic._create_random_schedule self
            ("individual_" +:+ Py.str_of_Z i))
    (Genetic.range (Genetic.population_size cfg)) rng)
    as (population & rng' & E & Hlen).
  - intros i g _. unfold Genetic._create_random_schedule.
    destruct (random_assignments_Ok self (BaseScheduler.courses self) [] g)
      as (r & g1 & E).
    rewrite (bind_Ok _ _ _ _ _ E). by eexists _, _.
  - exists population, rng'. split; [done|].
    rewrite Hlen. apply length_seqZ.
Qed.

(** With no generation to run, the "empty" schedule is returned. *)
Lemma generate_schedule_no_generation cfg self rng :
  (Genetic.generations cfg ≤ 0)%Z →
  ∃ rng', Genetic.generate_schedule cfg self rng
          = Py.Ok (Genetic.empty_schedule, rng').
Proof.
  intros Hgen. unfold Genetic.generate_schedule.
  destruct (initialize_population_Ok cfg (BaseScheduler.preprocess_data self)
              rng) as (population & g1 & E & _).
  rewrite (bind_Ok _ _ _ _ _ E).
  replace (Z.to_nat (Genetic.generations cfg)) with 0 by lia.
  by eexists.
Qed.

(** *** With a population of at least one individual nothing is raised *)

Lemma max_by_Some {A} (key : A → Q) (l : list A) :
  l ≠ [] → ∃ x, Py.max_by key l = Some x ∧ x ∈ l.
Proof.
  induction l as [|y l IH]; [done|]. intros _. simpl.
  destruct l as [|z l].
  - exists y. split; [done | left].
  - destruct IH as (x & -> & Hx); [done|].
    destruct (negb _); eexists; (split; [done|]); [by right | left].
Qed.

Lemma index_of_elem (x : Q) (l : list Q) :
  x ∈ l → ∃ i, Py.index_of x l = Some i ∧ i < length l.
Proof.
  induction l as [|y l IH]; [by intros ?%elem_of_nil|].
  intros Hx. simpl. destruct (Qeq_bool y x) eqn:E.
  - exists 0. split; [done | lia].
  - apply elem_of_cons in Hx as [->|Hx].
    + rewrite (proj2 (Qeq_bool_iff y y) (Qeq_refl y)) in E. done.
    + destruct (IH Hx) as (i & -> & Hi). exists (S i). split; [done | lia].
Qed.

Lemma getitem_Ok {A} (l : list A) i rng :
  i < length l → ∃ x, Py.getitem l i rng = Py.Ok (x, rng) ∧ x ∈ l.
Proof.
  intros [x Hx]%lookup_lt_is_Some. exists x. unfold Py.getitem. rewrite Hx.
  split; [done|]. by eapply list_elem_of_lookup_2.
Qed.

Lemma random_randint_Ok a b rng :
  (a ≤ b)%Z →
  ∃ n rng', Py.random_randint a b rng = Py.Ok (n, rng') ∧ (a ≤ n ≤ b)%Z.
Proof.
  intros Hab. unfold Py.random_randint, mbind, Py.M_bind, Py.draw. simpl.
  rewrite bool_decide_eq_false_2 by lia.
  eexists _, _. split; [reflexivity|].
  pose proof (Z.mod_pos_bound (Py.stream rng (Py.position rng)) (b - a + 1)).
  lia.
Qed.

Lemma random_sample_Ok {A} (pool : list A) k rng :
  k ≤ length pool →
  ∃ xs rng', Py.random_sample pool k rng = Py.Ok (xs, rng')
    ∧ length xs = k ∧ ∀ x, x ∈ xs → x ∈ pool.
Proof.
  revert pool rng. induction k as [|k IH]; intros pool rng Hk; simpl.
  - eexists _, _. split; [reflexivity|]. split; [done|].
    by intros ? ?%elem_of_nil.
  - rewrite bool_decide_eq_false_2 by (destruct pool; simpl in *; [lia|done]).
    unfold mbind at 1, Py.M_bind at 1, Py.draw. simpl.
    set (i := Z.to_nat _).
    assert (i < length pool) as Hi.
    { unfold i.
      pose proof (Z.mod_pos_bound (Py.stream rng (Py.position rng))
                    (Z.of_nat (length pool))). lia. }
    destruct (getitem_Ok pool i
                (Py.mk_rng (Py.stream rng) (S (Py.position rng))) Hi)
      as (x & E & Hx).
    rewrite (bind_Ok _ _ _ _ _ E).
    destruct (IH (delete i pool)
                (Py.mk_rng (Py.stream rng) (S (Py.position rng))))
      as (xs & rng' & E' & Hlen & Hsub).
    { rewrite length_delete by (by apply lookup_lt_is_Some). lia. }
    rewrite (bind_Ok _ _ _ _ _ E').
    eexists _, _. split; [reflexivity|]. split; [simpl; lia|].
    intros y [->|Hy]%elem_of_cons; [done|].
    apply Hsub in Hy. by eapply list_elem_of_delete_inv.
Qed.

Section GeneticReturns.
Variable cfg : Genetic.config.
Variable self : BaseScheduler.t.

Lemma tournament_selection_Ok population fitness_scores rng :
  population ≠ [] →
  ∃ parent rng',
    Genetic._tournament_selection population fitness_scores rng
    = Py.Ok (parent, rng').
Proof.
  intros Hne. unfold Genetic._tournament_selection.
  assert (0 < length population) by (destruct population; simpl; [done|lia]).
  destruct (random_sample_Ok (seq 0 (length population))
              (Nat.min 3 (length population)) rng)
    as (indices & g1 & E & Hlen & Hsub).
  { rewrite length_seq. lia. }
  rewrite (bind_Ok _ _ _ _ _ E).
  destruct (max_by_Some (Genetic.score_at fitness_scores) indices)
    as (best_idx & -> & Hbest).
  { intros ->. change (length (@nil nat)) with 0 in Hlen. lia. }
  apply Hsub, elem_of_seq in Hbest.
  destruct (getitem_Ok population best_idx g1) as (x & -> & _); [lia|].
  by eexists _, _.
Qed.

Lemma crossover_Ok parent1 parent2 rng :
  ∃ child rng', Genetic._crossover parent1 parent2 rng = Py.Ok (child, rng').
Proof.
  unfold Genetic._crossover.
  destruct (random_randint_Ok 1000 9999 rng) as (n & g1 & E & _); [lia|].
  rewrite (bind_Ok _ _ _ _ _ E). by eexists _, _.
Qed.

Lemma mutate_Ok schedule rng :
  ∃ mutant rng', Genetic._mutate self schedule rng = Py.Ok (mutant, rng').
Proof.
  unfold Genetic._mutate. case_bool_decide as Hne; [by eexists _, _|].
  assert (0 < length (Schedule.assignments schedule))
    by (destruct (Schedule.assignments schedule); simpl; [done|lia]).
  destruct (random_randint_Ok 0
              (Z.of_nat (length (Schedule.assignments schedule)) - 1) rng)
    as (i & g1 & E & Hi); [lia|].
  rewrite (bind_Ok _ _ _ _ _ E).
  destruct (getitem_Ok (Schedule.assignments schedule) (Z.to_nat i) g1)
    as (a & Ea & _); [lia|].
  rewrite (bind_Ok _ _ _ _ _ Ea).
  assert (∃ l g2,
    match Py.next_where
            (λ c, bool_decide (Course.id c = Assignment.course_id a))
            (BaseScheduler.courses self) with
    | Some course =>
        new_assignment ← Genetic._create_random_assignment self course;
        match new_assignment with
        | Some new_assignment =>
            mret (<[Z.to_nat i := new_assignment]>
                    (Schedule.assignments schedule))
        | None => mret (Schedule.assignments schedule)
        end
    | None => mret (Schedule.assignments schedule)
    end g1 = Py.Ok (l, g2)) as (l & g2 & El).
  { destruct (Py.next_where _ _) as [course|]; [|by eexists _, _].
    destruct (create_random_assignment_Ok self course g1) as (r & g2 & Er).
    rewrite (bind_Ok _ _ _ _ _ Er). destruct r; by eexists _, _. }
  rewrite (bind_Ok _ _ _ _ _ El).
  destruct (random_randint_Ok 1000 9999 g2) as (n & g3 & En & _); [lia|].
  rewrite (bind_Ok _ _ _ _ _ En). by eexists _, _.
Qed.

Lemma random_random_Ok rng :
  ∃ r rng', Py.random_random rng = Py.Ok (r, rng').
Proof. by eexists _, _. Qed.

Lemma reproduce_Ok todo population fitness_scores new_population rng :
  population ≠ [] →
  ∃ result rng',
    Genetic.reproduce cfg self todo population fitness_scores new_population
      rng = Py.Ok (result, rng')
    ∧ length result = length new_population + todo.
Proof.
  intros Hne. revert new_population rng.
  induction todo as [|todo IH]; intros new_population rng; simpl.
  - eexists _, _. split; [reflexivity | lia].
  - destruct (tournament_selection_Ok population fitness_scores rng Hne)
      as (p1 & g1 & E1). rewrite (bind_Ok _ _ _ _ _ E1).
    destruct (tournament_selection_Ok population fitness_scores g1 Hne)
      as (p2 & g2 & E2). rewrite (bind_Ok _ _ _ _ _ E2).
    destruct (random_random_Ok g2) as (r & g3 & E3).
    rewrite (bind_Ok _ _ _ _ _ E3).
    assert (∃ child g4,
      (if Qlt_bool r (Genetic.crossover_rate cfg)
       then Genetic._crossover p1 p2 else mret p1) g3 = Py.Ok (child, g4))
      as (child & g4 & E4).
    { destruct (Qlt_bool r (Genetic.crossover_rate cfg));
        [apply crossover_Ok | by eexists _, _]. }
    rewrite (bind_Ok _ _ _ _ _ E4).
    destruct (random_random_Ok g4) as (r' & g5 & E5).
    rewrite (bind_Ok _ _ _ _ _ E5).
    assert (∃ child' g6,
      (if Qlt_bool r' (Genetic.mutation_rate cfg)
       then Genetic._mutate self child else mret child) g5
      = Py.Ok (child', g6)) as (child' & g6 & E6).
    { destruct (Qlt_bool r' (Genetic.mutation_rate cfg));
        [apply mutate_Ok | by eexists _, _]. }
    rewrite (bind_Ok _ _ _ _ _ E6).
    destruct (IH (new_population ++ [child']) g6) as (res & g7 & E7 & Hlen).
    eexists _, _. split; [exact E7|].
    rewrite Hlen, length_app. simpl. lia.
Qed.
Lemma slice_to_elem {A} (l : list A) k x : x ∈ Py.slice_to l k → x ∈ l.
Proof.
  unfold Py.slice_to. case_bool_decide; apply subseteq_take.
Qed.

Lemma select_and_reproduce_Ok population fitness_scores rng :
  population ≠ [] →
  length fitness_scores = length population →
  (0 ≤ Genetic.population_size cfg)%Z →
  ∃ new_population rng',
    Genetic._select_and_reproduce cfg self population fitness_scores rng
    = Py.Ok (new_population, rng')
    ∧ length new_population = Z.to_nat (Genetic.population_size cfg).
Proof.
  intros Hne Hlen Hps. unfold Genetic._select_and_reproduce.
  set (elite_indices := Py.slice_to _ _).
  destruct (mapM_Ok (Py.getitem population) elite_indices rng)
    as (elite & g1 & E & Helite).
  { intros i g Hi. apply slice_to_elem, sorted_elem, elem_of_seq in Hi.
    destruct (getitem_Ok population i g) as (x & ? & _); [lia|]. eauto. }
  rewrite (bind_Ok _ _ _ _ _ E).
  destruct (reproduce_Ok
    (Z.to_nat (Genetic.population_size cfg - Z.of_nat (length elite)))
    population fitness_scores elite g1 Hne) as (res & g2 & E2 & Hres).
  rewrite (bind_Ok _ _ _ _ _ E2).
  eexists _, _. split; [reflexivity|].
  unfold Py.slice_to. rewrite bool_decide_eq_true_2 by done.
  rewrite length_take. lia.
Qed.

Lemma generation_Ok st rng :
  Genetic.population st ≠ [] →
  (0 ≤ Genetic.population_size cfg)%Z →
  ∃ st' rng',
    Genetic.generation cfg self st rng = Py.Ok (st', rng')
    ∧ length (Genetic.population st')
      = Z.to_nat (Genetic.population_size cfg).
Proof.
  intros Hne Hps. unfold Genetic.generation.
  set (fitness_scores := Genetic._calculate_fitness self <$> _).
  assert (length fitness_scores = length (Genetic.population st)) as Hlen
    by apply length_fmap.
  destruct (max_by_Some id fitness_scores) as (m & -> & Hm).
  { intros E. rewrite E in Hlen. by destruct (Genetic.population st). }
  destruct (index_of_elem m fitness_scores Hm) as (i & -> & Hi).
  destruct (getitem_Ok fitness_scores i rng Hi) as (f & Ef & _).
  rewrite (bind_Ok _ _ _ _ _ Ef).
  destruct (getitem_Ok (Genetic.population st) i rng) as (b & Eb & _);
    [lia|].
  rewrite (bind_Ok _ _ _ _ _ Eb).
  destruct (select_and_reproduce_Ok (Genetic.population st) fitness_scores
              rng Hne Hlen Hps) as (new & g1 & E & Hnew).
  destruct (Py.float_gt f (Genetic.best_fitness st));
    rewrite (bind_Ok _ _ _ _ _ E); eexists _, _; (split; [reflexivity|]);
    exact Hnew.
Qed.

Lemma generations_loop_Ok g st rng :
  Genetic.population st ≠ [] →
  (1 ≤ Genetic.population_size cfg)%Z →
  ∃ st' rng',
    Genetic.generations_loop cfg self g st rng = Py.Ok (st', rng')
    ∧ Genetic.population st' ≠ [].
Proof.
  intros Hne Hps. induction g as [|g IH]; simpl.
  - by eexists _, _.
  - destruct IH as (st1 & g1 & E & Hne1). rewrite (bind_Ok _ _ _ _ _ E).
    destruct (generation_Ok st1 g1 Hne1) as (st2 & g2 & E2 & Hlen); [lia|].
    eexists _, _. split; [exact E2|].
    intros Hnil. rewrite Hnil in Hlen. simpl in Hlen. lia.
Qed.
End GeneticReturns.

(** With a population of at least one individual [generate_schedule]
    returns a schedule, whatever is drawn. *)
Lemma genetic_generate_schedule_returns cfg self rng :
  (1 ≤ Genetic.population_size cfg)%Z →
  ∃ schedule rng',
    Genetic.generate_schedule cfg self rng = Py.Ok (schedule, rng').
Proof.
  intros Hps. unfold Genetic.generate_schedule.
  destruct (initialize_population_Ok cfg (BaseScheduler.preprocess_data self)
              rng) as (population & g1 & E & Hlen).
  rewrite (bind_Ok _ _ _ _ _ E).
  destruct (generations_loop_Ok cfg (BaseScheduler.preprocess_data self)
              (Z.to_nat (Genetic.generations cfg))
              (Genetic.mk_state population None Py.neg_inf) g1)
    as (st & g2 & E2 & _); [|done|].
  { simpl. intros ->. simpl in Hlen. lia. }
  rewrite (bind_Ok _ _ _ _ _ E2).
  destruct (Genetic.best_schedule st) as [best|]; [|by eexists _, _].
  case_bool_decide; by eexists _, _.
Qed.

(** *** Every individual has one assignment per schedulable course *)

Lemma getitem_inv {A} (l : list A) i rng x rng' :
  Py.getitem l i rng = Py.Ok (x, rng') → x ∈ l ∧ l !! i = Some x.
Proof.
  unfold Py.getitem. destruct (l !! i) as [y|] eqn:E; [|done].
  intros [= <- <-]. split; [by eapply list_elem_of_lookup_2 | done].
Qed.

Lemma mapM_getitem_inv {A} (l : list A) indices rng xs rng' :
  mapM (Py.getitem l) indices rng = Py.Ok (xs, rng') → ∀ x, x ∈ xs → x ∈ l.
Proof.
  revert rng xs. induction indices as [|i indices IH]; intros rng xs; simpl.
  - intros [= <- <-]. by intros ? ?%elem_of_nil.
  - intros (y & g1 & Hy & H)%bind_Ok_inv.
    apply bind_Ok_inv in H as (ys & g2 & Hys & [= <- <-]).
    intros x [->|Hx]%elem_of_cons.
    + by apply getitem_inv in Hy as [? _].
    + by eapply IH.
Qed.

Section Sized.
Variable cfg : Genetic.config.
Variable self : BaseScheduler.t.

Lemma create_random_assignment_inv course rng r rng' :
  Genetic._create_random_assignment self course rng = Py.Ok (r, rng') →
  is_Some r ↔ schedulable self course = true.
Proof.
  unfold Genetic._create_random_assignment, schedulable.
  destruct (_ || _ || _).
  - intros [= <- <-]. split; [by intros [? ?] | done].
  - intros (p & g1 & _ & H)%bind_Ok_inv.
    apply bind_Ok_inv in H as (r' & g2 & _ & H).
    apply bind_Ok_inv in H as (t & g3 & _ & [= <- <-]).
    split; [done | eauto].
Qed.

Lemma random_assignments_length courses assignments rng r rng' :
  Genetic.random_assignments self courses assignments rng = Py.Ok (r, rng') →
  length r
  = length assignments
    + length (filter (λ course, schedulable self course = true) courses).
Proof.
  revert assignments rng.
  induction courses as [|c cs IH]; intros assignments rng; simpl.
  - intros [= <- <-]. lia.
  - intros (a & g1 & Ha & H)%bind_Ok_inv.
    apply create_random_assignment_inv in Ha.
    rewrite filter_cons. destruct a as [a|].
    + rewrite decide_True by (apply Ha; eauto).
      apply IH in H. rewrite length_app in H. simpl in *. lia.
    + rewrite decide_False by (intros [? ?]%Ha; done). by apply IH in H.
Qed.

Lemma initialize_population_sized rng population rng' :
  Genetic._initialize_population cfg self rng = Py.Ok (population, rng') →
  Forall (sized self) population.
Proof.
  unfold Genetic._initialize_population.
  generalize (Genetic.range (Genetic.population_size cfg)). intros l.
  revert rng population. induction l as [|i l IH]; intros rng population;
    simpl.
  - intros [= <- <-]. constructor.
  - intros (y & g1 & Hy & H)%bind_Ok_inv.
    apply bind_Ok_inv in H as (ys & g2 & Hys & [= <- <-]).
    constructor; [|by eapply IH].
    unfold Genetic._create_random_schedule in Hy.
    apply bind_Ok_inv in Hy as (r & g3 & Hr & [= <- <-]).
    apply random_assignments_length in Hr. exact Hr.
Qed.

Lemma tournament_selection_inv population fitness_scores rng parent rng' :
  Genetic._tournament_selection population fitness_scores rng
  = Py.Ok (parent, rng') →
  parent ∈ population.
Proof.
  unfold Genetic._tournament_selection.
  intros (indices & g1 & _ & H)%bind_Ok_inv.
  destruct (Py.max_by _ indices); [|done].
  by apply getitem_inv in H as [? _].
Qed.

Lemma crossover_sized parent1 parent2 rng child rng' :
  sized self parent1 → sized self parent2 →
  Genetic._crossover parent1 parent2 rng = Py.Ok (child, rng') →
  sized self child.
Proof.
  unfold sized, Genetic._crossover, Py.slice_from. intros H1 H2.
  intros (n & g1 & _ & [= <- <-])%bind_Ok_inv. simpl.
  rewrite length_app, length_take, length_drop, H1, H2.
  pose proof (Nat.Div0.div_le_upper_bound (individual_size self) 2
                (individual_size self)). lia.
Qed.

Lemma mutate_sized schedule rng mutant rng' :
  sized self schedule →
  Genetic._mutate self schedule rng = Py.Ok (mutant, rng') →
  sized self mutant.
Proof.
  unfold sized, Genetic._mutate. intros Hs.
  case_bool_decide as Hne; [by intros [= <- <-]|].
  intros (i & g1 & _ & H)%bind_Ok_inv.
  apply bind_Ok_inv in H as (a & g2 & _ & H).
  apply bind_Ok_inv in H as (l & g3 & Hl & H).
  apply bind_Ok_inv in H as (n & g4 & _ & [= <- <-]). simpl.
  destruct (Py.next_where _ _) as [course|]; [|by injection Hl as <- <-].
  apply bind_Ok_inv in Hl as ([new|] & g5 & _ & [= <- <-]); [|done].
  by rewrite length_insert.
Qed.

Lemma reproduce_sized todo population fitness_scores new_population rng
    result rng' :
  Forall (sized self) population →
  Forall (sized self) new_population →
  Genetic.reproduce cfg self todo population fitness_scores new_population rng
  = Py.Ok (result, rng') →
  Forall (sized self) result.
Proof.
  intros Hpop. revert new_population rng.
  induction todo as [|todo IH]; intros new_population rng Hnew; simpl.
  - by intros [= <- <-].
  - intros (p1 & g1 & H1 & H)%bind_Ok_inv.
    apply bind_Ok_inv in H as (p2 & g2 & H2 & H).
    apply bind_Ok_inv in H as (r & g3 & _ & H).
    apply bind_Ok_inv in H as (child & g4 & Hc & H).
    apply bind_Ok_inv in H as (r' & g5 & _ & H).
    apply bind_Ok_inv in H as (child' & g6 & Hc' & H).
    apply tournament_selection_inv in H1, H2.
    rewrite Forall_forall in Hpop.
    assert (sized self child) as Hchild.
    { destruct (Qlt_bool r (Genetic.crossover_rate cfg)).
      - eapply crossover_sized; [| |exact Hc]; auto.
      - injection Hc as <- <-. auto. }
    assert (sized self child') as Hchild'.
    { destruct (Qlt_bool r' (Genetic.mutation_rate cfg)).
      - by eapply mutate_sized.
      - by injection Hc' as <- <-. }
    eapply IH; [|exact H]. apply Forall_app. split; [done|].
    by apply Forall_singleton.
Qed.

Lemma select_and_reproduce_sized population fitness_scores rng result rng' :
  Forall (sized self) population →
  Genetic._select_and_reproduce cfg self population fitness_scores rng
  = Py.Ok (result, rng') →
  Forall (sized self) result.
Proof.
  intros Hpop. unfold Genetic._select_and_reproduce.
  intros (elite & g1 & He & H)%bind_Ok_inv.
  apply bind_Ok_inv in H as (res & g2 & Hres & [= <- <-]).
  assert (Forall (sized self) res) as Hsized.
  { eapply reproduce_sized; [done| |exact Hres].
    apply Forall_forall. intros x Hx.
    rewrite Forall_forall in Hpop. apply Hpop.
    by eapply mapM_getitem_inv. }
  rewrite Forall_forall in Hsized. apply Forall_forall.
  intros x Hx. by apply Hsized, (slice_to_elem _ (Genetic.population_size cfg)).
Qed.

Lemma generation_sized st rng st' rng' :
  state_sized self st →
  Genetic.generation cfg self st rng = Py.Ok (st', rng') →
  state_sized self st'
  ∧ (Genetic.best_fitness st = Py.neg_inf ∨ is_Some (Genetic.best_schedule st)
     → is_Some (Genetic.best_schedule st')
       ∧ Genetic.best_fitness st' ≠ Py.neg_inf).
Proof.
  intros [Hpop Hbest]. unfold Genetic.generation.
  destruct (Py.max_by id _) as [m|]; [|done].
  destruct (Py.index_of m _) as [i|]; [|done].
  intros (f & g1 & _ & H)%bind_Ok_inv.
  apply bind_Ok_inv in H as (b & g2 & Hb & H).
  apply getitem_inv in Hb as [Hb _].
  rewrite Forall_forall in Hpop. pose proof (Hpop b Hb) as Hsb.
  destruct (Py.float_gt f (Genetic.best_fitness st)) eqn:Hgt;
    apply bind_Ok_inv in H as (new & g3 & Hnew & [= <- <-]);
    apply select_and_reproduce_sized in Hnew; try (by apply Forall_forall);
    simpl.
  - split; [split; [done | by intros ? [= <-]]|]. intros _. eauto.
  - split; [by split|]. intros [E|Hsome].
    + rewrite E in Hgt. discriminate.
    + split; [done|]. intros E. rewrite E in Hgt. discriminate.
Qed.

Lemma generations_loop_sized g population rng st rng' :
  Forall (sized self) population →
  Genetic.generations_loop cfg self g
    (Genetic.mk_state population None Py.neg_inf) rng = Py.Ok (st, rng') →
  state_sized self st ∧ (0 < g → is_Some (Genetic.best_schedule st)).
Proof.
  intros Hpop. revert st rng'.
  induction g as [|g IH]; intros st rng'; simpl.
  - intros [= <- <-]. split; [by split|]. lia.
  - intros (st1 & g1 & H1 & H)%bind_Ok_inv.
    destruct (IH _ _ H1) as [Hst1 Hsome].
    destruct (generation_sized _ _ _ _ Hst1 H) as [Hst Hbest].
    split; [done|]. intros _. apply Hbest.
    destruct g as [|g]; [|right; apply Hsome; lia].
    left. by injection H1 as <- <-.
Qed.
End Sized.

(** When the genetic solver returns and no course is schedulable, it
    returns the "empty" schedule; when some course is schedulable and at
    least one generation runs, it returns the recorded best individual,
    which has an assignment for every schedulable course. *)
Lemma genetic_result cfg self rng schedule rng' :
  Genetic.generate_schedule cfg self rng = Py.Ok (schedule, rng') →
  let n := individual_size (BaseScheduler.preprocess_data self) in
  (n = 0 → schedule = Genetic.empty_schedule)
  ∧ (0 < n → (1 ≤ Genetic.generations cfg)%Z →
     length (Schedule.assignments schedule) = n
     ∧ ∃ population rng0 st rng1,
         Genetic._initialize_population cfg
           (BaseScheduler.preprocess_data self) rng
         = Py.Ok (population, rng0)
         ∧ Genetic.generations_loop cfg (BaseScheduler.preprocess_data self)
             (Z.to_nat (Genetic.generations cfg))
             (Genetic.mk_state population None Py.neg_inf) rng0
           = Py.Ok (st, rng1)
         ∧ Genetic.best_schedule st = Some schedule).
Proof.
  intros (population & rng0 & st & Hinit & Hloop & Hres)
    %genetic_returns_best_or_empty n.
  pose proof (initialize_population_sized _ _ _ _ _ Hinit) as Hpop.
  destruct (generations_loop_sized _ _ _ _ _ _ _ Hpop Hloop)
    as [[_ Hbest] Hsome].
  split.
  - intros Hn. destruct (Genetic.best_schedule st) as [best|]; [|done].
    specialize (Hbest best eq_refl). unfold sized in Hbest. fold n in Hbest.
    rewrite bool_decide_eq_true_2 in Hres; [done|].
    destruct (Schedule.assignments best); [done | simpl in *; lia].
  - intros Hn Hgen. destruct Hsome as [best Hb]; [lia|].
    rewrite Hb in Hres. specialize (Hbest best Hb). unfold sized in Hbest.
    fold n in Hbest.
    rewrite bool_decide_eq_false_2 in Hres
      by (intros E; rewrite E in Hbest; simpl in Hbest; lia).
    subst schedule. split; [done|]. by exists population, rng0, st, rng'.
Qed.

(** * Further properties *)

(** ** Constraint propagation of the CSP solver *)

Lemma all_arcs_within course_ids :
  NoDup course_ids → arcs_within course_ids (CSP.all_arcs course_ids).
Proof.
  induction course_ids as [|ci rest IH]; intros ND a b; simpl.
  - by intros ?%elem_of_nil.
  - apply NoDup_cons in ND as [Hci ND].
    rewrite elem_of_app, list_elem_of_In, in_flat_map.
    intros [(cj & Hcj & Hin)|Hin].
    + apply list_elem_of_In in Hcj.
      simpl in Hin. destruct Hin as [[= <- <-]|[[= <- <-]|[]]];
        (split_and!; [set_solver..|]); intros ->; done.
    + destruct (IH ND a b Hin) as (? & ? & ?). set_solver.
Qed.

Lemma domain_of_elem domains course_id :
  course_id ∈ Py.dict_keys domains →
  (course_id, CSP.domain_of domains course_id) ∈ domains.
Proof.
  intros [D HD]%dict_get_is_Some. unfold CSP.domain_of. rewrite HD. simpl.
  by apply dict_get_Some_elem.
Qed.

Lemma domain_of_set_eq (k : string) (X : gset triple)
    (d : list (string * gset triple)) :
  CSP.domain_of (Py.dict_set k X d) k = X.
Proof. unfold CSP.domain_of. by rewrite dict_get_set_eq. Qed.

(** What one call of [_revise_domain] on an arc does to the domains. *)
Lemma revise_domain_spec domains course1_id course2_id :
  course1_id ∈ Py.dict_keys domains →
  course2_id ∈ Py.dict_keys domains →
  course1_id ≠ course2_id →
  let domains' := (CSP._revise_domain domains course1_id course2_id).2 in
  Py.dict_keys domains' = Py.dict_keys domains
  ∧ (∀ k, CSP.domain_of domains' k ⊆ CSP.domain_of domains k)
  ∧ (∀ f, feasible domains f → feasible domains' f).
Proof.
  intros H1 H2 Hne. unfold CSP._revise_domain. simpl.
  set (D1 := CSP.domain_of domains course1_id).
  set (D2 := CSP.domain_of domains course2_id).
  set (R := filter _ D1).
  split_and!.
  - by apply dict_keys_set_in.
  - intros k. destruct (decide (course1_id = k)) as [<-|Hk].
    + rewrite domain_of_set_eq. set_solver.
    + by rewrite domain_of_set_ne.
  - intros f [Hdom Hpair]. split.
    + intros k D [[-> ->]|Hin]%dict_set_elem; [|by apply Hdom].
      apply elem_of_difference. split.
      * by apply Hdom, domain_of_elem.
      * intros [Hnone _]%elem_of_filter.
        apply not_true_iff_false in Hnone. apply Hnone.
        unfold CSP.has_valid_assignment. apply bool_decide_eq_true.
        exists (f course2_id). split; [|by apply Hpair].
        by apply Hdom, domain_of_elem.
    + intros k1 k2. rewrite !dict_keys_set_elem.
      intros [->|?] [->|?] ?; apply Hpair; done.
Qed.

Lemma ac3_loop_spec fuel course_ids queue domains domains' :
  Py.dict_keys domains = course_ids →
  arcs_within course_ids queue →
  CSP.ac3_loop fuel course_ids queue domains = Py.Done domains' →
  Py.dict_keys domains' = course_ids
  ∧ (∀ k, CSP.domain_of domains' k ⊆ CSP.domain_of domains k)
  ∧ (∀ f, feasible domains f → feasible domains' f).
Proof.
  revert queue domains.
  induction fuel as [|fuel IH]; intros queue domains Hkeys Harcs;
    cbn [CSP.ac3_loop]; [done|].
  destruct queue as [|[course1_id course2_id] queue].
  { intros [= <-]. by split_and!. }
  destruct (Harcs course1_id course2_id) as (H1 & H2 & Hne); [left|].
  rewrite <- Hkeys in H1, H2.
  pose proof (revise_domain_spec domains course1_id course2_id H1 H2 Hne)
    as (Hk & Hsub & Hfeas).
  destruct (CSP._revise_domain domains course1_id course2_id)
    as [revised domains1]. cbn [fst snd] in *.
  assert (arcs_within course_ids queue) as Hq
    by (intros a b ?; apply Harcs; by right).
  assert (∀ domains2,
    (Py.dict_keys domains2 = course_ids
     ∧ (∀ k, CSP.domain_of domains2 k ⊆ CSP.domain_of domains1 k)
     ∧ (∀ f, feasible domains1 f → feasible domains2 f)) →
    Py.dict_keys domains2 = course_ids
    ∧ (∀ k, CSP.domain_of domains2 k ⊆ CSP.domain_of domains k)
    ∧ (∀ f, feasible domains f → feasible domains2 f)) as Hcompose.
  { intros domains2 (? & Hsub2 & Hfeas2). split_and!; [done| |auto].
    intros k. etrans; [apply Hsub2 | apply Hsub]. }
  destruct revised.
  - case_bool_decide.
    + intros [= <-]. apply Hcompose. split_and!; [congruence|done..].
    + intros Hloop. apply Hcompose. eapply IH; [congruence| |exact Hloop].
      intros a b [Hin|Hin]%elem_of_app; [by apply Hq|].
      apply list_elem_of_fmap in Hin as (c3 & [= -> ->] & Hc3).
      apply list_elem_of_filter in Hc3 as [[? ?] ?].
      split_and!; [done | by rewrite <- Hkeys | done].
  - intros Hloop. apply Hcompose. eapply IH; [congruence|done|exact Hloop].
Qed.

(** AC-3 only prunes: it returns, the variables stay the same, in the same
    order, and every domain is a subset of the one it started from. *)
Theorem apply_arc_consistency_only_prunes
    (domains : list (string * gset triple)) :
  NoDup (Py.dict_keys domains) →
  ∃ domains',
    CSP._apply_arc_consistency domains = Py.Done domains'
    ∧ Py.dict_keys domains' = Py.dict_keys domains
    ∧ ∀ course_id,
        CSP.domain_of domains' course_id ⊆ CSP.domain_of domains course_id.
Proof.
  intros ND.
  destruct (apply_arc_consistency_returns domains) as [domains' E].
  exists domains'. split; [done|].
  unfold CSP._apply_arc_consistency in E.
  apply ac3_loop_spec in E as (? & ? & _); [done..|].
  by apply all_arcs_within.
Qed.

(** AC-3 removes no value of a solution: an assignment of one value per
    course that respects the domains and has no conflict still respects the
    pruned domains. *)
Theorem apply_arc_consistency_keeps_solutions
    (domains domains' : list (string * gset triple)) (f : string → triple) :
  NoDup (Py.dict_keys domains) →
  CSP._apply_arc_consistency domains = Py.Done domains' →
  feasible domains f →
  feasible domains' f.
Proof.
  intros ND E. unfold CSP._apply_arc_consistency in E.
  apply ac3_loop_spec in E as (_ & _ & Hfeas); [by apply Hfeas|done|].
  by apply all_arcs_within.
Qed.

Lemma dict_get_fmap {V W} (g : string → V → W) (k : string)
    (d : list (string * V)) :
  Py.dict_get k ((λ '(k, v), (k, g k v)) <$> d) = g k <$> Py.dict_get k d.
Proof.
  induction d as [|[k' v'] d IH]; simpl; [done|].
  case_decide; [by subst | done].
Qed.

(** Forward checking keeps the variables and their order, leaves the
    committed variable with the committed value only, and leaves every
    other variable with exactly its values that do not conflict with the
    committed one. *)
Theorem forward_check_prunes_conflicts (assigned_course_id : string)
    (assigned_value : triple) (domains : list (string * gset triple)) :
  NoDup (Py.dict_keys domains) →
  let new_domains :=
    CSP._forward_check assigned_course_id assigned_value domains in
  Py.dict_keys new_domains = Py.dict_keys domains
  ∧ (assigned_course_id ∈ Py.dict_keys domains →
     CSP.domain_of new_domains assigned_course_id = {[assigned_value]})
  ∧ (∀ course_id value,
       course_id ≠ assigned_course_id →
       value ∈ CSP.domain_of new_domains course_id
       ↔ value ∈ CSP.domain_of domains course_id
         ∧ CSP._assignments_conflict assigned_value value = false).
Proof.
  intros ND new_domains. split_and!.
  - by apply forward_check_keys.
  - intros [D HD]%dict_get_is_Some. unfold new_domains, CSP.domain_of.
    rewrite forward_check_map by done.
    rewrite (dict_get_fmap
      (λ k domain, if bool_decide (k = assigned_course_id)
                   then {[assigned_value]}
                   else filter (λ other,
                     CSP._assignments_conflict assigned_value other = false)
                     domain)).
    rewrite HD. simpl. by rewrite bool_decide_eq_true_2.
  - intros course_id value Hne. unfold new_domains, CSP.domain_of.
    rewrite forward_check_map by done.
    rewrite (dict_get_fmap
      (λ k domain, if bool_decide (k = assigned_course_id)
                   then {[assigned_value]}
                   else filter (λ other,
                     CSP._assignments_conflict assigned_value other = false)
                     domain)).
    destruct (Py.dict_get course_id domains) as [D|]; simpl.
    + rewrite bool_decide_eq_false_2 by done. rewrite elem_of_filter. tauto.
    + rewrite elem_of_empty. tauto.
Qed.

(** ** Variable selection *)

Lemma min_by_minimal {A} (key : A → nat) (l : list A) x :
  Py.min_by key l = Some x → ∀ y, y ∈ l → key x ≤ key y.
Proof.
  revert x. induction l as [|z l IH]; intros x; simpl; [done|].
  destruct (Py.min_by key l) as [m|] eqn:Hm.
  - case_bool_decide as Hlt; intros [= <-] y [->|Hy]%elem_of_cons.
    + lia.
    + by apply IH.
    + lia.
    + specialize (IH m eq_refl y Hy). lia.
  - intros [= <-] y [->|Hy]%elem_of_cons; [lia|].
    destruct l; [by apply elem_of_nil in Hy | simpl in Hm].
    destruct (Py.min_by key l); [destruct (bool_decide _)|]; done.
Qed.

Lemma select_unassigned_variable_spec (cfg : CSP.config)
    (assignment : list (string * triple))
    (domains : list (string * gset triple)) :
  (CSP._select_unassigned_variable cfg assignment domains = None
   ↔ ∀ course_id, course_id ∈ Py.dict_keys domains →
                  course_id ∈ Py.dict_keys assignment)
  ∧ (∀ course_id,
       CSP._select_unassigned_variable cfg assignment domains
       = Some course_id →
       course_id ∈ Py.dict_keys domains
       ∧ (course_id ∉ Py.dict_keys assignment)
       ∧ (CSP.variable_ordering cfg = "mrv" →
          ∀ other, other ∈ Py.dict_keys domains →
                   other ∉ Py.dict_keys assignment →
                   size (CSP.domain_of domains course_id)
                   ≤ size (CSP.domain_of domains other))
       ∧ (CSP.variable_ordering cfg ≠ "mrv" →
          head (unassigned assignment domains) = Some course_id)).
Proof.
  split.
  - unfold CSP._select_unassigned_variable.
    fold (unassigned assignment domains).
    assert (unassigned assignment domains = []
            ↔ ∀ course_id, course_id ∈ Py.dict_keys domains →
                           course_id ∈ Py.dict_keys assignment) as Hnil.
    { unfold unassigned. split.
      - intros Hnil c Hc.
        destruct (decide (c ∈ Py.dict_keys assignment)) as [|Hn]; [done|].
        assert (c ∈ filter (λ c, Py.dict_mem c assignment = false)
                      (Py.dict_keys domains)) as Hin
          by (apply list_elem_of_filter; by rewrite dict_mem_false).
        rewrite Hnil in Hin. by apply elem_of_nil in Hin.
      - intros Hall. apply filter_none. intros c Hc.
        rewrite dict_mem_false. auto. }
    case_bool_decide as Hu; [tauto|].
    split; [|by intros ?%Hnil].
    case_bool_decide.
    + destruct (unassigned assignment domains) as [|c l]; [done|]. simpl.
      destruct (Py.min_by _ l); [destruct (bool_decide _)|]; done.
    + by destruct (unassigned assignment domains).
  - intros course_id Hsel.
    pose proof (select_unassigned_variable_elem _ _ _ _ Hsel) as Hin.
    pose proof Hin as Hin'. unfold unassigned in Hin'.
    apply list_elem_of_filter in Hin' as [Hmem Hkey].
    apply dict_mem_false in Hmem. split_and!; [done..| |].
    + intros Hmrv other Hother Hfree.
      unfold CSP._select_unassigned_variable in Hsel.
      case_bool_decide; [done|]. rewrite bool_decide_eq_true_2 in Hsel by done.
      apply (min_by_minimal _ _ _ Hsel).
      apply list_elem_of_filter. by rewrite dict_mem_false.
    + intros Hother. unfold CSP._select_unassigned_variable in Hsel.
      fold (unassigned assignment domains) in Hsel.
      case_bool_decide; [done|]. by rewrite bool_decide_eq_false_2 in Hsel.
Qed.

(** [_select_unassigned_variable] answers [None] exactly when every
    variable is assigned; otherwise it picks an unassigned variable, under
    "mrv" one whose domain is smallest, under any other setting the first
    unassigned one. *)
Theorem select_unassigned_variable_picks (cfg : CSP.config)
    (assignment : list (string * triple))
    (domains : list (string * gset triple)) :
  (CSP._select_unassigned_variable cfg assignment domains = None
   ↔ ∀ course_id, course_id ∈ Py.dict_keys domains →
                  course_id ∈ Py.dict_keys assignment)
  ∧ (∀ course_id,
       CSP._select_unassigned_variable cfg assignment domains
       = Some course_id →
       course_id ∈ Py.dict_keys domains
       ∧ (course_id ∉ Py.dict_keys assignment)
       ∧ (CSP.variable_ordering cfg = "mrv" →
          ∀ other, other ∈ Py.dict_keys domains →
                   other ∉ Py.dict_keys assignment →
                   size (CSP.domain_of domains course_id)
                   ≤ size (CSP.domain_of domains other))
       ∧ (CSP.variable_ordering cfg ≠ "mrv" →
          head (unassigned assignment domains) = Some course_id)).
Proof. apply select_unassigned_variable_spec. Qed.

(** ** What the CSP solver returns *)

Lemma domain_sound_preprocess self course value :
  domain_sound (BaseScheduler.preprocess_data self) course value →
  domain_sound self course value.
Proof.
  intros (p & r & t & Hp & Hr & Ht & H). exists p, r, t.
  apply sorted_elem in Hp. apply sorted_elem in Hr. apply sorted_elem in Ht.
  do 3 (split; [done|]). exact H.
Qed.

Lemma initialize_domains_keys_elem self course_id :
  course_id ∈ Py.dict_keys (CSP._initialize_domains self)
  ↔ ∃ course, course ∈ BaseScheduler.courses self
      ∧ Course.id course = course_id.
Proof.
  unfold CSP._initialize_domains.
  induction (BaseScheduler.courses self) as [|c cs IH] using rev_ind.
  - simpl. split; [by intros ?%elem_of_nil|]. by intros (? & ?%elem_of_nil & _).
  - rewrite foldl_snoc, dict_keys_set_elem, IH.
    setoid_rewrite elem_of_app. setoid_rewrite list_elem_of_singleton.
    naive_solver.
Qed.

Lemma initialize_domains_length self :
  length (CSP._initialize_domains self) ≤ length (BaseScheduler.courses self).
Proof.
  unfold CSP._initialize_domains.
  induction (BaseScheduler.courses self) as [|c cs IH] using rev_ind; [done|].
  rewrite foldl_snoc, dict_set_length, length_app. simpl.
  case_decide; lia.
Qed.

Lemma prepared_domains_keys cfg self domains :
  CSP.prepared_domains cfg self = Py.Done domains →
  Py.dict_keys domains
  = Py.dict_keys (CSP._initialize_domains (BaseScheduler.preprocess_data self))
  ∧ ∀ f, feasible
           (CSP._initialize_domains (BaseScheduler.preprocess_data self)) f →
         feasible domains f.
Proof.
  unfold CSP.prepared_domains.
  destruct (CSP.use_arc_consistency cfg); [|by intros [= <-]].
  unfold CSP._apply_arc_consistency. intros E.
  apply ac3_loop_spec in E as (? & _ & ?); [done..|].
  apply all_arcs_within, initialize_domains_keys.
Qed.

Section SolutionShape.
Variable set_order : gset triple → list triple.
Variable cfg : CSP.config.
Implicit Type self : BaseScheduler.t.

Lemma try_values_keys self recurse course_id assignment domains values r :
  (∀ a d r, NoDup (Py.dict_keys a) → Py.dict_keys a ⊆ Py.dict_keys d →
            NoDup (Py.dict_keys d) →
            recurse a d = Py.Done (Some r) →
            NoDup (Py.dict_keys r)
            ∧ (length r = length (BaseScheduler.courses self)
               ∨ Py.dict_keys d ⊆ Py.dict_keys r)
            ∧ Py.dict_keys r ⊆ Py.dict_keys d) →
  course_id ∈ Py.dict_keys domains →
  course_id ∉ Py.dict_keys assignment →
  NoDup (Py.dict_keys assignment) →
  Py.dict_keys assignment ⊆ Py.dict_keys domains →
  NoDup (Py.dict_keys domains) →
  CSP.try_values cfg recurse course_id assignment domains values
  = Py.Done (Some r) →
  NoDup (Py.dict_keys r)
  ∧ (length r = length (BaseScheduler.courses self)
     ∨ Py.dict_keys domains ⊆ Py.dict_keys r)
  ∧ Py.dict_keys r ⊆ Py.dict_keys domains.
Proof.
  intros Hrec Hin Hnew NDa Hsub NDd.
  induction values as [|value values IH]; simpl; [done|].
  destruct (CSP._is_consistent course_id value assignment); [|done].
  destruct (_ && existsb _ _); [done|].
  destruct (recurse _ _) as [[r'|]|] eqn:Hr; [|done..].
  intros [= <-].
  assert (Py.dict_keys (if CSP.use_forward_checking cfg
            then CSP._forward_check course_id value domains else domains)
          = Py.dict_keys domains) as Hkeys.
  { destruct (CSP.use_forward_checking cfg); [|done].
    by apply forward_check_keys. }
  apply Hrec in Hr; rewrite ?Hkeys in *; [done| | |done].
  - by apply dict_keys_set_NoDup.
  - intros k [->|?]%dict_keys_set_elem; auto.
Qed.

Lemma backtrack_search_keys self fuel assignment domains r :
  NoDup (Py.dict_keys assignment) →
  Py.dict_keys assignment ⊆ Py.dict_keys domains →
  NoDup (Py.dict_keys domains) →
  CSP._backtrack_search set_order cfg self fuel assignment domains
  = Py.Done (Some r) →
  NoDup (Py.dict_keys r)
  ∧ (length r = length (BaseScheduler.courses self)
     ∨ Py.dict_keys domains ⊆ Py.dict_keys r)
  ∧ Py.dict_keys r ⊆ Py.dict_keys domains.
Proof.
  revert assignment domains r.
  induction fuel as [|fuel IH]; intros assignment domains r NDa Hsub NDd;
    simpl; [done|].
  case_bool_decide; [intros [= <-]; by split_and!; [|left|]|].
  pose proof (select_unassigned_variable_spec cfg assignment domains)
    as [Hnone Hsome].
  destruct (CSP._select_unassigned_variable cfg assignment domains)
    as [course_id|] eqn:Hsel.
  - destruct (Hsome course_id eq_refl) as (? & ? & _).
    by apply try_values_keys.
  - intros [= <-]. split_and!; [done| |done].
    right. intros k. by apply Hnone.
Qed.

Lemma search_keys self solution :
  CSP.search set_order cfg self = Py.Done (Some solution) →
  NoDup (Py.dict_keys solution)
  ∧ ∀ course_id,
      course_id ∈ Py.dict_keys solution
      ↔ ∃ course, course ∈ BaseScheduler.courses self
          ∧ Course.id course = course_id.
Proof.
  unfold CSP.search.
  destruct (prepared_domains_returns cfg self) as (domains & E & ND).
  rewrite E. apply prepared_domains_keys in E as [Hkeys _].
  intros H. apply backtrack_search_keys in H as (NDr & Hcov & Hsub);
    [|constructor|by intros ? ?%elem_of_nil|done].
  split; [done|].
  assert (Py.dict_keys domains ⊆ Py.dict_keys solution) as Hall.
  { destruct Hcov as [Hlen|]; [|done].
    assert (Py.dict_keys solution ⊆+ Py.dict_keys domains) as Hms
      by (by apply NoDup_submseteq).
    apply submseteq_length_Permutation in Hms.
    - intros k Hk. by rewrite Hms.
    - pose proof (initialize_domains_length
                    (BaseScheduler.preprocess_data self)) as Hl.
      unfold Py.dict_keys in *. rewrite !length_fmap, Hlen.
      rewrite <- (length_fmap fst domains), Hkeys, length_fmap. exact Hl. }
  intros course_id.
  assert (course_id ∈ Py.dict_keys solution
          ↔ course_id ∈ Py.dict_keys domains) as -> by (split; auto).
  rewrite Hkeys, initialize_domains_keys_elem. simpl.
  by setoid_rewrite sorted_elem.
Qed.
End SolutionShape.

Lemma solution_to_schedule_course_ids solution :
  Assignment.course_id <$> Schedule.assignments (CSP._solution_to_schedule solution)
  = Py.dict_keys solution.
Proof.
  simpl. unfold Py.dict_keys. rewrite <- list_fmap_compose.
  apply list_fmap_ext. by intros _ [c [[p r] t]] _.
Qed.

(** A schedule of the CSP solver that is not empty has exactly one
    assignment for every course id of the input, and none for any other
    id. *)
Theorem csp_schedule_assigns_each_course_once
    (set_order : gset triple → list triple) (cfg : CSP.config)
    (self : BaseScheduler.t) (schedule : Schedule.t) :
  CSP.generate_schedule set_order cfg self = Py.Done schedule →
  Schedule.assignments schedule ≠ [] →
  NoDup (Assignment.course_id <$> Schedule.assignments schedule)
  ∧ ∀ course_id,
      course_id ∈ Assignment.course_id <$> Schedule.assignments schedule
      ↔ ∃ course, course ∈ BaseScheduler.courses self
          ∧ Course.id course = course_id.
Proof.
  unfold CSP.generate_schedule.
  destruct (CSP.search set_order cfg self) as [[solution|]|] eqn:Hsearch;
    [| |done].
  - case_bool_decide; intros [= <-]; [done|]. intros _.
    rewrite solution_to_schedule_course_ids.
    by eapply search_keys.
  - by intros [= <-].
Qed.

(** Every assignment of a schedule of the CSP solver binds a course of the
    input to a professor, a room and a time slot of the input that meet all
    the conditions of the initial domain for that course; its id is made of
    the four ids and its session number is 1. *)
Theorem csp_assignments_meet_domain_conditions
    (set_order : gset triple → list triple) (cfg : CSP.config)
    (self : BaseScheduler.t) (schedule : Schedule.t)
    (assignment : Assignment.t) :
  (∀ X x, x ∈ set_order X → x ∈ X) →
  CSP.generate_schedule set_order cfg self = Py.Done schedule →
  assignment ∈ Schedule.assignments schedule →
  (∃ course,
     course ∈ BaseScheduler.courses self
     ∧ Course.id course = Assignment.course_id assignment
     ∧ domain_sound self course
         (Assignment.professor_id assignment, Assignment.room_id assignment,
          Assignment.time_slot_id assignment))
  ∧ Assignment.id assignment
    = Assignment.course_id assignment +:+ "_"
      +:+ Assignment.professor_id assignment +:+ "_"
      +:+ Assignment.room_id assignment +:+ "_"
      +:+ Assignment.time_slot_id assignment
  ∧ Assignment.session_number assignment = 1%Z.
Proof.
  intros Horder. unfold CSP.generate_schedule.
  destruct (CSP.search set_order cfg self) as [[solution|]|] eqn:Hsearch;
    [| |done].
  - case_bool_decide; intros [= <-]; [by intros ?%elem_of_nil|].
    simpl. intros ([c [[p r] t]] & -> & Hin)%list_elem_of_fmap.
    apply (search_within set_order Horder) in Hsearch.
    destruct (Hsearch _ _ Hin) as (course & Hc & Hid & Hsound).
    split; [|done]. exists course. simpl in Hc. apply sorted_elem in Hc.
    split_and!; [done..|]. by apply domain_sound_preprocess.
  - intros [= <-]. by intros ?%elem_of_nil.
Qed.

(** [validate_schedule] accepts every schedule that [generate_schedule]
    returns; the "failed" schedule is accepted as well. *)
Theorem csp_validate_accepts_generated
    (set_order : gset triple → list triple) (cfg : CSP.config)
    (self : BaseScheduler.t) :
  ∃ schedule,
    CSP.generate_schedule set_order cfg self = Py.Done schedule
    ∧ CSP.validate_schedule schedule = true
    ∧ CSP.validate_schedule CSP.failed_schedule = true.
Proof.
  unfold CSP.generate_schedule, CSP.validate_schedule,
    CSP._check_all_constraints.
  destruct (search_returns set_order cfg self) as [solution Hsearch].
  rewrite Hsearch. destruct solution as [solution|].
  - case_bool_decide.
    + by exists CSP.failed_schedule.
    + exists (CSP._solution_to_schedule solution). split; [done|].
      rewrite solution_to_schedule_no_conflicts; [done|].
      by eapply search_compatible.
  - by exists CSP.failed_schedule.
Qed.

(** ** The search is complete *)

Lemma forward_check_feasible course_id domains f :
  NoDup (Py.dict_keys domains) →
  course_id ∈ Py.dict_keys domains →
  feasible domains f →
  feasible (CSP._forward_check course_id (f course_id) domains) f.
Proof.
  intros ND Hin [Hdom Hpair]. split.
  - rewrite forward_check_map by done.
    intros k D ([k' D'] & [= -> ->] & Hk)%list_elem_of_fmap.
    case_bool_decide as Heq; [subst; set_solver|].
    apply elem_of_filter. split; [|by apply Hdom].
    apply Hpair; [done| |done].
    apply list_elem_of_fmap. by exists (k', D').
  - rewrite forward_check_keys by done. exact Hpair.
Qed.

Lemma feasible_nonempty domains f :
  feasible domains f →
  existsb (λ domain : gset triple, bool_decide (domain = ∅))
          (Py.dict_values domains) = false.
Proof.
  intros [Hdom _]. apply not_true_iff_false. intros Hex.
  apply existsb_exists in Hex as (D & HD & Hempty).
  apply bool_decide_eq_true in Hempty. subst D.
  apply list_elem_of_In in HD. unfold Py.dict_values in HD.
  apply list_elem_of_fmap in HD as ([k D] & HD & Hin).
  simpl in HD. subst D. apply Hdom in Hin. set_solver.
Qed.

Section Complete.
Variable set_order : gset triple → list triple.
Hypothesis set_order_complete : ∀ X x, x ∈ X → x ∈ set_order X.
Variable cfg : CSP.config.
Implicit Type self : BaseScheduler.t.

Lemma try_values_complete recurse course_id assignment domains values f :
  (∀ a d, feasible d f → agrees a f →
          Py.dict_keys a ⊆ Py.dict_keys d → NoDup (Py.dict_keys d) →
          recurse a d ≠ Py.Done None) →
  feasible domains f →
  agrees assignment f →
  Py.dict_keys assignment ⊆ Py.dict_keys domains →
  NoDup (Py.dict_keys domains) →
  course_id ∈ Py.dict_keys domains →
  course_id ∉ Py.dict_keys assignment →
  f course_id ∈ values →
  CSP.try_values cfg recurse course_id assignment domains values
  ≠ Py.Done None.
Proof.
  intros Hrec Hfeas Hagree Hsub ND Hin Hnew.
  induction values as [|value values IH]; [by intros ?%elem_of_nil|].
  intros Hf. simpl.
  destruct (decide (value = f course_id)) as [->|Hne].
  - assert (CSP._is_consistent course_id (f course_id) assignment = true)
      as ->.
    { apply is_consistent_true, Forall_forall.
      intros v ([k v'] & -> & Hkv)%list_elem_of_fmap. simpl.
      rewrite (Hagree _ _ Hkv). destruct Hfeas as [_ Hpair].
      assert (k ∈ Py.dict_keys assignment) as Hk
        by (apply list_elem_of_fmap; by exists (k, v')).
      apply Hpair; [done | by apply Hsub |]. by intros ->. }
    set (new_domains := if CSP.use_forward_checking cfg then _ else domains).
    assert (feasible new_domains f) as Hnew_feas.
    { unfold new_domains. destruct (CSP.use_forward_checking cfg); [|done].
      by apply forward_check_feasible. }
    assert (Py.dict_keys new_domains = Py.dict_keys domains) as Hkeys.
    { unfold new_domains. destruct (CSP.use_forward_checking cfg); [|done].
      by apply forward_check_keys. }
    rewrite (feasible_nonempty _ _ Hnew_feas), andb_false_r.
    specialize (Hrec (Py.dict_set course_id (f course_id) assignment)
                  new_domains Hnew_feas).
    destruct (recurse _ _) as [[r|]|]; [done| |done].
    exfalso. apply Hrec; [| |by rewrite Hkeys|done].
    + intros k v [[-> ->]|Hkv]%dict_set_elem; [done | by apply Hagree].
    + rewrite Hkeys. intros k [->|?]%dict_keys_set_elem; auto.
  - assert (f course_id ∈ values) as Hf'
      by (apply elem_of_cons in Hf as [?|?]; [congruence | done]).
    specialize (IH Hf').
    destruct (CSP._is_consistent course_id value assignment); [|done].
    destruct (_ && existsb _ _); [done|].
    by destruct (recurse _ _) as [[r|]|].
Qed.

Lemma backtrack_search_complete self fuel assignment domains f :
  feasible domains f →
  agrees assignment f →
  Py.dict_keys assignment ⊆ Py.dict_keys domains →
  NoDup (Py.dict_keys domains) →
  CSP._backtrack_search set_order cfg self fuel assignment domains
  ≠ Py.Done None.
Proof.
  revert assignment domains.
  induction fuel as [|fuel IH]; intros assignment domains Hfeas Hagree Hsub ND;
    simpl; [done|].
  case_bool_decide; [done|].
  pose proof (select_unassigned_variable_spec cfg assignment domains)
    as [_ Hsome].
  destruct (CSP._select_unassigned_variable cfg assignment domains)
    as [course_id|]; [|done].
  destruct (Hsome course_id eq_refl) as (Hin & Hnew & _).
  apply (try_values_complete _ _ _ _ _ f); try done.
  unfold CSP._order_domain_values.
  assert (f course_id ∈ set_order (CSP.domain_of domains course_id)) as Hf.
  { apply set_order_complete. destruct Hfeas as [Hdom _].
    by apply Hdom, domain_of_elem. }
  case_bool_decide; [by apply sorted_elem | done].
Qed.

Lemma search_complete self f :
  feasible (CSP._initialize_domains (BaseScheduler.preprocess_data self)) f →
  CSP.search set_order cfg self ≠ Py.Done None.
Proof.
  intros Hfeas. unfold CSP.search.
  destruct (prepared_domains_returns cfg self) as (domains & E & ND).
  rewrite E. apply prepared_domains_keys in E as [_ Hkeep].
  apply (backtrack_search_complete _ _ _ _ f); [auto| | |done].
  - by intros ?? ?%elem_of_nil.
  - by intros ? ?%elem_of_nil.
Qed.
End Complete.

(** When there is a course and the CSP solver returns a schedule without
    assignment (the "failed" schedule), the problem has no solution: no
    choice of one triple per course id from the initial domains is free of
    conflicts. *)
Theorem csp_failure_means_infeasible
    (set_order : gset triple → list triple) (cfg : CSP.config)
    (self : BaseScheduler.t) (schedule : Schedule.t) :
  (∀ X x, x ∈ X → x ∈ set_order X) →
  BaseScheduler.courses self ≠ [] →
  CSP.generate_schedule set_order cfg self = Py.Done schedule →
  Schedule.assignments schedule = [] →
  ¬ ∃ f, feasible
           (CSP._initialize_domains (BaseScheduler.preprocess_data self)) f.
Proof.
  intros Horder Hcourses. unfold CSP.generate_schedule.
  destruct (CSP.search set_order cfg self) as [[solution|]|] eqn:Hsearch;
    [| |done].
  - intros Hgen Hnil. exfalso.
    assert (solution = []) as ->.
    { destruct solution; [done|].
      rewrite bool_decide_eq_false_2 in Hgen by done.
      injection Hgen as <-. done. }
    apply search_keys in Hsearch as [_ Hkeys].
    destruct (BaseScheduler.courses self) as [|c cs] eqn:Ec; [done|].
    assert (Course.id c ∈ Py.dict_keys ([] : list (string * triple))) as Hin.
    { apply Hkeys. exists c. split; [left | done]. }
    by apply elem_of_nil in Hin.
  - intros _ _ [f Hf]. by apply (search_complete set_order Horder cfg self f).
Qed.

(** ** What the genetic solver returns *)

Lemma random_choice_inv {A} (l : list A) rng x rng' :
  Py.random_choice l rng = Py.Ok (x, rng') → x ∈ l.
Proof.
  unfold Py.random_choice. intros (d & g1 & _ & H)%bind_Ok_inv.
  by apply getitem_inv in H as [? _].
Qed.

Lemma next_where_Some {A} (p : A → bool) (l : list A) x :
  Py.next_where p l = Some x → x ∈ l ∧ p x = true.
Proof.
  induction l as [|y l IH]; simpl; [done|].
  destruct (p y) eqn:E.
  - intros [= <-]. split; [left | done].
  - intros [? ?]%IH. split; [by right | done].
Qed.

(** Properties of individuals that crossover and mutation keep are kept by
    the whole generational loop. *)
Section Population.
Variable cfg : Genetic.config.
Variable self : BaseScheduler.t.
Variable P : Schedule.t → Prop.
Hypothesis crossover_keeps : ∀ parent1 parent2 rng child rng',
  P parent1 → P parent2 →
  Genetic._crossover parent1 parent2 rng = Py.Ok (child, rng') → P child.
Hypothesis mutate_keeps : ∀ schedule rng mutant rng',
  P schedule →
  Genetic._mutate self schedule rng = Py.Ok (mutant, rng') → P mutant.

Lemma reproduce_keeps todo population fitness_scores new_population rng
    result rng' :
  Forall P population → Forall P new_population →
  Genetic.reproduce cfg self todo population fitness_scores new_population rng
  = Py.Ok (result, rng') →
  Forall P result.
Proof.
  intros Hpop. revert new_population rng.
  induction todo as [|todo IH]; intros new_population rng Hnew; simpl.
  - by intros [= <- <-].
  - intros (p1 & g1 & H1 & H)%bind_Ok_inv.
    apply bind_Ok_inv in H as (p2 & g2 & H2 & H).
    apply bind_Ok_inv in H as (r & g3 & _ & H).
    apply bind_Ok_inv in H as (child & g4 & Hc & H).
    apply bind_Ok_inv in H as (r' & g5 & _ & H).
    apply bind_Ok_inv in H as (child' & g6 & Hc' & H).
    apply tournament_selection_inv in H1, H2.
    rewrite Forall_forall in Hpop.
    assert (P child) as Hchild.
    { destruct (Qlt_bool r (Genetic.crossover_rate cfg)).
      - eapply crossover_keeps; [| |exact Hc]; auto.
      - injection Hc as <- <-. auto. }
    assert (P child') as Hchild'.
    { destruct (Qlt_bool r' (Genetic.mutation_rate cfg)).
      - by eapply mutate_keeps.
      - by injection Hc' as <- <-. }
    eapply IH; [|exact H]. apply Forall_app. split; [done|].
    by apply Forall_singleton.
Qed.

Lemma select_and_reproduce_keeps population fitness_scores rng result rng' :
  Forall P population →
  Genetic._select_and_reproduce cfg self population fitness_scores rng
  = Py.Ok (result, rng') →
  Forall P result.
Proof.
  intros Hpop. unfold Genetic._select_and_reproduce.
  intros (elite & g1 & He & H)%bind_Ok_inv.
  apply bind_Ok_inv in H as (res & g2 & Hres & [= <- <-]).
  assert (Forall P res) as HP.
  { eapply reproduce_keeps; [done| |exact Hres].
    apply Forall_forall. intros x Hx.
    rewrite Forall_forall in Hpop. apply Hpop.
    by eapply mapM_getitem_inv. }
  rewrite Forall_forall in HP. apply Forall_forall.
  intros x Hx. by apply HP, (slice_to_elem _ (Genetic.population_size cfg)).
Qed.

Lemma generation_keeps st rng st' rng' :
  Forall P (Genetic.population st) →
  (∀ best, Genetic.best_schedule st = Some best → P best) →
  Genetic.generation cfg self st rng = Py.Ok (st', rng') →
  Forall P (Genetic.population st')
  ∧ (∀ best, Genetic.best_schedule st' = Some best → P best).
Proof.
  intros Hpop Hbest. unfold Genetic.generation.
  destruct (Py.max_by id _) as [m|]; [|done].
  destruct (Py.index_of m _) as [i|]; [|done].
  intros (f & g1 & _ & H)%bind_Ok_inv.
  apply bind_Ok_inv in H as (b & g2 & Hb & H).
  apply getitem_inv in Hb as [Hb _].
  pose proof Hpop as Hpop'. rewrite Forall_forall in Hpop'.
  pose proof (Hpop' b Hb) as HPb.
  destruct (Py.float_gt f (Genetic.best_fitness st));
    apply bind_Ok_inv in H as (new & g3 & Hnew & [= <- <-]);
    apply select_and_reproduce_keeps in Hnew; try done; simpl.
  split; [done|]. by intros ? [= <-].
Qed.

Lemma generations_loop_keeps g population rng st rng' :
  Forall P population →
  Genetic.generations_loop cfg self g
    (Genetic.mk_state population None Py.neg_inf) rng = Py.Ok (st, rng') →
  Forall P (Genetic.population st)
  ∧ (∀ best, Genetic.best_schedule st = Some best → P best).
Proof.
  intros Hpop. revert st rng'.
  induction g as [|g IH]; intros st rng'; simpl.
  - by intros [= <- <-].
  - intros (st1 & g1 & H1 & H)%bind_Ok_inv.
    destruct (IH _ _ H1) as [Hp Hb].
    by eapply generation_keeps.
Qed.
End Population.

Section Individuals.
Variable self : BaseScheduler.t.

Lemma create_random_assignment_drawn course rng assignment rng' :
  Genetic._create_random_assignment self course rng
  = Py.Ok (Some assignment, rng') →
  drawn_for self course assignment.
Proof.
  unfold Genetic._create_random_assignment.
  destruct (_ || _ || _); [done|].
  intros (p & g1 & Hp & H)%bind_Ok_inv.
  apply bind_Ok_inv in H as (r & g2 & Hr & H).
  apply bind_Ok_inv in H as (t & g3 & Ht & [= <- <-]).
  apply random_choice_inv, list_elem_of_filter in Hp as [? ?].
  apply random_choice_inv, list_elem_of_filter in Hr as [? ?].
  apply random_choice_inv, list_elem_of_filter in Ht as [? ?].
  exists p, r, t. by split_and!.
Qed.

Lemma drawn_for_course_id course assignment :
  drawn_for self course assignment →
  Assignment.course_id assignment = Course.id course.
Proof. by intros (p & r & t & _ & _ & _ & _ & _ & _ & ->). Qed.

Lemma random_assignments_individual courses assignments rng r rng' :
  (∀ course, course ∈ courses → course ∈ BaseScheduler.courses self) →
  Forall (drawn self) assignments →
  Genetic.random_assignments self courses assignments rng = Py.Ok (r, rng') →
  Forall (drawn self) r
  ∧ Assignment.course_id <$> r
    = (Assignment.course_id <$> assignments)
      ++ (Course.id <$> filter (λ course, schedulable self course = true)
                               courses).
Proof.
  revert assignments rng.
  induction courses as [|c cs IH]; intros assignments rng Hsub Hacc; simpl.
  - intros [= <- <-]. by rewrite app_nil_r.
  - intros (a & g1 & Ha & H)%bind_Ok_inv.
    pose proof (create_random_assignment_inv _ _ _ _ _ Ha) as Hsched.
    assert (∀ course, course ∈ cs → course ∈ BaseScheduler.courses self)
      by (intros; apply Hsub; by right).
    rewrite filter_cons. destruct a as [a|].
    + rewrite decide_True by (apply Hsched; eauto).
      apply create_random_assignment_drawn in Ha.
      apply IH in H as [Hr Hids]; [|done|].
      * split; [done|]. rewrite Hids, fmap_app, fmap_cons. simpl.
        rewrite (drawn_for_course_id _ _ Ha). by rewrite <- app_assoc.
      * apply Forall_app. split; [done|]. apply Forall_singleton.
        exists c. split; [apply Hsub; left | done].
    + rewrite decide_False by (intros [? ?]%Hsched; done). by apply IH in H.
Qed.

Lemma initialize_population_individuals cfg rng population rng' :
  Genetic._initialize_population cfg self rng = Py.Ok (population, rng') →
  Forall (individual self) population.
Proof.
  unfold Genetic._initialize_population.
  generalize (Genetic.range (Genetic.population_size cfg)). intros l.
  revert rng population. induction l as [|i l IH]; intros rng population;
    simpl.
  - intros [= <- <-]. constructor.
  - intros (y & g1 & Hy & H)%bind_Ok_inv.
    apply bind_Ok_inv in H as (ys & g2 & Hys & [= <- <-]).
    constructor; [|by eapply IH].
    unfold Genetic._create_random_schedule in Hy.
    apply bind_Ok_inv in Hy as (r & g3 & Hr & [= <- <-]).
    by apply random_assignments_individual in Hr.
Qed.

Lemma crossover_individual parent1 parent2 rng child rng' :
  individual self parent1 → individual self parent2 →
  Genetic._crossover parent1 parent2 rng = Py.Ok (child, rng') →
  individual self child.
Proof.
  unfold individual, Genetic._crossover, Py.slice_from.
  intros [Hd1 Hi1] [Hd2 Hi2].
  intros (n & g1 & _ & [= <- <-])%bind_Ok_inv. simpl. split.
  - apply Forall_app. split; [by apply Forall_take | by apply Forall_drop].
  - rewrite fmap_app, fmap_take, fmap_drop, Hi1, Hi2.
    apply take_drop.
Qed.

Lemma mutate_individual schedule rng mutant rng' :
  individual self schedule →
  Genetic._mutate self schedule rng = Py.Ok (mutant, rng') →
  individual self mutant.
Proof.
  unfold individual, Genetic._mutate. intros [Hd Hi].
  case_bool_decide as Hne; [by intros [= <- <-]|].
  intros (i & g1 & _ & H)%bind_Ok_inv.
  apply bind_Ok_inv in H as (a & g2 & Ha & H).
  apply bind_Ok_inv in H as (l & g3 & Hl & H).
  apply bind_Ok_inv in H as (n & g4 & _ & [= <- <-]). simpl.
  apply getitem_inv in Ha as [_ Ha].
  destruct (Py.next_where _ _) as [course|] eqn:Hnext;
    [|by injection Hl as <- <-].
  apply next_where_Some in Hnext as [Hcourse Hid].
  apply bool_decide_eq_true in Hid.
  apply bind_Ok_inv in Hl as ([new|] & g5 & Hnew & [= <- <-]); [|done].
  apply create_random_assignment_drawn in Hnew. split.
  - apply Forall_insert; [done|]. by exists course.
  - rewrite list_fmap_insert, (drawn_for_course_id _ _ Hnew), Hid.
    rewrite list_insert_id; [done|]. by rewrite list_lookup_fmap, Ha.
Qed.
End Individuals.

Lemma drawn_preprocess self assignment :
  drawn (BaseScheduler.preprocess_data self) assignment →
  drawn self assignment.
Proof.
  intros (c & Hc & p & r & t & Hp & Hr & Ht & H).
  apply sorted_elem in Hc. apply sorted_elem in Hp.
  apply sorted_elem in Hr. apply sorted_elem in Ht.
  exists c. split; [done|]. exists p, r, t. by do 3 (split; [done|]).
Qed.

(** Every assignment of a schedule of the genetic solver was drawn for a
    course of the input: its professor is of the course's department, its
    room is suitable for the course and its time slot is active.  When at
    least one generation runs, the schedule has exactly one assignment per
    schedulable course, in the order of the sorted courses. *)
Theorem genetic_schedule_is_individual (cfg : Genetic.config)
    (self : BaseScheduler.t) (rng : Py.rng) (schedule : Schedule.t)
    (rng' : Py.rng) :
  Genetic.generate_schedule cfg self rng = Py.Ok (schedule, rng') →
  Forall (drawn self) (Schedule.assignments schedule)
  ∧ ((1 ≤ Genetic.generations cfg)%Z →
     Assignment.course_id <$> Schedule.assignments schedule
     = Course.id
       <$> filter (λ course,
                     schedulable (BaseScheduler.preprocess_data self) course
                     = true)
                  (BaseScheduler.courses (BaseScheduler.preprocess_data self))).
Proof.
  intros Hgen. pose proof Hgen as Hres.
  apply genetic_returns_best_or_empty in Hgen
    as (population & rng0 & st & Hinit & Hloop & Hbest).
  apply genetic_result in Hres as [Hzero Hpos].
  apply initialize_population_individuals in Hinit.
  apply (generations_loop_keeps cfg _
           (individual (BaseScheduler.preprocess_data self))) in Hloop
    as [_ Hind]; [| |apply mutate_individual|done].
  2: { intros ???????. by eapply crossover_individual. }
  assert (schedule = Genetic.empty_schedule
          ∨ individual (BaseScheduler.preprocess_data self) schedule)
    as [->|[Hdrawn Hids]].
  { destruct (Genetic.best_schedule st) as [best|]; [|by left].
    case_bool_decide; [by left|]. subst. right. by apply Hind. }
  - split; [constructor|]. intros Hg. simpl.
    destruct (individual_size (BaseScheduler.preprocess_data self)) eqn:En.
    + unfold individual_size in En.
      by destruct (filter _ _).
    + destruct Hpos as [Hlen _]; [lia | done | done].
  - split; [|done]. eapply Forall_impl; [exact Hdrawn|].
    apply drawn_preprocess.
Qed.

Lemma max_by_None {A} (key : A → Q) (l : list A) :
  Py.max_by key l = None → l = [].
Proof.
  destruct l as [|x l]; [done|]. simpl.
  destruct (Py.max_by key l); [by destruct (negb _) | done].
Qed.

Lemma max_by_maximal {A} (key : A → Q) (l : list A) m :
  Py.max_by key l = Some m → ∀ x, x ∈ l → (key x <= key m)%Q.
Proof.
  revert m. induction l as [|y l IH]; intros m; [done|]. simpl.
  destruct (Py.max_by key l) as [z|] eqn:E.
  - specialize (IH z eq_refl).
    destruct (Qle_bool (key z) (key y)) eqn:Hle; simpl; intros [= <-];
      intros x [->|Hx]%elem_of_cons.
    + apply Qle_refl.
    + apply Qle_bool_iff in Hle. eapply Qle_trans; [by apply IH | done].
    + destruct (Qlt_le_dec (key y) (key z)) as [?|Hge];
        [by apply Qlt_le_weak|].
      apply Qle_bool_iff in Hge. congruence.
    + by apply IH.
  - apply max_by_None in E as ->. intros [= <-] x ->%list_elem_of_singleton.
    apply Qle_refl.
Qed.

Lemma index_of_lookup (x : Q) (l : list Q) i :
  Py.index_of x l = Some i → ∃ y, l !! i = Some y ∧ (y == x)%Q.
Proof.
  revert i. induction l as [|y l IH]; intros i; [done|]. simpl.
  destruct (Qeq_bool y x) eqn:E.
  - intros [= <-]. exists y. split; [done | by apply Qeq_bool_iff].
  - destruct (Py.index_of x l) as [j|]; [|done]. intros [= <-].
    by apply IH.
Qed.

Lemma float_le_trans a b c :
  Py.float_le a b → Py.float_le b c → Py.float_le a c.
Proof.
  destruct a, b, c; simpl; try done. apply Qle_trans.
Qed.

Lemma generation_records_best cfg self st rng st' rng' :
  records_best self st →
  Genetic.generation cfg self st rng = Py.Ok (st', rng') →
  records_best self st'
  ∧ ∀ schedule, schedule ∈ Genetic.population st →
      Py.float_le (Py.fin (Genetic._calculate_fitness self schedule))
                  (Genetic.best_fitness st').
Proof.
  intros Hrec. unfold Genetic.generation.
  destruct (Py.max_by id _) as [m|] eqn:Hmax; [|done].
  destruct (Py.index_of m _) as [i|] eqn:Hidx; [|done].
  intros (f & g1 & Hf & H)%bind_Ok_inv.
  apply bind_Ok_inv in H as (b & g2 & Hb & H).
  apply getitem_inv in Hf as [_ Hf]. apply getitem_inv in Hb as [_ Hb].
  apply index_of_lookup in Hidx as (y & Hy & Hym).
  assert (y = f) as -> by congruence.
  assert (f = Genetic._calculate_fitness self b) as Hfb.
  { rewrite list_lookup_fmap, Hb in Hf. by injection Hf. }
  assert (∀ schedule, schedule ∈ Genetic.population st →
            (Genetic._calculate_fitness self schedule <= f)%Q) as Hall.
  { intros x Hx. rewrite Hym.
    apply (max_by_maximal id _ _ Hmax (Genetic._calculate_fitness self x)).
    by apply list_elem_of_fmap_2. }
  destruct (Py.float_gt f (Genetic.best_fitness st)) eqn:Hgt;
    apply bind_Ok_inv in H as (new & g3 & _ & [= <- <-]);
    unfold records_best; simpl.
  - split; [by rewrite Hfb | done].
  - split; [done|]. intros x Hx.
    destruct (Genetic.best_fitness st) as [|q]; [done|]. simpl in *.
    apply negb_false_iff, Qle_bool_iff in Hgt.
    eapply Qle_trans; [by apply Hall | done].
Qed.

Lemma generations_loop_records_best cfg self g population rng st rng' :
  Genetic.generations_loop cfg self g
    (Genetic.mk_state population None Py.neg_inf) rng = Py.Ok (st, rng') →
  records_best self st.
Proof.
  revert st rng'. induction g as [|g IH]; intros st rng'; simpl.
  - by intros [= <- <-].
  - intros (st1 & g1 & H1 & H)%bind_Ok_inv.
    by eapply generation_records_best; [eapply IH|].
Qed.

Lemma generations_loop_fittest cfg self population rng g st rng1 j stj rngj :
  Genetic.generations_loop cfg self g
    (Genetic.mk_state population None Py.neg_inf) rng = Py.Ok (st, rng1) →
  Genetic.generations_loop cfg self j
    (Genetic.mk_state population None Py.neg_inf) rng = Py.Ok (stj, rngj) →
  j < g →
  ∀ schedule, schedule ∈ Genetic.population stj →
    Py.float_le (Py.fin (Genetic._calculate_fitness self schedule))
                (Genetic.best_fitness st).
Proof.
  revert st rng1. induction g as [|g IH]; intros st rng1 Hg Hj Hlt x Hx;
    [lia|].
  simpl in Hg. apply bind_Ok_inv in Hg as (st1 & g1 & H1 & H).
  destruct (decide (j = g)) as [->|Hne].
  - rewrite H1 in Hj. injection Hj as <- <-.
    eapply generation_records_best; [|done|done].
    by eapply generations_loop_records_best.
  - eapply float_le_trans; [|by eapply generation_best_fitness].
    eapply IH; [done|done|lia|done].
Qed.

(** When some course can be scheduled, the schedule that the genetic solver
    returns is at least as fit as every individual of every generation it
    has evaluated. *)
Theorem genetic_returns_fittest_evaluated (cfg : Genetic.config)
    (self : BaseScheduler.t) (rng : Py.rng) (schedule : Schedule.t)
    (rng' : Py.rng) :
  Genetic.generate_schedule cfg self rng = Py.Ok (schedule, rng') →
  0 < individual_size (BaseScheduler.preprocess_data self) →
  ∃ population rng0,
    Genetic._initialize_population cfg (BaseScheduler.preprocess_data self)
      rng = Py.Ok (population, rng0)
    ∧ ∀ (g : nat) (st : Genetic.loop_state) (rng1 : Py.rng)
        (evaluated : Schedule.t),
        g < Z.to_nat (Genetic.generations cfg) →
        Genetic.generations_loop cfg (BaseScheduler.preprocess_data self) g
          (Genetic.mk_state population None Py.neg_inf) rng0
        = Py.Ok (st, rng1) →
        evaluated ∈ Genetic.population st →
        (Genetic._calculate_fitness (BaseScheduler.preprocess_data self) evaluated
         <= Genetic._calculate_fitness (BaseScheduler.preprocess_data self)
              schedule)%Q.
Proof.
  intros Hgen Hn. pose proof Hgen as Hres.
  apply genetic_returns_best_or_empty in Hgen
    as (population & rng0 & st & Hinit & Hloop & _).
  exists population, rng0. split; [done|].
  intros g stg rng1 x Hg Hstg Hx.
  apply genetic_result in Hres as [_ Hpos].
  destruct Hpos as (_ & population' & rng0' & st' & rng1' & Hinit' & Hloop'
                    & Hbest); [done | lia |].
  rewrite Hinit in Hinit'. injection Hinit' as <- <-.
  rewrite Hloop in Hloop'. injection Hloop' as <- <-.
  pose proof (generations_loop_records_best _ _ _ _ _ _ _ Hloop) as Hrec.
  pose proof (generations_loop_fittest _ _ _ _ _ _ _ _ _ _ Hloop Hstg Hg x Hx)
    as Hle.
  unfold records_best in Hrec. rewrite Hbest in Hrec.
  destruct (Genetic.best_fitness st) as [|q]; [done|]. simpl in Hle.
  by rewrite <- Hrec.
Qed.

(** ** Conflicts, quality and fitness *)

Lemma NoDup_slot_group {B} (f : Assignment.t → B) (l : list Assignment.t) t :
  NoDup ((λ a, (f a, Assignment.time_slot_id a)) <$> l) →
  NoDup (f <$> filter (λ a, Assignment.time_slot_id a = t) l).
Proof.
  induction l as [|a l IH]; [constructor|].
  rewrite fmap_cons, NoDup_cons. intros [Hnot ND]. rewrite filter_cons.
  case_decide as Ht; [|by apply IH].
  rewrite fmap_cons. apply NoDup_cons. split; [|by apply IH].
  intros (b & Hfb & [Htb Hb]%list_elem_of_filter)%list_elem_of_fmap.
  apply Hnot, list_elem_of_fmap. exists b. split; [|done]. congruence.
Qed.

Lemma sumZ_zero l : Forall (λ z, z = 0%Z) l → sumZ l = 0%Z.
Proof. induction 1 as [|z l -> _ IH]; simpl; [done|]. by rewrite IH. Qed.

Lemma no_conflicts_count_zero s :
  Schedule.has_conflicts s = false → Schedule.get_conflict_count s = 0%Z.
Proof.
  intros [ND1 ND2]%has_conflicts_false.
  rewrite get_conflict_count_groups. apply sumZ_zero, Forall_fmap.
  apply Forall_forall. intros t _. unfold group_conflicts, slot_group. simpl.
  rewrite !duplicates_NoDup; [done | by apply NoDup_slot_group..].
Qed.

(** The two conflict checks of a schedule agree: [get_conflict_count] is 0
    exactly when [has_conflicts] is false, and it is never negative. *)
Theorem conflict_count_zero_iff_no_conflicts (s : Schedule.t) :
  (Schedule.get_conflict_count s = 0%Z ↔ Schedule.has_conflicts s = false)
  ∧ (0 ≤ Schedule.get_conflict_count s)%Z.
Proof.
  split.
  - split; [|apply no_conflicts_count_zero].
    intros Hzero. destruct (Schedule.has_conflicts s) eqn:E; [|done].
    apply has_conflicts_true, colliding_pair_counted in E. lia.
  - rewrite get_conflict_count_groups. apply sumZ_nonneg, Forall_fmap.
    apply Forall_forall. intros ??. apply group_conflicts_nonneg.
Qed.










(** ** Sorting *)

Lemma sorted_insert_Permutation {A} (lt : A → A → bool) x l :
  Py.sorted_insert lt x l ≡ₚ x :: l.
Proof.
  induction l as [|y l IH]; simpl; [done|].
  destruct (lt y x); [|done]. rewrite IH. apply Permutation_swap.
Qed.

Lemma sorted_Permutation {A} (lt : A → A → bool) l : Py.sorted lt l ≡ₚ l.
Proof.
  induction l as [|x l IH]; simpl; [done|].
  by rewrite sorted_insert_Permutation, IH.
Qed.

Section Sorted.
Context {A : Type} (lt : A → A → bool).
Hypothesis asym : ∀ a b, lt a b = true → lt b a = false.
Hypothesis negtrans :
  ∀ a b c, lt a b = false → lt b c = false → lt a c = false.

Lemma sorted_insert_ascending x l :
  ascending lt l → ascending lt (Py.sorted_insert lt x l).
Proof.
  unfold ascending.
  induction 1 as [|y l Hl IH Hy]; simpl.
  - repeat constructor.
  - destruct (lt y x) eqn:E.
    + constructor; [done|]. apply Forall_forall.
      intros z [->|Hz]%sorted_insert_elem; [by apply asym|].
      rewrite Forall_forall in Hy. by apply Hy.
    + constructor; [by constructor|]. constructor; [done|].
      apply Forall_forall. intros z Hz. rewrite Forall_forall in Hy.
      eapply negtrans; [by apply Hy | done].
Qed.

Lemma sorted_ascending l : ascending lt (Py.sorted lt l).
Proof.
  induction l as [|x l IH]; simpl; [constructor|].
  by apply sorted_insert_ascending.
Qed.

Lemma sorted_insert_ties x l :
  ascending lt l →
  ∀ z, filter (λ y, lt z y = false ∧ lt y z = false)
              (Py.sorted_insert lt x l)
       = filter (λ y, lt z y = false ∧ lt y z = false) (x :: l).
Proof.
  unfold ascending. intros Hl z.
  induction Hl as [|y l Hl IH Hy]; simpl; [done|].
  destruct (lt y x) eqn:E; [|done].
  rewrite (filter_cons _ y), IH, !filter_cons.
  destruct (decide (lt z x = false ∧ lt x z = false)) as [[Hzx Hxz]|];
    [|done].
  destruct (decide (lt z y = false ∧ lt y z = false)) as [[Hzy Hyz]|];
    [|done].
  rewrite (negtrans _ _ _ Hyz Hzx) in E. done.
Qed.

Lemma sorted_ties l : ties_in_order lt l (Py.sorted lt l).
Proof.
  unfold ties_in_order. induction l as [|x l IH]; intros z; simpl; [done|].
  rewrite sorted_insert_ties by apply sorted_ascending.
  by rewrite !filter_cons, IH.
Qed.
End Sorted.

Lemma StronglySorted_weaken {A} (R R' : A → A → Prop) (l : list A) :
  (∀ a b, R a b → R' a b) → StronglySorted R l → StronglySorted R' l.
Proof.
  intros HR. induction 1 as [|x l _ IH Hx]; constructor; [done|].
  eapply Forall_impl; [exact Hx | apply HR].
Qed.

Section KeyOrder.
Context {A K : Type} (key : A → K) (ltK : K → K → bool) `{!StrictTotal ltK}.

Lemma key_order_asym a b :
  ltK (key a) (key b) = true → ltK (key b) (key a) = false.
Proof.
  intros Hab. destruct (ltK (key b) (key a)) eqn:Hba; [|done].
  by rewrite <- (strict_irrefl (key a)), (strict_trans _ _ _ Hab Hba).
Qed.

Lemma key_order_negtrans a b c :
  ltK (key a) (key b) = false → ltK (key b) (key c) = false →
  ltK (key a) (key c) = false.
Proof.
  intros Hab Hbc. destruct (ltK (key a) (key c)) eqn:Hac; [|done].
  destruct (ltK (key b) (key a)) eqn:Hba.
  - by rewrite (strict_trans _ _ _ Hba Hac) in Hbc.
  - rewrite <- (strict_total _ _ Hab Hba) in Hbc. congruence.
Qed.
End KeyOrder.

Global Instance Z_lt_strict : StrictTotal Z_lt.
Proof.
  unfold Z_lt. split; intros *; repeat case_bool_decide; try done; lia.
Qed.

Lemma str_lt_compare a b : str_lt a b = true ↔ String.compare a b = Lt.
Proof.
  unfold str_lt, String.ltb. by destruct (String.compare a b).
Qed.

Global Instance str_lt_strict : StrictTotal str_lt.
Proof.
  split.
  - intros a. apply not_true_iff_false. rewrite str_lt_compare.
    change String.compare with OrderedTypeEx.String_as_OT.cmp.
    by rewrite (proj2 (OrderedTypeEx.String_as_OT.cmp_eq a a) eq_refl).
  - intros a b c. rewrite !str_lt_compare.
    change String.compare with OrderedTypeEx.String_as_OT.cmp.
    rewrite !OrderedTypeEx.String_as_OT.cmp_lt.
    apply OrderedTypeEx.String_as_OT.lt_trans.
  - intros a b Hab%not_true_iff_false Hba%not_true_iff_false.
    rewrite str_lt_compare in Hab, Hba.
    apply String.compare_eq_iff.
    rewrite String.compare_antisym in Hba.
    by destruct (String.compare a b).
Qed.

Global Instance lex_strict {K1 K2 : Type} `{EqDecision K1}
    (lt1 : K1 → K1 → bool) (lt2 : K2 → K2 → bool)
    `{!StrictTotal lt1, !StrictTotal lt2} :
  StrictTotal (lex lt1 lt2).
Proof.
  unfold lex. split.
  - intros [a1 a2]. simpl.
    by rewrite !strict_irrefl, andb_false_r.
  - intros [a1 a2] [b1 b2] [c1 c2]. simpl.
    intros [Hab|[->%bool_decide_eq_true Hab]%andb_true_iff]%orb_true_iff
           [Hbc|[->%bool_decide_eq_true Hbc]%andb_true_iff]%orb_true_iff.
    + by rewrite (strict_trans _ _ _ Hab Hbc).
    + by rewrite Hab.
    + by rewrite Hbc.
    + rewrite (strict_trans _ _ _ Hab Hbc), bool_decide_eq_true_2 by done.
      apply orb_true_r.
  - intros [a1 a2] [b1 b2]. simpl.
    intros [Hab Hab']%orb_false_iff [Hba Hba']%orb_false_iff.
    pose proof (strict_total _ _ Hab Hba) as ->.
    rewrite bool_decide_eq_true_2 in Hab', Hba' by done.
    by rewrite (strict_total a2 b2).
Qed.

Lemma course_key_lt_lex a b :
  BaseScheduler.course_key_lt a b
  = lex Z_lt (lex Z_lt str_lt) (course_key a) (course_key b).
Proof. reflexivity. Qed.

Lemma professor_key_lt_lex a b :
  BaseScheduler.professor_key_lt a b
  = lex str_lt str_lt (professor_key a) (professor_key b).
Proof. reflexivity. Qed.

Lemma room_key_lt_lex a b :
  BaseScheduler.room_key_lt a b
  = lex str_lt Z_lt (room_key a) (room_key b).
Proof. reflexivity. Qed.

Lemma time_slot_key_lt_lex a b :
  BaseScheduler.time_slot_key_lt a b
  = lex str_lt (lex Z_lt (lex Z_lt (lex Z_lt Z_lt)))
        (time_slot_key a) (time_slot_key b).
Proof. reflexivity. Qed.

Lemma sorted_by_key {A K : Type} (lt : A → A → bool) (key : A → K)
    (ltK : K → K → bool) `{!StrictTotal ltK} (l : list A) :
  (∀ a b, lt a b = ltK (key a) (key b)) →
  Py.sorted lt l ≡ₚ l
  ∧ ascending lt (Py.sorted lt l)
  ∧ ties_in_order lt l (Py.sorted lt l).
Proof.
  intros Hkey.
  assert (∀ a b, lt a b = true → lt b a = false) as Hasym.
  { intros a b. rewrite !Hkey. apply (key_order_asym key ltK). }
  assert (∀ a b c, lt a b = false → lt b c = false → lt a c = false)
    as Hneg.
  { intros a b c. rewrite !Hkey. apply (key_order_negtrans key ltK). }
  split; [apply sorted_Permutation|].
  split; [by apply sorted_ascending | by apply sorted_ties].
Qed.

(** [preprocess_data] sorts each of the four lists by its key: the result
    has the same elements, no element is smaller than one before it, and
    elements with equal keys keep their order.  Courses are ordered by
    (semester, -credits, code), professors by (department, name), rooms by
    (room type, -capacity), time slots by (day, start time). *)
Theorem preprocess_data_sorts (self : BaseScheduler.t) :
  let sorted := BaseScheduler.preprocess_data self in
  (BaseScheduler.courses sorted ≡ₚ BaseScheduler.courses self
   ∧ ascending BaseScheduler.course_key_lt (BaseScheduler.courses sorted)
   ∧ ties_in_order BaseScheduler.course_key_lt
       (BaseScheduler.courses self) (BaseScheduler.courses sorted))
  ∧ (BaseScheduler.professors sorted ≡ₚ BaseScheduler.professors self
     ∧ ascending BaseScheduler.professor_key_lt
         (BaseScheduler.professors sorted)
     ∧ ties_in_order BaseScheduler.professor_key_lt
         (BaseScheduler.professors self) (BaseScheduler.professors sorted))
  ∧ (BaseScheduler.rooms sorted ≡ₚ BaseScheduler.rooms self
     ∧ ascending BaseScheduler.room_key_lt (BaseScheduler.rooms sorted)
     ∧ ties_in_order BaseScheduler.room_key_lt
         (BaseScheduler.rooms self) (BaseScheduler.rooms sorted))
  ∧ (BaseScheduler.time_slots sorted ≡ₚ BaseScheduler.time_slots self
     ∧ ascending BaseScheduler.time_slot_key_lt
         (BaseScheduler.time_slots sorted)
     ∧ ties_in_order BaseScheduler.time_slot_key_lt
         (BaseScheduler.time_slots self) (BaseScheduler.time_slots sorted)).
Proof.
  simpl. split_and!.
  - eapply sorted_by_key; [|apply course_key_lt_lex]. apply _.
  - eapply sorted_by_key; [|apply course_key_lt_lex]. apply _.
  - eapply sorted_by_key; [|apply course_key_lt_lex]. apply _.
  - eapply sorted_by_key; [|apply professor_key_lt_lex]. apply _.
  - eapply sorted_by_key; [|apply professor_key_lt_lex]. apply _.
  - eapply sorted_by_key; [|apply professor_key_lt_lex]. apply _.
  - eapply sorted_by_key; [|apply room_key_lt_lex]. apply _.
  - eapply sorted_by_key; [|apply room_key_lt_lex]. apply _.
  - eapply sorted_by_key; [|apply room_key_lt_lex]. apply _.
  - eapply sorted_by_key; [|apply time_slot_key_lt_lex]. apply _.
  - eapply sorted_by_key; [|apply time_slot_key_lt_lex]. apply _.
  - eapply sorted_by_key; [|apply time_slot_key_lt_lex]. apply _.
Qed.

(** With the [lcv] value ordering, [_order_domain_values] returns the
    values of the course's domain ordered by the number of values of other
    courses' domains that they conflict with, fewest first, values with the
    same number in the iteration order of the domain; with any other
    setting it returns them in the iteration order. *)
Theorem order_domain_values_least_constraining
    (set_order : gset triple → list triple) (cfg : CSP.config)
    (course_id : string) (domains : list (string * gset triple)) :
  let values := set_order (CSP.domain_of domains course_id) in
  let ordered := CSP._order_domain_values set_order cfg course_id domains in
  let conflicts value := CSP._count_conflicts course_id value domains in
  ordered ≡ₚ values
  ∧ (CSP.value_ordering cfg = "lcv" →
     StronglySorted (λ a b, conflicts a ≤ conflicts b) ordered
     ∧ ∀ n, filter (λ value, conflicts value = n) ordered
            = filter (λ value, conflicts value = n) values)
  ∧ (CSP.value_ordering cfg ≠ "lcv" → ordered = values).
Proof.
  intros values ordered conflicts. subst ordered.
  unfold CSP._order_domain_values. fold values.
  set (lt := λ a b : triple,
         bool_decide (CSP._count_conflicts course_id a domains
                      < CSP._count_conflicts course_id b domains)).
  assert (∀ a b, lt a b = true → lt b a = false) as Hasym.
  { intros a b. unfold lt. repeat case_bool_decide; try done; lia. }
  assert (∀ a b c, lt a b = false → lt b c = false → lt a c = false)
    as Hneg.
  { intros a b c. unfold lt. repeat case_bool_decide; try done; lia. }
  case_bool_decide as Hlcv.
  - split; [apply sorted_Permutation|]. split; [|done]. intros _. split.
    + pose proof (sorted_ascending lt Hasym Hneg values) as Hs.
      unfold ascending in Hs.
      eapply StronglySorted_weaken; [|exact Hs].
      intros a b. unfold lt, conflicts. simpl. case_bool_decide; [done | lia].
    + intros n.
      destruct (decide (Exists (λ x, conflicts x = n) values))
        as [(x & Hx & Hn)%Exists_exists|Hno].
      * pose proof (sorted_ties lt Hasym Hneg values x) as Ht.
        etrans; [|etrans; [exact Ht|]]; apply list_filter_iff;
          intros y; unfold lt, conflicts in *;
          repeat case_bool_decide; split; try done; intros; lia.
      * rewrite Exists_exists in Hno.
        rewrite !filter_none; [done|..].
        -- intros y Hy ?. apply Hno. eauto.
        -- intros y Hy%sorted_elem ?. apply Hno. eauto.
  - split; [done|]. split; [done|]. done.
Qed.

(** ** Professors (models/professor.py) *)

Lemma set_preference_unavailable_slots professor time_slot_id availability :
  Professor.unavailable_slots
    (Professor.set_preference professor time_slot_id availability)
  = if decide (availability = UNAVAILABLE)
    then {[time_slot_id]} ∪ Professor.unavailable_slots professor
    else Professor.unavailable_slots professor ∖ {[time_slot_id]}.
Proof. by destruct availability. Qed.

Lemma set_preference_preferred professor time_slot_id availability :
  Professor.preferred_time_slots
    (Professor.set_preference professor time_slot_id availability)
  = if decide (availability = UNAVAILABLE)
    then delete time_slot_id (Professor.preferred_time_slots professor)
    else <[time_slot_id := availability]>
           (Professor.preferred_time_slots professor).
Proof. by destruct availability. Qed.

(** After [set_preference] the professor answers for that slot as the
    given availability says: available for AVAILABLE and PREFERRED only,
    with score 1.0 for PREFERRED, 0.5 for AVAILABLE and 0.0 otherwise; the
    slot is in [unavailable_slots] exactly for UNAVAILABLE and a key of
    [preferred_time_slots] exactly otherwise; every other slot answers as
    before. *)
Theorem set_preference_then_query (professor : Professor.t)
    (time_slot_id : string) (availability : Availability) (other : string) :
  let updated :=
    Professor.set_preference professor time_slot_id availability in
  Professor.is_available_at updated time_slot_id
  = bool_decide (availability ∈ [AVAILABLE; PREFERRED])
  ∧ Professor.get_preference_score updated time_slot_id
    = match availability with
      | PREFERRED => 1.0%Q
      | AVAILABLE => 0.5%Q
      | _ => 0.0%Q
      end
  ∧ (time_slot_id ∈ Professor.unavailable_slots updated
     ↔ availability = UNAVAILABLE)
  ∧ (is_Some (Professor.preferred_time_slots updated !! time_slot_id)
     ↔ availability ≠ UNAVAILABLE)
  ∧ (other ≠ time_slot_id →
     Professor.is_available_at updated other
     = Professor.is_available_at professor other
     ∧ Professor.get_preference_score updated other
       = Professor.get_preference_score professor other).
Proof.
  intros updated. subst updated.
  unfold Professor.is_available_at, Professor.get_preference_score.
  rewrite set_preference_unavailable_slots, set_preference_preferred.
  destruct (decide (availability = UNAVAILABLE)) as [->|Hne].
  - rewrite !(bool_decide_eq_true_2 (time_slot_id ∈ _)) by set_solver.
    rewrite lookup_delete_eq.
    split_and!; try done.
    + split; [done | set_solver].
    + intros Hother.
      rewrite lookup_delete_ne by done.
      assert (other ∈ ({[time_slot_id]} ∪ Professor.unavailable_slots professor
                       : gset string)
              ↔ other ∈ Professor.unavailable_slots professor) as Hiff
        by set_solver.
      by rewrite !(bool_decide_ext _ _ Hiff).
  - rewrite !(bool_decide_eq_false_2 (time_slot_id ∈ _)) by set_solver.
    rewrite lookup_insert_eq. cbn [default].
    split_and!.
    + done.
    + by destruct availability.
    + split; [set_solver | done].
    + split; [done | eauto].
    + intros Hother.
      rewrite lookup_insert_ne by done.
      assert (other ∈ (Professor.unavailable_slots professor
                       ∖ {[time_slot_id]} : gset string)
              ↔ other ∈ Professor.unavailable_slots professor) as Hiff
        by set_solver.
      by rewrite !(bool_decide_ext _ _ Hiff).
Qed.

(** A professor is available at a slot exactly when the preference score
    for the slot is positive. *)
Theorem available_iff_positive_preference (professor : Professor.t)
    (time_slot_id : string) :
  Professor.is_available_at professor time_slot_id = true
  ↔ (0 < Professor.get_preference_score professor time_slot_id)%Q.
Proof.
  unfold Professor.is_available_at, Professor.get_preference_score.
  case_bool_decide; [done|]. cbv zeta.
  destruct (default AVAILABLE _); done.
Qed.

(** ** Rooms (models/room.py) *)

(** A room is not available at a slot that was added as maintenance slot;
    at a slot that was removed it is available whenever the room is; other
    slots are not affected, and removing a slot that was added to a room
    that did not have it gives the room back. *)
Theorem maintenance_slot_round_trip (room : Room.t) (time_slot_id : string)
    (other : string) :
  Room.is_available_at (Room.add_maintenance_slot room time_slot_id)
    time_slot_id = false
  ∧ Room.is_available_at (Room.remove_maintenance_slot room time_slot_id)
      time_slot_id = Room.is_available room
  ∧ (other ≠ time_slot_id →
     Room.is_available_at (Room.add_maintenance_slot room time_slot_id) other
     = Room.is_available_at room other
     ∧ Room.is_available_at (Room.remove_maintenance_slot room time_slot_id)
         other
       = Room.is_available_at room other)
  ∧ (time_slot_id ∉ Room.maintenance_slots room →
     Room.remove_maintenance_slot
       (Room.add_maintenance_slot room time_slot_id) time_slot_id = room).
Proof.
  unfold Room.is_available_at, Room.add_maintenance_slot,
    Room.remove_maintenance_slot. cbn -[bool_decide].
  split_and!.
  - rewrite bool_decide_eq_true_2 by set_solver. apply andb_false_r.
  - rewrite bool_decide_eq_false_2 by set_solver. apply andb_true_r.
  - intros Hother. split; do 2 f_equal; apply bool_decide_ext; set_solver.
  - intros Hnot. destruct room as [i c rt fs av ms]. cbn in *. f_equal.
    apply leibniz_equiv. set_solver.
Qed.

(** The suitability score is 0.0 for a room that is not suitable for the
    course and lies between 0.5 and 1.0 for a room that is. *)
Theorem suitability_score_range (room : Room.t) (course_type : string)
    (capacity_needed : Z) (required_equipment : list string) :
  let score :=
    Room.get_suitability_score room course_type capacity_needed
      required_equipment in
  (Room.is_suitable_for_course room course_type capacity_needed
     required_equipment = false → score = 0.0%Q)
  ∧ (Room.is_suitable_for_course room course_type capacity_needed
       required_equipment = true → (0.5 <= score ∧ score <= 1.0)%Q).
Proof.
  intros score. subst score. unfold Room.get_suitability_score.
  split; intros ->; [done|]. cbn [negb]. cbv zeta. split.
  - apply Q.min_glb; [|done].
    repeat match goal with
           | |- context [if ?b then _ else _] => destruct b
           end; done.
  - apply Q.le_min_r.
Qed.


(** ** Time slots (models/time_slot.py) *)

Lemma time_lt_irrefl a : time_lt a a = false.
Proof. unfold time_lt. repeat case_bool_decide; try done; lia. Qed.

(** Overlap and adjacency of time slots are symmetric, and two adjacent
    slots never overlap; a slot that ends after it starts overlaps itself
    and is not adjacent to itself. *)
Theorem overlap_and_adjacency (a b : TimeSlot.t) :
  TimeSlot.overlaps_with a b = TimeSlot.overlaps_with b a
  ∧ TimeSlot.is_adjacent_to a b = TimeSlot.is_adjacent_to b a
  ∧ (TimeSlot.is_adjacent_to a b = true → TimeSlot.overlaps_with a b = false)
  ∧ (time_lt (TimeSlot.start_time a) (TimeSlot.end_time a) = true →
     TimeSlot.overlaps_with a a = true
     ∧ TimeSlot.is_adjacent_to a a = false).
Proof.
  unfold TimeSlot.overlaps_with, TimeSlot.is_adjacent_to.
  assert (bool_decide (TimeSlot.day b = TimeSlot.day a)
          = bool_decide (TimeSlot.day a = TimeSlot.day b)) as Hsym
    by (apply bool_decide_ext; split; congruence).
  split_and!.
  - rewrite Hsym. destruct (negb _); [done|]. apply andb_comm.
  - rewrite Hsym. destruct (negb _); [done|].
    rewrite orb_comm. f_equal; apply bool_decide_ext; split; congruence.
  - destruct (negb _); [done|].
    intros [->%bool_decide_eq_true| <-%bool_decide_eq_true]%orb_true_iff.
    + by rewrite time_lt_irrefl, andb_false_r.
    + by rewrite time_lt_irrefl.
  - intros Hlt. rewrite !bool_decide_eq_true_2 by done. cbn [negb].
    rewrite Hlt. split; [done|].
    apply orb_false_iff.
    split; apply bool_decide_eq_false_2; intros Heq;
      rewrite Heq, time_lt_irrefl in Hlt; done.
Qed.

(** A time slot that is created without a duration gets the whole minutes
    between its start and its end.  When the end is not after the start, the
    end is taken on the next day (so equal times give 24 hours), except on
    the last day of a month, where the construction raises [ValueError].  A
    given duration is kept as it is. *)
Theorem time_slot_derived_duration (today_is_last_of_month : bool)
    (id : string) (day : DayOfWeek) (start_time end_time : time)
    (slot_type : SlotType) (is_active : bool) :
  valid_time start_time → valid_time end_time →
  let start_us := time_microseconds start_time in
  let end_us := time_microseconds end_time in
  let created :=
    TimeSlot.new today_is_last_of_month id day start_time end_time slot_type
      None is_active in
  ((start_us < end_us)%Z →
   ∃ slot, created = Py.Ok slot
     ∧ TimeSlot.duration_minutes slot
       = ((end_us - start_us) `div` 60000000)%Z
     ∧ (0 ≤ TimeSlot.duration_minutes slot < 1440)%Z)
  ∧ ((end_us ≤ start_us)%Z → today_is_last_of_month = false →
     ∃ slot, created = Py.Ok slot
       ∧ TimeSlot.duration_minutes slot
         = ((end_us + 86400000000 - start_us) `div` 60000000)%Z
       ∧ (0 ≤ TimeSlot.duration_minutes slot ≤ 1440)%Z)
  ∧ ((end_us ≤ start_us)%Z → today_is_last_of_month = true →
     created = Py.Raise Py.ValueError)
  ∧ ∀ minutes,
      TimeSlot.new today_is_last_of_month id day start_time end_time
        slot_type (Some minutes) is_active
      = Py.Ok (TimeSlot.mk id day start_time end_time slot_type minutes
                 is_active).
Proof.
  intros Hstart Hend start_us end_us created. subst created.
  unfold TimeSlot.new, TimeSlot.derived_duration.
  fold start_us end_us.
  assert (0 ≤ start_us < 86400000000)%Z
    by (unfold start_us, time_microseconds, valid_time in *; lia).
  assert (0 ≤ end_us < 86400000000)%Z
    by (unfold end_us, time_microseconds, valid_time in *; lia).
  assert (∀ d, (0 ≤ d)%Z →
            Py.int_of_float (Qmake d 1000000 / 60) = (d `div` 60000000)%Z)
    as Hint.
  { intros d Hd. unfold Py.int_of_float, Qdiv, Qmult, Qinv. cbn.
    rewrite Z.mul_1_r. by rewrite Z.quot_div_nonneg by lia. }
  split_and!.
  - intros Hlt. rewrite bool_decide_eq_false_2 by lia.
    eexists. split; [done|]. cbn [TimeSlot.duration_minutes].
    rewrite Hint by lia. split; [done|].
    split; [apply Z.div_pos; lia | apply Z.div_lt_upper_bound; lia].
  - intros Hle ->. rewrite bool_decide_eq_true_2 by lia.
    eexists. split; [done|]. cbn [TimeSlot.duration_minutes].
    rewrite Hint by lia. split; [done|].
    split; [apply Z.div_pos; lia|].
    apply Z.lt_succ_r, Z.div_lt_upper_bound; lia.
  - intros Hle ->. by rewrite bool_decide_eq_true_2 by lia.
  - done.
Qed.

(** ** Editing and querying a schedule (models/schedule.py) *)

Lemma pop_first_spec assignment_id l :
  match Py.next_where
          (λ a, bool_decide (Assignment.id a = assignment_id)) l with
  | Some found =>
      ∃ before after,
        l = before ++ found :: after
        ∧ Assignment.id found = assignment_id
        ∧ Forall (λ a, Assignment.id a ≠ assignment_id) before
        ∧ Schedule.pop_first assignment_id l = Some (before ++ after)
  | None =>
      Forall (λ a, Assignment.id a ≠ assignment_id) l
      ∧ Schedule.pop_first assignment_id l = None
  end.
Proof.
  induction l as [|x l IH]; simpl; [by split|].
  case_bool_decide as Hx.
  - exists [], l. by split_and!.
  - destruct (Py.next_where _ l) as [found|].
    + destruct IH as (before & after & -> & Hid & Hbefore & ->).
      exists (x :: before), after. split_and!; try done.
      by constructor.
    + destruct IH as [Hall ->]. split; [by constructor | done].
Qed.

Lemma remove_assignment_spec (schedule : Schedule.t)
    (assignment_id : string) :
  match Schedule.get_assignment_by_id schedule assignment_id with
  | Some found =>
      ∃ before after,
        Schedule.assignments schedule = before ++ found :: after
        ∧ Assignment.id found = assignment_id
        ∧ Forall (λ a, Assignment.id a ≠ assignment_id) before
        ∧ Schedule.remove_assignment schedule assignment_id
          = (true,
             Schedule.mk (Schedule.id schedule) (Schedule.name schedule)
               (before ++ after) (Schedule.algorithm_used schedule))
  | None =>
      Forall (λ a, Assignment.id a ≠ assignment_id)
             (Schedule.assignments schedule)
      ∧ Schedule.remove_assignment schedule assignment_id = (false, schedule)
  end.
Proof.
  unfold Schedule.get_assignment_by_id, Schedule.remove_assignment.
  pose proof (pop_first_spec assignment_id (Schedule.assignments schedule))
    as H.
  destruct (Py.next_where _ _) as [found|].
  - destruct H as (before & after & Hl & Hid & Hbefore & ->).
    by exists before, after.
  - by destruct H as [Hall ->].
Qed.

(** [remove_assignment] removes the first assignment that has the id, the
    one [get_assignment_by_id] returns, and keeps the others in their order;
    when no assignment has the id it returns False and leaves the schedule
    as it is. *)
Theorem remove_assignment_removes_first (schedule : Schedule.t)
    (assignment_id : string) :
  match Schedule.get_assignment_by_id schedule assignment_id with
  | Some found =>
      ∃ before after,
        Schedule.assignments schedule = before ++ found :: after
        ∧ Assignment.id found = assignment_id
        ∧ Forall (λ a, Assignment.id a ≠ assignment_id) before
        ∧ Schedule.remove_assignment schedule assignment_id
          = (true,
             Schedule.mk (Schedule.id schedule) (Schedule.name schedule)
               (before ++ after) (Schedule.algorithm_used schedule))
  | None =>
      Forall (λ a, Assignment.id a ≠ assignment_id)
             (Schedule.assignments schedule)
      ∧ Schedule.remove_assignment schedule assignment_id = (false, schedule)
  end.
Proof. apply remove_assignment_spec. Qed.

(** An assignment that is added under an id that the schedule does not
    have yet is the one [get_assignment_by_id] returns for the id, and
    removing it by the id gives the schedule back. *)
Theorem add_then_remove_assignment (schedule : Schedule.t)
    (assignment : Assignment.t) :
  Forall (λ a, Assignment.id a ≠ Assignment.id assignment)
         (Schedule.assignments schedule) →
  Schedule.get_assignment_by_id
    (Schedule.add_assignment schedule assignment) (Assignment.id assignment)
  = Some assignment
  ∧ Schedule.remove_assignment
      (Schedule.add_assignment schedule assignment) (Assignment.id assignment)
    = (true, schedule).
Proof.
  intros Hfresh.
  unfold Schedule.get_assignment_by_id, Schedule.remove_assignment,
    Schedule.add_assignment. cbn [Schedule.assignments Schedule.id
    Schedule.name Schedule.algorithm_used].
  assert (Py.next_where
            (λ a, bool_decide (Assignment.id a = Assignment.id assignment))
            (Schedule.assignments schedule ++ [assignment]) = Some assignment
          ∧ Schedule.pop_first (Assignment.id assignment)
              (Schedule.assignments schedule ++ [assignment])
            = Some (Schedule.assignments schedule)) as [-> ->].
  { induction Hfresh as [|x l Hx _ [IH1 IH2]]; simpl.
    - by rewrite bool_decide_eq_true_2.
    - rewrite bool_decide_eq_false_2 by done. by rewrite IH1, IH2. }
  split; [done|]. by destruct schedule.
Qed.

Lemma colliding_iff_pairs a b :
  colliding a b
  ↔ (Assignment.professor_id a, Assignment.time_slot_id a)
    = (Assignment.professor_id b, Assignment.time_slot_id b)
    ∨ (Assignment.room_id a, Assignment.time_slot_id a)
      = (Assignment.room_id b, Assignment.time_slot_id b).
Proof.
  unfold colliding. split.
  - intros [Ht [Hp|Hr]]; [left | right]; congruence.
  - intros [[= Hp Ht]|[= Hr Ht]]; split; auto.
Qed.

(** Adding an assignment to a schedule without conflicts gives a schedule
    without conflicts exactly when the assignment collides with none that
    is there; a schedule with conflicts keeps them.  Removing an assignment
    never creates a conflict. *)
Theorem conflicts_under_add_and_remove (schedule : Schedule.t)
    (assignment : Assignment.t) (assignment_id : string) :
  (Schedule.has_conflicts (Schedule.add_assignment schedule assignment)
   = false
   ↔ Schedule.has_conflicts schedule = false
     ∧ ∀ other, other ∈ Schedule.assignments schedule →
         ¬ colliding assignment other)
  ∧ (Schedule.has_conflicts schedule = false →
     Schedule.has_conflicts
       (Schedule.remove_assignment schedule assignment_id).2 = false).
Proof.
  split.
  - rewrite !has_conflicts_false. unfold Schedule.add_assignment.
    cbn [Schedule.assignments].
    rewrite !fmap_app, !NoDup_app. cbn [fmap list_fmap].
    setoid_rewrite colliding_iff_pairs. split.
    + intros [(ND1 & Hp & _) (ND2 & Hr & _)]. split; [done|].
      intros other Hother [Heq|Heq].
      * eapply Hp; [|left]. rewrite Heq.
        by apply (list_elem_of_fmap_2
                    (λ a, (Assignment.professor_id a,
                           Assignment.time_slot_id a))).
      * eapply Hr; [|left]. rewrite Heq.
        by apply (list_elem_of_fmap_2
                    (λ a, (Assignment.room_id a, Assignment.time_slot_id a))).
    + intros [[ND1 ND2] Hnone].
      split; (split; [done|]); (split; [|apply NoDup_singleton]).
      * intros x (b & -> & Hb)%list_elem_of_fmap Heq%list_elem_of_singleton.
        apply (Hnone b Hb). by left.
      * intros x (b & -> & Hb)%list_elem_of_fmap Heq%list_elem_of_singleton.
        apply (Hnone b Hb). by right.
  - rewrite !has_conflicts_false. intros [ND1 ND2].
    pose proof (remove_assignment_spec schedule assignment_id) as H.
    destruct (Schedule.get_assignment_by_id _ _) as [found|].
    + destruct H as (before & after & Hl & _ & _ & ->).
      cbn [snd Schedule.assignments]. rewrite Hl in ND1, ND2.
      rewrite fmap_app, fmap_cons in ND1, ND2.
      rewrite <- Permutation_middle in ND1, ND2.
      apply NoDup_cons in ND1 as [_ ND1]. apply NoDup_cons in ND2 as [_ ND2].
      by rewrite !fmap_app.
    + by destruct H as [_ ->].
Qed.

Lemma usage_of_spec (key : Assignment.t → string) l :
  NoDup (Py.dict_keys (Schedule.usage_of key l))
  ∧ ∀ k, Py.dict_get k (Schedule.usage_of key l)
         = if decide (k ∈ key <$> l)
           then Some (Z.of_nat (length (filter (λ a, key a = k) l)))
           else None.
Proof.
  unfold Schedule.usage_of.
  induction l as [|x l [ND IH]] using rev_ind.
  - split; [constructor | done].
  - rewrite foldl_snoc. set (d := foldl _ [] l) in *.
    split; [by apply dict_keys_set_NoDup|].
    intros k. rewrite fmap_app, filter_app, length_app. simpl.
    destruct (decide (key x = k)) as [<-|Hne].
    + rewrite dict_get_set_eq, IH.
      rewrite (decide_True (P := key x ∈ _ ++ _)) by set_solver.
      rewrite filter_cons_True, filter_nil by done. f_equal. simpl.
      case_decide as Hin; simpl; [lia|].
      rewrite filter_none; [simpl; lia|].
      intros a Ha Heq. apply Hin, list_elem_of_fmap. eauto.
    + rewrite dict_get_set_ne by done.
      rewrite IH, filter_cons_False, filter_nil by done. simpl.
      rewrite Nat.add_0_r. repeat case_decide; set_solver.
Qed.

Lemma usage_of_length (key : Assignment.t → string) l :
  length (Schedule.usage_of key l)
  = size (list_to_set (key <$> l) : gset string).
Proof.
  destruct (usage_of_spec key l) as [ND Hget].
  rewrite <- (length_fmap fst). fold (Py.dict_keys (Schedule.usage_of key l)).
  unfold size, set_size. simpl. apply Permutation_length.
  apply NoDup_Permutation; [done | apply NoDup_elements |].
  intros k. rewrite elem_of_elements, elem_of_list_to_set.
  rewrite <- dict_get_is_Some, Hget.
  case_decide; split; intros Hk; try done; eauto; by destruct Hk.
Qed.

(** The usage counts of [get_utilization_stats] are the numbers of
    assignments that the [get_assignments_by_...] queries return, with an
    entry exactly for the professors, rooms and time slots that occur; the
    unique counts are the numbers of distinct ids, and a schedule without
    assignments gets no totals. *)
Theorem utilization_stats_count_assignments (schedule : Schedule.t) :
  let stats := Schedule.get_utilization_stats schedule in
  let assignments := Schedule.assignments schedule in
  (∀ professor_id,
     Py.dict_get professor_id (Schedule.professors stats)
     = if decide (professor_id ∈ Assignment.professor_id <$> assignments)
       then Some (Z.of_nat (length (Schedule.get_assignments_by_professor
                                      schedule professor_id)))
       else None)
  ∧ (∀ room_id,
       Py.dict_get room_id (Schedule.rooms stats)
       = if decide (room_id ∈ Assignment.room_id <$> assignments)
         then Some (Z.of_nat (length (Schedule.get_assignments_by_room
                                        schedule room_id)))
         else None)
  ∧ (∀ time_slot_id,
       Py.dict_get time_slot_id (Schedule.time_slots stats)
       = if decide (time_slot_id ∈ Assignment.time_slot_id <$> assignments)
         then Some (Z.of_nat (length (Schedule.get_assignments_by_time_slot
                                        schedule time_slot_id)))
         else None)
  ∧ (assignments ≠ [] →
     Schedule.total_assignments stats = Some (length assignments)
     ∧ Schedule.unique_professors stats
       = Some (size (list_to_set (Assignment.professor_id <$> assignments)
                     : gset string))
     ∧ Schedule.unique_rooms stats
       = Some (size (list_to_set (Assignment.room_id <$> assignments)
                     : gset string))
     ∧ Schedule.unique_time_slots stats
       = Some (size (list_to_set (Assignment.time_slot_id <$> assignments)
                     : gset string)))
  ∧ (assignments = [] →
     Schedule.total_assignments stats = None
     ∧ Schedule.unique_professors stats = None
     ∧ Schedule.unique_rooms stats = None
     ∧ Schedule.unique_time_slots stats = None).
Proof.
  intros stats assignments. subst stats assignments.
  unfold Schedule.get_utilization_stats,
    Schedule.get_assignments_by_professor, Schedule.get_assignments_by_room,
    Schedule.get_assignments_by_time_slot.
  case_bool_decide as Hnil.
  - rewrite Hnil. by split_and!.
  - cbn [Schedule.professors Schedule.rooms Schedule.time_slots
         Schedule.total_assignments Schedule.unique_professors
         Schedule.unique_rooms Schedule.unique_time_slots].
    split_and!; try apply usage_of_spec; try done.
    intros _. by rewrite !usage_of_length.
Qed.

(** ** Validation of the input (utils/validators.py) *)

Lemma has_duplicates_false ids :
  Validators.has_duplicates ids = false ↔ NoDup ids.
Proof.
  unfold Validators.has_duplicates.
  rewrite negb_false_iff, bool_decide_eq_true. split.
  - intros Hlen. destruct (decide (NoDup ids)) as [|Hdup]; [done|].
    apply duplicates_pos in Hdup. unfold Schedule.duplicates in Hdup. lia.
  - intros ND%duplicates_NoDup. unfold Schedule.duplicates in ND. lia.
Qed.

Lemma errors_empty (b : bool) (errors : list string) (message : string) :
  length (if b then errors ++ [message] else errors) = 0
  ↔ b = false ∧ length errors = 0.
Proof.
  destruct b; [|naive_solver]. rewrite length_app. simpl.
  split; [lia | by intros [? _]].
Qed.

Lemma no_errors_iff (errors : list string) :
  bool_decide (length errors = 0) = true ↔ errors = [].
Proof. rewrite bool_decide_eq_true. by destruct errors. Qed.

(** [validate_schedule_data] accepts the input exactly when none of the
    four lists is empty, no id occurs twice in a list and the courses need
    no more sessions per week than there are active time slots; it accepts
    exactly when it reports no error. *)
Theorem validate_schedule_data_accepts (courses : list Course.t)
    (professors : list Professor.t) (rooms : list Room.t)
    (time_slots : list TimeSlot.t) :
  let result :=
    Validators.validate_schedule_data courses professors rooms time_slots in
  (result.1 = true
   ↔ courses ≠ [] ∧ professors ≠ [] ∧ rooms ≠ [] ∧ time_slots ≠ []
     ∧ NoDup (Course.id <$> courses)
     ∧ NoDup (Professor.id <$> professors)
     ∧ NoDup (Room.id <$> rooms)
     ∧ NoDup (TimeSlot.id <$> time_slots)
     ∧ (sumZ (Course.get_sessions_per_week <$> courses)
        ≤ Z.of_nat (length (filter (λ ts, TimeSlot.is_active ts = true)
                                   time_slots)))%Z)
  ∧ (result.1 = true ↔ result.2 = []).
Proof.
  intros result. subst result. unfold Validators.validate_schedule_data.
  cbv zeta. cbn [fst snd]. split; [|apply no_errors_iff].
  rewrite bool_decide_eq_true, !errors_empty, !bool_decide_eq_false,
    !has_duplicates_false.
  unfold sumZ. split.
  - intros (?&?&?&?&?&?&?&?&?&_). split_and!; try done. lia.
  - intros (?&?&?&?&?&?&?&?&?). split_and!; try done. lia.
Qed.

(** * Instances *)

Lemma has_conflicts_iff_colliding_pair_witness :
  has_colliding_pair Sample.three_on_one_slot
  ∧ Schedule.has_conflicts Sample.three_on_one_slot = true
  ∧ (1 ≤ Schedule.get_conflict_count Sample.three_on_one_slot)%Z.
Proof.
  assert (has_colliding_pair Sample.three_on_one_slot) as H.
  { exists 0, 1, (Assignment.mk "a1" "c1" "p1" "r1" "t1" 1),
      (Assignment.mk "a2" "c2" "p1" "r1" "t1" 1).
    split; [lia|]. split; [reflexivity|]. split; [reflexivity|].
    split; [reflexivity | left; reflexivity]. }
  split; [exact H|].
  exact (proj2 (has_conflicts_iff_colliding_pair Sample.three_on_one_slot) H).
Defined.

(** Three assignments with one professor and one room on one slot count as
    four conflicts: two for the professor and two for the room. *)
Example conflict_count_three_on_one_slot :
  Schedule.get_conflict_count Sample.three_on_one_slot = 4%Z.
Proof. vm_compute. reflexivity. Qed.

Lemma csp_schedule_has_no_conflicts_witness :
  ∃ schedule,
    CSP.generate_schedule elements CSP.default_config Sample.department
    = Py.Done schedule
    ∧ length (Schedule.assignments schedule) = 3
    ∧ Schedule.has_conflicts schedule = false.
Proof.
  destruct (csp_schedule_has_no_conflicts elements CSP.default_config
              Sample.department) as (schedule & Hrun & Hfree).
  exists schedule. split; [exact Hrun|].
  vm_compute in Hrun. injection Hrun as <-.
  split; [reflexivity|]. apply Hfree. discriminate.
Defined.

Lemma initial_domain_sound_witness :
  Sample.cs103 ∈ BaseScheduler.courses Sample.department
  ∧ ("P2", "R2", "T1") ∈ CSP.course_domain Sample.department Sample.cs103
  ∧ domain_sound Sample.department Sample.cs103 ("P2", "R2", "T1").
Proof.
  assert (Sample.cs103 ∈ BaseScheduler.courses Sample.department) as Hc
    by (right; left).
  assert (("P2", "R2", "T1")
          ∈ CSP.course_domain Sample.department Sample.cs103) as Hv
    by (vm_compute; reflexivity).
  split; [exact Hc|]. split; [exact Hv|].
  exact (proj1 (initial_domain_sound Sample.department) _ _ Hc Hv).
Defined.

Lemma csp_failure_returns_sentinel_witness :
  CSP.search elements CSP.default_config Sample.no_time_slot = Py.Done None
  ∧ ∃ schedule,
      CSP.generate_schedule elements CSP.default_config Sample.no_time_slot
      = Py.Done schedule
      ∧ Schedule.id schedule = "failed"
      ∧ Schedule.name schedule = "No Solution Found"
      ∧ Schedule.assignments schedule = [].
Proof.
  assert (CSP.search elements CSP.default_config Sample.no_time_slot
          = Py.Done None) as H by (vm_compute; reflexivity).
  split; [exact H|].
  exact (csp_failure_returns_sentinel elements CSP.default_config
           Sample.no_time_slot H).
Defined.


Lemma best_fitness_never_decreases_witness :
  ∃ st rng1 st' rng2,
    Genetic.generations_loop Sample.small_config Sample.department 1
      (Genetic.mk_state
         [Sample.department_schedule; Sample.three_on_one_slot]
         None Py.neg_inf) Sample.draws = Py.Ok (st, rng1)
    ∧ Genetic.generations_loop Sample.small_config Sample.department 2
        (Genetic.mk_state
           [Sample.department_schedule; Sample.three_on_one_slot]
           None Py.neg_inf) Sample.draws = Py.Ok (st', rng2)
    ∧ Py.float_le (Genetic.best_fitness st) (Genetic.best_fitness st').
Proof.
  destruct (Genetic.generations_loop Sample.small_config Sample.department 1
              (Genetic.mk_state
                 [Sample.department_schedule; Sample.three_on_one_slot]
                 None Py.neg_inf) Sample.draws)
    as [[st rng1]|e] eqn:H1; [|vm_compute in H1; discriminate].
  destruct (Genetic.generations_loop Sample.small_config Sample.department 2
              (Genetic.mk_state
                 [Sample.department_schedule; Sample.three_on_one_slot]
                 None Py.neg_inf) Sample.draws)
    as [[st' rng2]|e] eqn:H2; [|vm_compute in H2; discriminate].
  exists st, rng1, st', rng2. split; [reflexivity|]. split; [reflexivity|].
  exact (best_fitness_never_decreases _ _ _ _ _ _ _ _ _ H1 H2).
Defined.

(** C7 (the code departs from it): the genetic solver draws the time slot
    among all active slots; where the only active slot is the lunch break,
    the schedule it returns holds an assignment in that slot. *)
Theorem genetic_assigns_lunch_slot :
  ∃ schedule rng' assignment,
    Genetic.generate_schedule Sample.small_config Sample.only_lunch
      Sample.draws = Py.Ok (schedule, rng')
    ∧ assignment ∈ Schedule.assignments schedule
    ∧ Assignment.time_slot_id assignment = TimeSlot.id Sample.monday_lunch
    ∧ Sample.monday_lunch ∈ BaseScheduler.time_slots Sample.only_lunch
    ∧ TimeSlot.slot_type Sample.monday_lunch = LUNCH.
Proof.
  eexists _, _, _. split; [vm_compute; reflexivity|].
  split; [left|]. split; [reflexivity|]. split; [left | reflexivity].
Qed.

(** The CSP solver on the same input finds no solution. *)
Example csp_refuses_lunch_slot :
  CSP.generate_schedule elements CSP.default_config Sample.only_lunch
  = Py.Done CSP.failed_schedule.
Proof. vm_compute. reflexivity. Qed.

(** C9 (the code departs from it): with an empty population and one
    generation the call raises [ValueError] ([max] of an empty list) and
    returns no schedule. *)
Theorem genetic_empty_population_raises :
  Genetic.generate_schedule Sample.no_population Sample.one_of_each
    Sample.draws = Py.Raise Py.ValueError.
Proof. vm_compute. reflexivity. Qed.

(** With no generation at all the "empty" schedule is returned. *)
Example genetic_no_generation_returns_empty :
  ∃ rng',
    Genetic.generate_schedule (Genetic.mk_config 4 0 0.1 0.8 1)
      Sample.one_of_each Sample.draws
    = Py.Ok (Genetic.empty_schedule, rng').
Proof. eexists. vm_compute. reflexivity. Qed.

(** ** Instances of the further properties *)

Lemma two_domains_NoDup : NoDup (Py.dict_keys Sample.two_domains).
Proof. apply (bool_decide_unpack _). vm_compute. exact I. Qed.

Lemma two_domains_feasible : feasible Sample.two_domains Sample.two_values.
Proof.
  split.
  - intros course_id domain Hin.
    apply elem_of_cons in Hin as [[= -> ->]|Hin]; [set_solver|].
    apply elem_of_cons in Hin as [[= -> ->]|Hin]; [|by apply elem_of_nil in Hin].
    set_solver.
  - intros c1 c2 H1 H2 Hne.
    apply elem_of_cons in H1 as [->|H1];
      [|apply list_elem_of_singleton in H1 as ->];
      (apply elem_of_cons in H2 as [->|H2];
       [|apply list_elem_of_singleton in H2 as ->]);
      try done; vm_compute; reflexivity.
Qed.

Lemma apply_arc_consistency_only_prunes_witness :
  NoDup (Py.dict_keys Sample.two_domains)
  ∧ ∃ domains',
      CSP._apply_arc_consistency Sample.two_domains = Py.Done domains'
      ∧ Py.dict_keys domains' = Py.dict_keys Sample.two_domains.
Proof.
  split; [exact two_domains_NoDup|].
  destruct (apply_arc_consistency_only_prunes Sample.two_domains
              two_domains_NoDup) as (domains' & Hrun & Hkeys & _).
  exists domains'. split; [exact Hrun | exact Hkeys].
Defined.

Lemma apply_arc_consistency_keeps_solutions_witness :
  ∃ domains',
    NoDup (Py.dict_keys Sample.two_domains)
    ∧ CSP._apply_arc_consistency Sample.two_domains = Py.Done domains'
    ∧ feasible Sample.two_domains Sample.two_values
    ∧ feasible domains' Sample.two_values.
Proof.
  destruct (apply_arc_consistency_returns Sample.two_domains)
    as [domains' Hrun].
  exists domains'. split; [exact two_domains_NoDup|].
  split; [exact Hrun|]. split; [exact two_domains_feasible|].
  exact (apply_arc_consistency_keeps_solutions Sample.two_domains domains'
           Sample.two_values two_domains_NoDup Hrun two_domains_feasible).
Defined.

Lemma forward_check_prunes_conflicts_witness :
  NoDup (Py.dict_keys Sample.two_domains)
  ∧ Py.dict_keys (CSP._forward_check "A" ("P1", "R1", "T1") Sample.two_domains)
    = Py.dict_keys Sample.two_domains
  ∧ CSP.domain_of
      (CSP._forward_check "A" ("P1", "R1", "T1") Sample.two_domains) "A"
    = {[("P1", "R1", "T1")]}.
Proof.
  split; [exact two_domains_NoDup|].
  destruct (forward_check_prunes_conflicts "A" ("P1", "R1", "T1")
              Sample.two_domains two_domains_NoDup) as (Hkeys & Hown & _).
  split; [exact Hkeys|]. apply Hown. left.
Defined.

Lemma csp_schedule_assigns_each_course_once_witness :
  ∃ schedule,
    CSP.generate_schedule elements CSP.default_config Sample.department
    = Py.Done schedule
    ∧ Schedule.assignments schedule ≠ []
    ∧ NoDup (Assignment.course_id <$> Schedule.assignments schedule).
Proof.
  destruct (CSP.generate_schedule elements CSP.default_config
              Sample.department) as [schedule|] eqn:Hrun;
    [|vm_compute in Hrun; discriminate].
  assert (Schedule.assignments schedule ≠ []) as Hne.
  { pose proof Hrun as Hrun'. vm_compute in Hrun'. injection Hrun' as <-.
    discriminate. }
  exists schedule. split; [reflexivity|]. split; [exact Hne|].
  exact (proj1 (csp_schedule_assigns_each_course_once elements
                  CSP.default_config Sample.department schedule Hrun Hne)).
Defined.

Lemma csp_assignments_meet_domain_conditions_witness :
  ∃ schedule assignment,
    (∀ (X : gset triple) x, x ∈ elements X → x ∈ X)
    ∧ CSP.generate_schedule elements CSP.default_config Sample.department
      = Py.Done schedule
    ∧ assignment ∈ Schedule.assignments schedule
    ∧ Assignment.session_number assignment = 1%Z.
Proof.
  assert (∀ (X : gset triple) x, x ∈ elements X → x ∈ X) as Hord
    by (intros X x; apply elem_of_elements).
  destruct (CSP.generate_schedule elements CSP.default_config
              Sample.department) as [schedule|] eqn:Hrun;
    [|vm_compute in Hrun; discriminate].
  assert (Schedule.assignments schedule ≠ []) as Hne.
  { pose proof Hrun as Hrun'. vm_compute in Hrun'. injection Hrun' as <-.
    discriminate. }
  assert (∃ assignment, assignment ∈ Schedule.assignments schedule)
    as [assignment Hin].
  { destruct (Schedule.assignments schedule) as [|assignment l];
      [by destruct Hne|]. exists assignment. left. }
  exists schedule, assignment. split; [exact Hord|]. split; [reflexivity|].
  split; [exact Hin|].
  exact (proj2 (proj2 (csp_assignments_meet_domain_conditions elements
                         CSP.default_config Sample.department schedule
                         assignment Hord Hrun Hin))).
Defined.

Lemma csp_failure_means_infeasible_witness :
  (∀ (X : gset triple) x, x ∈ X → x ∈ elements X)
  ∧ BaseScheduler.courses Sample.no_time_slot ≠ []
  ∧ ∃ schedule,
      CSP.generate_schedule elements CSP.default_config Sample.no_time_slot
      = Py.Done schedule
      ∧ Schedule.assignments schedule = []
      ∧ ¬ ∃ f, feasible
                 (CSP._initialize_domains
                    (BaseScheduler.preprocess_data Sample.no_time_slot)) f.
Proof.
  assert (∀ (X : gset triple) x, x ∈ X → x ∈ elements X) as Hord
    by (intros X x; apply elem_of_elements).
  assert (BaseScheduler.courses Sample.no_time_slot ≠ []) as Hne
    by discriminate.
  split; [exact Hord|]. split; [exact Hne|].
  destruct (CSP.generate_schedule elements CSP.default_config
              Sample.no_time_slot) as [schedule|] eqn:Hrun;
    [|vm_compute in Hrun; discriminate].
  assert (Schedule.assignments schedule = []) as Hnil.
  { pose proof Hrun as Hrun'. vm_compute in Hrun'. injection Hrun' as <-.
    reflexivity. }
  exists schedule. split; [reflexivity|]. split; [exact Hnil|].
  exact (csp_failure_means_infeasible elements CSP.default_config
           Sample.no_time_slot schedule Hord Hne Hrun Hnil).
Defined.

Lemma generate_schedule_empty_population_witness :
  (Genetic.population_size Sample.no_population ≤ 0)%Z
  ∧ (1 ≤ Genetic.generations Sample.no_population)%Z
  ∧ Genetic.generate_schedule Sample.no_population Sample.department
      Sample.draws = Py.Raise Py.ValueError.
Proof.
  assert (Genetic.population_size Sample.no_population ≤ 0)%Z as Hpop
    by (simpl; lia).
  assert (1 ≤ Genetic.generations Sample.no_population)%Z as Hgen
    by (simpl; lia).
  split; [exact Hpop|]. split; [exact Hgen|].
  exact (generate_schedule_empty_population Sample.no_population
           Sample.department Sample.draws Hpop Hgen).
Defined.

Lemma generate_schedule_no_generation_witness :
  (Genetic.generations (Genetic.mk_config 4 0 0.1 0.8 1) ≤ 0)%Z
  ∧ ∃ rng',
      Genetic.generate_schedule (Genetic.mk_config 4 0 0.1 0.8 1)
        Sample.department Sample.draws
      = Py.Ok (Genetic.empty_schedule, rng').
Proof.
  assert (Genetic.generations (Genetic.mk_config 4 0 0.1 0.8 1) ≤ 0)%Z
    as Hgen by (simpl; lia).
  split; [exact Hgen|].
  exact (generate_schedule_no_generation (Genetic.mk_config 4 0 0.1 0.8 1)
           Sample.department Sample.draws Hgen).
Defined.

Lemma genetic_generate_schedule_returns_witness :
  (1 ≤ Genetic.population_size Sample.small_config)%Z
  ∧ ∃ schedule rng',
      Genetic.generate_schedule Sample.small_config Sample.department
        Sample.draws = Py.Ok (schedule, rng').
Proof.
  assert (1 ≤ Genetic.population_size Sample.small_config)%Z as Hpop
    by (simpl; lia).
  split; [exact Hpop|].
  exact (genetic_generate_schedule_returns Sample.small_config
           Sample.department Sample.draws Hpop).
Defined.

Lemma genetic_schedule_is_individual_witness :
  ∃ schedule rng',
    Genetic.generate_schedule Sample.small_config Sample.department
      Sample.draws = Py.Ok (schedule, rng')
    ∧ Forall (drawn Sample.department) (Schedule.assignments schedule).
Proof.
  destruct (Genetic.generate_schedule Sample.small_config Sample.department
              Sample.draws) as [[schedule rng']|e] eqn:Hrun;
    [|vm_compute in Hrun; discriminate].
  exists schedule, rng'. split; [reflexivity|].
  exact (proj1 (genetic_schedule_is_individual Sample.small_config
                  Sample.department Sample.draws schedule rng' Hrun)).
Defined.

Lemma genetic_returns_fittest_evaluated_witness :
  ∃ schedule rng' population rng0,
    Genetic.generate_schedule Sample.small_config Sample.department
      Sample.draws = Py.Ok (schedule, rng')
    ∧ 0 < individual_size (BaseScheduler.preprocess_data Sample.department)
    ∧ Genetic._initialize_population Sample.small_config
        (BaseScheduler.preprocess_data Sample.department) Sample.draws
      = Py.Ok (population, rng0).
Proof.
  destruct (Genetic.generate_schedule Sample.small_config Sample.department
              Sample.draws) as [[schedule rng']|e] eqn:Hrun;
    [|vm_compute in Hrun; discriminate].
  assert (0 < individual_size (BaseScheduler.preprocess_data
                                 Sample.department)) as Hsize
    by (vm_compute; lia).
  destruct (genetic_returns_fittest_evaluated Sample.small_config
              Sample.department Sample.draws schedule rng' Hrun Hsize)
    as (population & rng0 & Hinit & _).
  exists schedule, rng', population, rng0.
  split; [reflexivity|]. split; [exact Hsize | exact Hinit].
Defined.




Lemma time_slot_derived_duration_witness :
  valid_time Sample.nine ∧ valid_time Sample.half_past_ten
  ∧ TimeSlot.new true "T9" MONDAY Sample.half_past_ten Sample.nine REGULAR
      None true
    = Py.Raise Py.ValueError.
Proof.
  assert (valid_time Sample.nine) as Hnine
    by (unfold valid_time; simpl; lia).
  assert (valid_time Sample.half_past_ten) as Hten
    by (unfold valid_time; simpl; lia).
  split; [exact Hnine|]. split; [exact Hten|].
  refine (proj1 (proj2 (proj2 (time_slot_derived_duration true "T9" MONDAY
                                 Sample.half_past_ten Sample.nine REGULAR
                                 true Hten Hnine))) _ eq_refl).
  vm_compute. discriminate.
Defined.

Lemma add_then_remove_assignment_witness :
  Forall (λ a, Assignment.id a ≠ "a3")
         (Schedule.assignments Sample.department_schedule)
  ∧ Schedule.remove_assignment
      (Schedule.add_assignment Sample.department_schedule
         (Assignment.mk "a3" "CS102" "P1" "R1" "T2" 1)) "a3"
    = (true, Sample.department_schedule).
Proof.
  assert (Forall (λ a, Assignment.id a ≠ "a3")
                 (Schedule.assignments Sample.department_schedule)) as Hfresh
    by (repeat constructor; discriminate).
  split; [exact Hfresh|].
  exact (proj2 (add_then_remove_assignment Sample.department_schedule
                  (Assignment.mk "a3" "CS102" "P1" "R1" "T2" 1) Hfresh)).
Defined.
